(** * The Tencent Cloud COS storage driver, embedded in Rocq

    The repository carries two versions of the driver:
    - [registry/storage/driver/cos/cos.go], embedded in module [CosA];
    - a second [cos.go] (package [cos], with the [appid] and [skipverify]
      parameters), embedded in module [CosB].

    Both are written against the same SDK client.  The client is external
    to the repository: it is modelled as a handler answering each request
    from a backend state of an arbitrary type, and every request a driver
    method issues is recorded in order. *)

From Stdlib Require Import String Ascii List ZArith Lia Bool.
From Stdlib Require Import Strings.Byte.
Import ListNotations.
Local Open Scope string_scope.
Local Open Scope Z_scope.
Local Open Scope list_scope.

(** ** The Go standard library functions the driver calls *)

Module Go.

(** [len(s)] as an [int]. *)
Definition len (s : string) : Z := Z.of_nat (String.length s).

(** [s[n:]] for [n <= len(s)]. *)
Fixpoint drop (n : nat) (s : string) : string :=
  match n, s with
  | O, _ => s
  | S n', String _ s' => drop n' s'
  | S _, EmptyString => EmptyString
  end.

(** [strings.HasPrefix(s, prefix)]. *)
Fixpoint HasPrefix (s prefix : string) {struct prefix} : bool :=
  match prefix, s with
  | EmptyString, _ => true
  | String c prefix', String c' s' => Ascii.eqb c' c && HasPrefix s' prefix'
  | String _ _, EmptyString => false
  end.

(** [strings.TrimPrefix(s, prefix)]: [s] without the leading [prefix]
    string; [s] itself when it does not start with [prefix]. *)
Definition TrimPrefix (s prefix : string) : string :=
  if HasPrefix s prefix then drop (String.length prefix) s else s.

(** Membership of a byte in a cutset. *)
Fixpoint contains (cutset : string) (c : ascii) : bool :=
  match cutset with
  | EmptyString => false
  | String c' cutset' => Ascii.eqb c c' || contains cutset' c
  end.

(** [strings.TrimLeft(s, cutset)]: [s] without all leading characters
    contained in [cutset]. *)
Fixpoint TrimLeft (s cutset : string) : string :=
  match s with
  | EmptyString => EmptyString
  | String c s' => if contains cutset c then TrimLeft s' cutset else s
  end.

(** [s == ""]. *)
Definition is_empty (s : string) : bool :=
  match s with EmptyString => true | String _ _ => false end.

(** A decimal digit's value. *)
Definition digit (c : ascii) : option Z :=
  let n := Z.of_N (N_of_ascii c) in
  if (48 <=? n) && (n <=? 57) then Some (n - 48) else None.

(** The value of a non-empty run of decimal digits, [None] on any other
    character ([strconv.ParseUint(s, 10, 64)] before its range check). *)
Fixpoint digits (acc : Z) (s : string) : option Z :=
  match s with
  | EmptyString => Some acc
  | String c s' =>
      match digit c with
      | Some d => digits (10 * acc + d) s'
      | None => None
      end
  end.

(** The value [v] of [n, _ := strconv.ParseInt(s, 10, 64)], the error
    dropped: 0 on a syntax error, the nearest bound when out of range. *)
Definition ParseInt (s : string) : Z :=
  match s with
  | EmptyString => 0
  | String c s' =>
      let neg := Ascii.eqb c "-" in
      let body := if neg || Ascii.eqb c "+" then s' else s in
      match body with
      | EmptyString => 0
      | String _ _ =>
          match digits 0 body with
          | None => 0
          | Some un =>
              if neg then (if 2 ^ 63 <? un then - 2 ^ 63 else - un)
              else (if 2 ^ 63 <=? un then 2 ^ 63 - 1 else un)
          end
      end
  end.

(** The value of an [int64] expression: two's complement wrap-around. *)
Definition wrap64 (z : Z) : Z := (z + 2 ^ 63) mod 2 ^ 64 - 2 ^ 63.
Arguments wrap64 : simpl never.

(** [time.Time] values as the driver obtains them; the calendar is not
    interpreted. *)
Inductive Time : Type :=
| zeroTime                                   (* the zero [time.Time] *)
| Parse (layout value : string)              (* [t, _ := time.Parse(layout, value)] *)
| Now.                                       (* [time.Now()] *)

Definition http_TimeFormat : string := "Mon, 02 Jan 2006 15:04:05 GMT".
Definition time_RFC1123 : string := "Mon, 02 Jan 2006 15:04:05 MST".

(** [s[:n]] for [n <= len(s)]. *)
Fixpoint take (n : nat) (s : string) : string :=
  match n, s with
  | S n', String c s' => String c (take n' s')
  | _, _ => EmptyString
  end.

(** [strings.HasSuffix(s, suffix)]. *)
Definition HasSuffix (s suffix : string) : bool :=
  (String.length suffix <=? String.length s)%nat
  && String.eqb (drop (String.length s - String.length suffix) s) suffix.

(** [strings.TrimSuffix(s, suffix)]. *)
Definition TrimSuffix (s suffix : string) : string :=
  if HasSuffix s suffix then take (String.length s - String.length suffix) s
  else s.

(** [s[len(s)-1]], [None] where the index is out of range (the empty
    string). *)
Fixpoint last_byte (s : string) : option ascii :=
  match s with
  | EmptyString => None
  | String c EmptyString => Some c
  | String _ s' => last_byte s'
  end.

(** The character of a decimal digit. *)
Definition digit_char (d : Z) : ascii := ascii_of_N (Z.to_N (48 + d)).

(** The decimal digits of [n >= 0] in front of [acc], last digit first
    as [strconv] writes them; [fuel] bounds the number of digits. *)
Fixpoint format_digits (fuel : nat) (n : Z) (acc : string) : string :=
  match fuel with
  | O => acc
  | S fuel' =>
      let acc' := String (digit_char (n mod 10)) acc in
      if n <? 10 then acc' else format_digits fuel' (n / 10) acc'
  end.

(** [strconv.FormatInt(z, 10)] for an [int64] (at most 19 digits), which
    is how [fmt.Sprint] and the verb [%d] print an [int]. *)
Definition FormatInt (z : Z) : string :=
  if z <? 0 then String "-" (format_digits 20 (- z) "")
  else format_digits 20 z "".

(** [strconv.Atoi(s)] on a 64-bit platform: [None] for a syntax or a
    range error. *)
Definition Atoi (s : string) : option Z :=
  match s with
  | EmptyString => None
  | String c s' =>
      let neg := Ascii.eqb c "-" in
      let body := if neg || Ascii.eqb c "+" then s' else s in
      match body with
      | EmptyString => None
      | String _ _ =>
          match digits 0 body with
          | None => None
          | Some un =>
              if neg then (if 2 ^ 63 <? un then None else Some (- un))
              else (if 2 ^ 63 <=? un then None else Some un)
          end
      end
  end.

(** [strconv.ParseBool(s)], [None] for an error. *)
Definition ParseBool (s : string) : option bool :=
  if existsb (String.eqb s) ["1"; "t"; "T"; "TRUE"; "true"; "True"] then
    Some true
  else if existsb (String.eqb s) ["0"; "f"; "F"; "FALSE"; "false"; "False"] then
    Some false
  else None.

(** The dynamic values of a parameter map, [map[string]interface{}]: the
    types the driver tells apart, and any other type with what
    [fmt.Sprint] prints for it. *)
Inductive value : Type :=
| VString (s : string)
| VBool (b : bool)
| VInt (n : Z)
| VOther (printed : string).

(** [fmt.Sprint(v)], which is also what the verb [%v] prints. *)
Definition Sprint (v : value) : string :=
  match v with
  | VString s => s
  | VBool true => "true"
  | VBool false => "false"
  | VInt n => FormatInt n
  | VOther printed => printed
  end.

(** A parameter map; [None] is the nil interface of a missing key. *)
Definition parameters : Type := string -> option value.

(** [strings.TrimRight(s, cutset)]: [s] without all trailing characters
    contained in [cutset]. *)
Fixpoint TrimRight (s cutset : string) : string :=
  match s with
  | EmptyString => EmptyString
  | String c s' =>
      let rest := TrimRight s' cutset in
      if is_empty rest && contains cutset c then EmptyString
      else String c rest
  end.

End Go.

(** ** The SDK client, the errors and the effects of a driver method *)

Module Sdk.

(** Go [error] values that occur in the driver (never [nil]; a nilable
    [error] is an [option error]). *)
Inductive error : Type :=
| ErrorResponse (Code Message : string)          (* [*cos.ErrorResponse] *)
| TransportError (msg : string)                  (* any other error of the SDK *)
| Errorf (msg : string)                          (* [fmt.Errorf], [errors.New] *)
| PathNotFoundError (Path DriverName : string)   (* [storagedriver.PathNotFoundError] *)
| StorageError (DriverName : string) (Detail : error). (* [storagedriver.Error] *)

(** A Go result pair [(v, err)] of which exactly one side is meaningful. *)
Inductive result (T : Type) : Type :=
| Ok (v : T)
| Err (e : error).
Arguments Ok {T} v.
Arguments Err {T} e.

(** [http.Header], and [Header.Get]: the first value of the key, the
    empty string when it is absent. *)
Definition Header : Type := list (string * string).

Fixpoint Header_Get (h : Header) (key : string) : string :=
  match h with
  | [] => ""
  | (k, v) :: h' => if String.eqb k key then v else Header_Get h' key
  end.

(** The fields of [cos.Object] the driver reads or writes. *)
Record Object : Type := mkObject {
  Key : string;
  PartNumber : Z;
  ETag : string
}.

Record BucketGetOptions : Type := mkBucketGetOptions {
  Prefix : string;
  Delimiter : string;
  Marker : string;
  MaxKeys : Z
}.

Record BucketGetResult : Type := mkBucketGetResult {
  Contents : list Object;
  CommonPrefixes : list string;
  IsTruncated : bool;
  NextMarker : string
}.

(** The requests of [cos.Client] the driver issues, with the arguments
    that the driver chooses. *)
Inductive Call : Type :=
| CallHead (key : string)
| CallPut (key : string) (body : list byte)
| CallBucketGet (opt : BucketGetOptions)
| CallCopy (destKey sourceURL : string)
| CallDelete (key : string)
| CallDeleteMulti (keys : list string) (quiet : bool)
| CallInitiateMultipartUpload (key : string)
| CallUploadPart (key uploadID : string) (partNumber : Z) (data : list byte)
| CallCompleteMultipartUpload (key uploadID : string) (parts : list Object)
| CallAbortMultipartUpload (key uploadID : string).

(** What each request returns to the driver. *)
Definition resp (c : Call) : Type :=
  match c with
  | CallHead _ => result Header
  | CallPut _ _ => option error
  | CallBucketGet _ => result BucketGetResult
  | CallCopy _ _ => option error
  | CallDelete _ => option error
  | CallDeleteMulti _ _ => option error
  | CallInitiateMultipartUpload _ => result string
  | CallUploadPart _ _ _ _ => result Header
  | CallCompleteMultipartUpload _ _ _ => option error
  | CallAbortMultipartUpload _ _ => option error
  end.

(** A client answers a request from the state of the backend, which it
    may change. *)
Definition client (B : Type) : Type := forall c : Call, B -> resp c * B.

(** The world a driver method runs in: the backend and the requests
    issued so far, oldest first. *)
Record World (B : Type) : Type := mkWorld {
  backend : B;
  calls : list Call
}.
Arguments mkWorld {B} backend calls.
Arguments backend {B} w.
Arguments calls {B} w.

(** How a method ends: it returns, it dereferences a nil pointer, or its
    loop is still running when the fuel is spent. *)
Inductive outcome (B A : Type) : Type :=
| Done (a : A) (w : World B)
| Panic
| OutOfFuel.
Arguments Done {B A} a w.
Arguments Panic {B A}.
Arguments OutOfFuel {B A}.

Definition M (B A : Type) : Type := World B -> outcome B A.

Definition ret {B A : Type} (a : A) : M B A := fun w => Done a w.

Definition bind {B A A' : Type} (m : M B A) (k : A -> M B A') : M B A' :=
  fun w =>
    match m w with
    | Done a w' => k a w'
    | Panic => Panic
    | OutOfFuel => OutOfFuel
    end.

Definition panic {B A : Type} : M B A := fun _ => Panic.

Definition out_of_fuel {B A : Type} : M B A := fun _ => OutOfFuel.

(** Issue one request. *)
Definition call {B : Type} (cl : client B) (c : Call) : M B (resp c) :=
  fun w =>
    let (r, b') := cl c (backend w) in
    Done r (mkWorld b' (calls w ++ [c])).

Declare Scope go_scope.
Delimit Scope go_scope with go.
Notation "x <- m ;; k" := (bind m (fun x => k))
  (at level 61, m at next level, right associativity) : go_scope.
Notation "' pat <- m ;; k" := (bind m (fun x => match x with pat => k end))
  (at level 61, pat pattern, m at next level, right associativity) : go_scope.

(** [storagedriver.FileInfoFields]. *)
Record FileInfo : Type := mkFileInfo {
  Path : string;
  Size : Z;
  ModTime : Go.Time;
  IsDir : bool
}.

End Sdk.

(** ** [registry/storage/driver/cos/cos.go] *)

Module CosA.
Import Go Sdk.
Local Open Scope go_scope.

(** The [driver] struct.  [Host] stands for
    [Client.BaseURL.BucketURL.Host]; the buffer pool only recycles
    buffers that [newWriter] resets, so it is left out. *)
Record driver (B : Type) : Type := mkDriver {
  Client : client B;
  Host : string;
  Bucket : string;
  RootDirectory : string;
  ChunkSize : Z;
  MaxConcurrency : Z
}.
Arguments mkDriver {B}.
Arguments Client {B} d.
Arguments Host {B} d.
Arguments Bucket {B} d.
Arguments RootDirectory {B} d.
Arguments ChunkSize {B} d.
Arguments MaxConcurrency {B} d.

(** [driver.cosPath]. *)
Definition cosPath {B : Type} (d : driver B) (path : string) : string :=
  if is_empty (RootDirectory d) then TrimPrefix path "/"
  else TrimPrefix (RootDirectory d ++ path)%string "/".

(** [parseError] on an error that is not [nil] (on [nil] it returns
    [nil]). *)
Definition parseError (path : string) (err : error) : error :=
  match err with
  | ErrorResponse Code Message =>
      if (Code =? "NoSuchKey")%string then PathNotFoundError path ""
      else if (Code =? "AccessDenied")%string then
        Errorf ("access denied: " ++ Message)%string
      else if (Code =? "BucketNotFound")%string then
        Errorf ("bucket not found: " ++ Message)%string
      else Errorf ("cos error: " ++ Code ++ " - " ++ Message)%string
  | _ => err
  end.

(** The [writer] struct; [buf] is [None] for the nil pointer. *)
Record writer (B : Type) : Type := mkWriter {
  driver_ : driver B;
  key : string;
  uploadID : string;
  parts : list Object;
  size : Z;
  buf : option (list byte);
  closed : bool;
  committed : bool;
  cancelled : bool
}.
Arguments mkWriter {B}.
Arguments driver_ {B} w.
Arguments key {B} w.
Arguments uploadID {B} w.
Arguments parts {B} w.
Arguments size {B} w.
Arguments buf {B} w.
Arguments closed {B} w.
Arguments committed {B} w.
Arguments cancelled {B} w.

Definition set_parts {B} (w : writer B) (v : list Object) : writer B :=
  mkWriter (driver_ w) (key w) (uploadID w) v (size w) (buf w)
           (closed w) (committed w) (cancelled w).
Definition set_size {B} (w : writer B) (v : Z) : writer B :=
  mkWriter (driver_ w) (key w) (uploadID w) (parts w) v (buf w)
           (closed w) (committed w) (cancelled w).
Definition set_buf {B} (w : writer B) (v : option (list byte)) : writer B :=
  mkWriter (driver_ w) (key w) (uploadID w) (parts w) (size w) v
           (closed w) (committed w) (cancelled w).
Definition set_closed {B} (w : writer B) (v : bool) : writer B :=
  mkWriter (driver_ w) (key w) (uploadID w) (parts w) (size w) (buf w)
           v (committed w) (cancelled w).
Definition set_committed {B} (w : writer B) (v : bool) : writer B :=
  mkWriter (driver_ w) (key w) (uploadID w) (parts w) (size w) (buf w)
           (closed w) v (cancelled w).
Definition set_cancelled {B} (w : writer B) (v : bool) : writer B :=
  mkWriter (driver_ w) (key w) (uploadID w) (parts w) (size w) (buf w)
           (closed w) (committed w) v.

(** [driver.newWriter]: the buffer comes from the pool and is reset. *)
Definition newWriter {B} (d : driver B) (key uploadID : string)
    (parts : list Object) : writer B :=
  mkWriter d key uploadID parts 0 (Some []) false false false.

(** [writer.uploadPart]: the whole buffer goes out as one part. *)
Definition uploadPart {B} (w : writer B) : M B (writer B * option error) :=
  match buf w with
  | None => panic
  | Some b =>
      if Z.of_nat (length b) =? 0 then ret (w, None)
      else
        let partNumber := Z.of_nat (length (parts w)) + 1 in
        let data := b in
        let w := set_buf w (Some []) in
        r <- call (Client (driver_ w))
               (CallUploadPart (key w) (uploadID w) partNumber data) ;;
        match r with
        | Err err => ret (w, Some err)
        | Ok header =>
            ret (set_parts w
                   (parts w ++ [mkObject "" partNumber (Header_Get header "ETag")]),
                 None)
        end
  end.

(** The loop of [writer.Write]:
    [for w.buf.Len() >= w.driver.ChunkSize { ... uploadPart ... }]. *)
Fixpoint Write_loop {B} (fuel : nat) (w : writer B)
    : M B (writer B * option error) :=
  match fuel with
  | O => out_of_fuel
  | S fuel' =>
      match buf w with
      | None => panic
      | Some b =>
          if ChunkSize (driver_ w) <=? Z.of_nat (length b) then
            ' (w, err) <- uploadPart w ;;
            match err with
            | Some e => ret (w, Some e)
            | None => Write_loop fuel' w
            end
          else ret (w, None)
      end
  end.

(** [writer.Write]; [bytes.Buffer.Write] takes all of [p] and never
    returns an error. *)
Definition Write {B} (fuel : nat) (w : writer B) (p : list byte)
    : M B (writer B * (Z * option error)) :=
  if closed w then ret (w, (0, Some (Errorf "already closed")))
  else if cancelled w then ret (w, (0, Some (Errorf "already cancelled")))
  else if committed w then ret (w, (0, Some (Errorf "already committed")))
  else
    match buf w with
    | None => panic
    | Some b =>
        let n := Z.of_nat (length p) in
        let w := set_buf w (Some (b ++ p)) in
        let w := set_size w (wrap64 (size w + n)) in
        ' (w, err) <- Write_loop fuel w ;;
        ret (w, (n, err))
    end.

(** [writer.Size]. *)
Definition Size {B} (w : writer B) : Z := size w.

(** [writer.Close]. *)
Definition Close {B} (w : writer B) : writer B * option error :=
  if closed w then (w, None)
  else
    let w := set_closed w true in
    let w := match buf w with
             | Some _ => set_buf w None
             | None => w
             end in
    (w, None).

(** [writer.Cancel]. *)
Definition Cancel {B} (w : writer B) : M B (writer B * option error) :=
  if closed w then ret (w, None)
  else
    let w := set_cancelled w true in
    let w := fst (Close w) in
    err <- call (Client (driver_ w))
             (CallAbortMultipartUpload (key w) (uploadID w)) ;;
    ret (w, err).

(** [writer.Commit]. *)
Definition Commit {B} (w : writer B) : M B (writer B * option error) :=
  if closed w && negb (committed w) && negb (cancelled w) then
    ret (w, Some (Errorf "already closed"))
  else if committed w then ret (w, Some (Errorf "already committed"))
  else if cancelled w then ret (w, Some (Errorf "already cancelled"))
  else
    ' (w, err) <- uploadPart w ;;
    match err with
    | Some e => ret (w, Some e)
    | None =>
        err <- call (Client (driver_ w))
                 (CallCompleteMultipartUpload (key w) (uploadID w) (parts w)) ;;
        match err with
        | Some e => ret (w, Some e)
        | None => ret (Close (set_committed w true))
        end
    end.

(** The two places of [driver.Writer] that start a new multipart upload. *)
Definition startUpload {B} (d : driver B) (path key : string)
    : M B (result (writer B)) :=
  r <- call (Client d) (CallInitiateMultipartUpload key) ;;
  match r with
  | Err err => ret (Err (parseError path err))
  | Ok uploadID => ret (Ok (newWriter d key uploadID []))
  end.

(** [driver.Writer]. *)
Definition Writer {B} (d : driver B) (path : string) (append : bool)
    : M B (result (writer B)) :=
  let key := cosPath d path in
  if negb append then startUpload d path key
  else
    r <- call (Client d) (CallHead key) ;;
    match r with
    | Err _ => startUpload d path key
    | Ok _ => ret (Err (Errorf "append mode not supported for existing objects"))
    end.

(** [driver.Stat]. *)
Definition Stat {B} (d : driver B) (path : string) : M B (result FileInfo) :=
  let cosPath := cosPath d path in
  r <- call (Client d) (CallHead cosPath) ;;
  match r with
  | Err err =>
      let opt := mkBucketGetOptions (cosPath ++ "/")%string "/" "" 1 in
      lr <- call (Client d) (CallBucketGet opt) ;;
      match lr with
      | Err _ => ret (Err (parseError path err))
      | Ok result =>
          if (0 <? Z.of_nat (length (Contents result)))
             || (0 <? Z.of_nat (length (CommonPrefixes result))) then
            ret (Ok (mkFileInfo path 0 zeroTime true))
          else ret (Err (parseError path err))
      end
  | Ok header =>
      let lastModified := Header_Get header "Last-Modified" in
      let modTime :=
        if negb (is_empty lastModified) then Parse http_TimeFormat lastModified
        else zeroTime in
      let contentLength := Header_Get header "Content-Length" in
      let size :=
        if negb (is_empty contentLength) then ParseInt contentLength else 0 in
      ret (Ok (mkFileInfo path size modTime false))
  end.

(** [driver.Move]. *)
Definition Move {B} (d : driver B) (sourcePath destPath : string)
    : M B (option error) :=
  let sourceKey := cosPath d sourcePath in
  let destKey := cosPath d destPath in
  let sourceURL :=
    (Bucket d ++ ".cos." ++ Host d ++ ".myqcloud.com/" ++ sourceKey)%string in
  err <- call (Client d) (CallCopy destKey sourceURL) ;;
  match err with
  | Some err => ret (Some (parseError sourcePath err))
  | None =>
      err <- call (Client d) (CallDelete sourceKey) ;;
      match err with
      | Some err =>
          _ <- call (Client d) (CallDelete destKey) ;;
          ret (Some (parseError sourcePath err))
      | None => ret None
      end
  end.

(** The listing loop of [driver.Delete]. *)
Fixpoint Delete_loop {B} (fuel : nat) (d : driver B) (path : string)
    (opt : BucketGetOptions) : M B (option error) :=
  match fuel with
  | O => out_of_fuel
  | S fuel' =>
      r <- call (Client d) (CallBucketGet opt) ;;
      match r with
      | Err err => ret (Some (parseError path err))
      | Ok result =>
          derr <- (if 0 <? Z.of_nat (length (Contents result)) then
                     call (Client d)
                       (CallDeleteMulti (map Key (Contents result)) true)
                   else ret None) ;;
          match derr with
          | Some err => ret (Some (parseError path err))
          | None =>
              if negb (IsTruncated result) then ret None
              else
                Delete_loop fuel' d path
                  (mkBucketGetOptions (Prefix opt) (Delimiter opt)
                     (NextMarker result) (MaxKeys opt))
          end
      end
  end.

(** [driver.Delete]. *)
Definition Delete {B} (fuel : nat) (d : driver B) (path : string)
    : M B (option error) :=
  let cosPath := cosPath d path in
  err <- call (Client d) (CallDelete cosPath) ;;
  match err with
  | None => ret None
  | Some _ => Delete_loop fuel d path (mkBucketGetOptions cosPath "" "" 1000)
  end.

(** The constants of the file. *)
Definition defaultChunkSize : Z := 16 * 1024 * 1024.
Definition minChunkSize : Z := 5 * 1024 * 1024.
Definition maxChunkSize : Z := 100 * 1024 * 1024.
Definition defaultMaxConcurrency : Z := 10.
Definition minConcurrency : Z := 1.

(** The [DriverParameters] struct. *)
Module DriverParameters.
Record t : Type := mk {
  SecretID : string;
  SecretKey : string;
  Region : string;
  Bucket : string;
  RootDirectory : string;
  ChunkSize : Z;
  MaxConcurrency : Z;
  Secure : bool
}.
End DriverParameters.

(** [v == nil || fmt.Sprint(v) == ""], the test of a required parameter. *)
Definition missing (v : option value) : bool :=
  match v with
  | None => true
  | Some v => is_empty (Sprint v)
  end.

(** The chunk size part of [parseParameters]. *)
Definition parseChunkSize (chunkSizeParam : option value) : result Z :=
  match chunkSizeParam with
  | None => Ok defaultChunkSize
  | Some p =>
      match Atoi (Sprint p) with
      | None =>
          Err (Errorf ("chunksize parameter must be an integer, "
                       ++ Sprint p ++ " invalid")%string)
      | Some cs =>
          if cs <? minChunkSize then
            Err (Errorf ("chunksize " ++ FormatInt cs ++ " must be at least "
                         ++ FormatInt minChunkSize)%string)
          else if maxChunkSize <? cs then
            Err (Errorf ("chunksize " ++ FormatInt cs ++ " must be at most "
                         ++ FormatInt maxChunkSize)%string)
          else Ok cs
      end
  end.

(** The concurrency part of [parseParameters]. *)
Definition parseMaxConcurrency (maxConcurrencyParam : option value) : result Z :=
  match maxConcurrencyParam with
  | None => Ok defaultMaxConcurrency
  | Some p =>
      match Atoi (Sprint p) with
      | None =>
          Err (Errorf ("maxconcurrency parameter must be an integer, "
                       ++ Sprint p ++ " invalid")%string)
      | Some mc =>
          if mc <? minConcurrency then
            Err (Errorf ("maxconcurrency " ++ FormatInt mc
                         ++ " must be at least " ++ FormatInt minConcurrency)%string)
          else Ok mc
      end
  end.

(** The [secure] part of [parseParameters]. *)
Definition parseSecure (secureParam : option value) : result bool :=
  match secureParam with
  | None => Ok true
  | Some (VString s) =>
      match ParseBool s with
      | None => Err (Errorf "secure parameter must be a boolean")
      | Some b => Ok b
      end
  | Some (VBool s) => Ok s
  | Some _ => Err (Errorf "secure parameter must be a boolean")
  end.

(** [parseParameters]. *)
Definition parseParameters (parameters : parameters)
    : result DriverParameters.t :=
  let secretID := parameters "secretid" in
  if missing secretID then Err (Errorf "no secretid parameter provided")
  else
  let secretKey := parameters "secretkey" in
  if missing secretKey then Err (Errorf "no secretkey parameter provided")
  else
  let region := parameters "region" in
  if missing region then Err (Errorf "no region parameter provided")
  else
  let bucket := parameters "bucket" in
  if missing bucket then Err (Errorf "no bucket parameter provided")
  else
  let rootDirectory :=
    match parameters "rootdirectory" with
    | None => VString ""
    | Some v => v
    end in
  match parseChunkSize (parameters "chunksize") with
  | Err e => Err e
  | Ok chunkSize =>
      match parseMaxConcurrency (parameters "maxconcurrency") with
      | Err e => Err e
      | Ok maxConcurrency =>
          match parseSecure (parameters "secure") with
          | Err e => Err e
          | Ok secure =>
              let sprint := fun v : option value =>
                match v with Some v => Sprint v | None => "" end in
              Ok (DriverParameters.mk (sprint secretID) (sprint secretKey)
                    (sprint region) (sprint bucket) (Sprint rootDirectory)
                    chunkSize maxConcurrency secure)
          end
      end
  end.

(** [driver.PutContent]; [parseError] returns nil for nil. *)
Definition PutContent {B} (d : driver B) (path : string) (content : list byte)
    : M B (option error) :=
  let cosPath := cosPath d path in
  err <- call (Client d) (CallPut cosPath content) ;;
  ret (option_map (parseError path) err).

(** The first lines of [driver.List]: the path with a trailing slash;
    [None] where [path[len(path)-1]] is out of range. *)
Definition listPath (opath : string) : option string :=
  if (opath =? "/")%string then Some opath
  else
    match last_byte opath with
    | None => None
    | Some c =>
        if negb (Ascii.eqb c "/") then Some (opath ++ "/")%string
        else Some opath
    end.

(** The prefix [driver.List] asks the backend for. *)
Definition listPrefix {B} (d : driver B) (path : string) : string :=
  let prefix :=
    if negb (is_empty (RootDirectory d)) then (RootDirectory d ++ "/")%string
    else "" in
  if negb (path =? "/")%string then (prefix ++ TrimPrefix path "/")%string
  else prefix.

(** The name [driver.List] makes of a key or of a common prefix, before
    it trims or filters it. *)
Definition entryName {B} (d : driver B) (key : string) : string :=
  let name := TrimPrefix key (RootDirectory d) in
  if negb (HasPrefix name "/") then ("/" ++ name)%string else name.

(** What [driver.List] appends to [files] for one page: the objects,
    then the common prefixes ([prefix.Prefix] is the prefix string). *)
Definition pageEntries {B} (d : driver B) (path : string)
    (result : BucketGetResult) : list string :=
  filter (fun name => negb (name =? path)%string)
    (map (fun obj => entryName d (Key obj)) (Contents result))
  ++ filter (fun name => negb (is_empty name) && negb (name =? path)%string)
       (map (fun prefix => TrimSuffix (entryName d prefix) "/")
          (CommonPrefixes result)).

(** The listing loop of [driver.List]. *)
Fixpoint List_loop {B} (fuel : nat) (d : driver B) (path : string)
    (opt : BucketGetOptions) (files : list string)
    : M B (result (list string)) :=
  match fuel with
  | O => out_of_fuel
  | S fuel' =>
      r <- call (Client d) (CallBucketGet opt) ;;
      match r with
      | Err err => ret (Err (parseError path err))
      | Ok result =>
          let files := files ++ pageEntries d path result in
          if negb (IsTruncated result) then ret (Ok files)
          else
            List_loop fuel' d path
              (mkBucketGetOptions (Prefix opt) (Delimiter opt)
                 (NextMarker result) (MaxKeys opt))
              files
      end
  end.

(** [driver.List]. *)
Definition List {B} (fuel : nat) (d : driver B) (opath : string)
    : M B (result (list string)) :=
  match listPath opath with
  | None => panic
  | Some path =>
      List_loop fuel d path
        (mkBucketGetOptions (listPrefix d path) "/" "" 1000) []
  end.

End CosA.

(** ** The second [cos.go] (driver with [appid] and [skipverify]) *)

Module CosB.
Import Go Sdk.
Local Open Scope go_scope.

Definition driverName : string := "cos".

(** [listMax]. *)
Definition listMax : Z := 1000.

(** The [driver] struct, without the buffer pool (never used by the
    methods). *)
Record driver (B : Type) : Type := mkDriver {
  Client : client B;
  Bucket : string;
  ChunkSize : Z;
  RootDirectory : string
}.
Arguments mkDriver {B}.
Arguments Client {B} d.
Arguments Bucket {B} d.
Arguments ChunkSize {B} d.
Arguments RootDirectory {B} d.

(** [driver.cosPath]. *)
Definition cosPath {B : Type} (d : driver B) (path : string) : string :=
  if is_empty (RootDirectory d) then TrimLeft path "/"
  else TrimLeft (RootDirectory d ++ "/" ++ TrimLeft path "/")%string "/".

(** [parseError]. *)
Definition parseError (path : string) (err : error) : error :=
  match err with
  | ErrorResponse Code _ =>
      if (Code =? "NoSuchKey")%string || (Code =? "NoSuchBucket")%string then
        PathNotFoundError path driverName
      else StorageError driverName err
  | _ => StorageError driverName err
  end.

(** The [writer] struct; [buf] is never nil here. *)
Record writer (B : Type) : Type := mkWriter {
  driver_ : driver B;
  key : string;
  uploadID : string;
  parts : list Object;
  size : Z;
  buf : list byte;
  closed : bool;
  committed : bool;
  cancelled : bool
}.
Arguments mkWriter {B}.
Arguments driver_ {B} w.
Arguments key {B} w.
Arguments uploadID {B} w.
Arguments parts {B} w.
Arguments size {B} w.
Arguments buf {B} w.
Arguments closed {B} w.
Arguments committed {B} w.
Arguments cancelled {B} w.

Definition set_uploadID {B} (w : writer B) (v : string) : writer B :=
  mkWriter (driver_ w) (key w) v (parts w) (size w) (buf w)
           (closed w) (committed w) (cancelled w).
Definition set_parts {B} (w : writer B) (v : list Object) : writer B :=
  mkWriter (driver_ w) (key w) (uploadID w) v (size w) (buf w)
           (closed w) (committed w) (cancelled w).
Definition set_buf {B} (w : writer B) (v : list byte) : writer B :=
  mkWriter (driver_ w) (key w) (uploadID w) (parts w) (size w) v
           (closed w) (committed w) (cancelled w).
Definition set_closed {B} (w : writer B) (v : bool) : writer B :=
  mkWriter (driver_ w) (key w) (uploadID w) (parts w) (size w) (buf w)
           v (committed w) (cancelled w).
Definition set_committed {B} (w : writer B) (v : bool) : writer B :=
  mkWriter (driver_ w) (key w) (uploadID w) (parts w) (size w) (buf w)
           (closed w) v (cancelled w).
Definition set_cancelled {B} (w : writer B) (v : bool) : writer B :=
  mkWriter (driver_ w) (key w) (uploadID w) (parts w) (size w) (buf w)
           (closed w) (committed w) v.

(** [driver.newWriter]. *)
Definition newWriter {B} (d : driver B) (key uploadID : string) : writer B :=
  mkWriter d key uploadID [] 0 [] false false false.

(** [writer.Write]: no request is involved, the bytes only reach the
    buffer. *)
Definition Write {B} (w : writer B) (p : list byte)
    : writer B * (Z * option error) :=
  if closed w then (w, (0, Some (Errorf "writer closed")))
  else (set_buf w (buf w ++ p), (Z.of_nat (length p), None)).

(** [writer.Size]. *)
Definition Size {B} (w : writer B) : Z :=
  wrap64 (size w + Z.of_nat (length (buf w))).

(** [writer.Close]. *)
Definition Close {B} (w : writer B) : writer B * option error :=
  if closed w then (w, None) else (set_closed w true, None).

(** [writer.Cancel]. *)
Definition Cancel {B} (w : writer B) : M B (writer B * option error) :=
  if cancelled w then ret (w, None)
  else
    let w := set_cancelled w true in
    if negb (is_empty (uploadID w)) then
      _ <- call (Client (driver_ w))
             (CallAbortMultipartUpload (key w) (uploadID w)) ;;
      ret (w, None)
    else ret (w, None).

(** The part list [writer.Commit] builds for the completion request:
    part [i] of the writer's list, numbered [i + 1]. *)
Fixpoint numbered (i : Z) (parts : list Object) : list Object :=
  match parts with
  | [] => []
  | part :: parts' => mkObject "" (i + 1) (ETag part) :: numbered (i + 1) parts'
  end.

(** [writer.Commit].  A request whose body is [w.buf] reads the buffer
    to its end when it succeeds; one that fails leaves the bytes in the
    buffer. *)
Definition Commit {B} (w : writer B) : M B (writer B * option error) :=
  if committed w then ret (w, None)
  else if cancelled w then ret (w, Some (Errorf "writer cancelled"))
  else
    let w := set_committed w true in
    if Z.of_nat (length (buf w)) =? 0 then
      err <- call (Client (driver_ w)) (CallPut (key w) []) ;;
      ret (w, err)
    else if is_empty (uploadID w) && (Size w <=? ChunkSize (driver_ w)) then
      err <- call (Client (driver_ w)) (CallPut (key w) (buf w)) ;;
      match err with
      | Some _ => ret (w, err)
      | None => ret (set_buf w [], err)
      end
    else
      ' (w, err) <- (if is_empty (uploadID w) then
                       r <- call (Client (driver_ w))
                              (CallInitiateMultipartUpload (key w)) ;;
                       match r with
                       | Err err => ret (w, Some err)
                       | Ok id => ret (set_uploadID w id, None)
                       end
                     else ret (w, None)) ;;
      match err with
      | Some err => ret (w, Some err)
      | None =>
          ' (w, err) <- (if 0 <? Z.of_nat (length (buf w)) then
                           let partNumber := Z.of_nat (length (parts w)) + 1 in
                           r <- call (Client (driver_ w))
                                  (CallUploadPart (key w) (uploadID w)
                                     partNumber (buf w)) ;;
                           match r with
                           | Err err => ret (w, Some err)
                           | Ok header =>
                               let w := set_buf w [] in
                               ret (set_parts w
                                      (parts w ++
                                       [mkObject "" 0 (Header_Get header "ETag")]),
                                    None)
                           end
                         else ret (w, None)) ;;
          match err with
          | Some err => ret (w, Some err)
          | None =>
              err <- call (Client (driver_ w))
                       (CallCompleteMultipartUpload (key w) (uploadID w)
                          (numbered 0 (parts w))) ;;
              ret (w, err)
          end
      end.

(** [driver.Writer]. *)
Definition Writer {B} (d : driver B) (path : string) (append : bool)
    : M B (result (writer B)) :=
  let cosPath := cosPath d path in
  if append then
    r <- call (Client d) (CallHead cosPath) ;;
    match r with
    | Err _ => ret (Ok (newWriter d cosPath ""))
    | Ok head =>
        let contentLength := Header_Get head "Content-Length" in
        let size := ParseInt contentLength in
        if 0 <? size then
          ret (Err (Errorf
                 "cos driver does not support appending to existing objects"))
        else ret (Ok (newWriter d cosPath ""))
    end
  else ret (Ok (newWriter d cosPath "")).

(** [driver.Stat]. *)
Definition Stat {B} (d : driver B) (path : string) : M B (result FileInfo) :=
  let cosPath := cosPath d path in
  r <- call (Client d) (CallHead cosPath) ;;
  match r with
  | Ok head =>
      let contentLength := Header_Get head "Content-Length" in
      let size := ParseInt contentLength in
      let lastModified := Header_Get head "Last-Modified" in
      let modTime := Parse time_RFC1123 lastModified in
      ret (Ok (mkFileInfo path size modTime false))
  | Err _ =>
      let opt := mkBucketGetOptions (cosPath ++ "/")%string "" "" 1 in
      lr <- call (Client d) (CallBucketGet opt) ;;
      match lr with
      | Err err => ret (Err (parseError path err))
      | Ok result =>
          if 0 <? Z.of_nat (length (Contents result)) then
            ret (Ok (mkFileInfo path 0 Now true))
          else ret (Err (PathNotFoundError path driverName))
      end
  end.

(** [driver.Move]. *)
Definition Move {B} (d : driver B) (sourcePath destPath : string)
    : M B (option error) :=
  let cosSourcePath := cosPath d sourcePath in
  let cosDestPath := cosPath d destPath in
  let sourceURL := (Bucket d ++ "/" ++ cosSourcePath)%string in
  err <- call (Client d) (CallCopy cosDestPath sourceURL) ;;
  match err with
  | Some err => ret (Some (parseError sourcePath err))
  | None =>
      err <- call (Client d) (CallDelete cosSourcePath) ;;
      match err with
      | Some err => ret (Some (parseError sourcePath err))
      | None => ret None
      end
  end.

(** The listing loop of [driver.Delete]; [None] when the loop is left by
    [break], [Some err] when the method returns [err] from inside it. *)
Fixpoint Delete_loop {B} (fuel : nat) (d : driver B) (path : string)
    (opt : BucketGetOptions) : M B (option error) :=
  match fuel with
  | O => out_of_fuel
  | S fuel' =>
      r <- call (Client d) (CallBucketGet opt) ;;
      match r with
      | Err err => ret (Some (parseError path err))
      | Ok result =>
          if Z.of_nat (length (Contents result)) =? 0 then ret None
          else
            derr <- call (Client d)
                      (CallDeleteMulti (map Key (Contents result)) false) ;;
            match derr with
            | Some err => ret (Some (parseError path err))
            | None =>
                if negb (IsTruncated result) then ret None
                else
                  Delete_loop fuel' d path
                    (mkBucketGetOptions (Prefix opt) (Delimiter opt)
                       (NextMarker result) (MaxKeys opt))
            end
      end
  end.

(** [driver.Delete]. *)
Definition Delete {B} (fuel : nat) (d : driver B) (path : string)
    : M B (option error) :=
  let cosPath := cosPath d path in
  err <- Delete_loop fuel d path
           (mkBucketGetOptions (cosPath ++ "/")%string "" "" listMax) ;;
  match err with
  | Some err => ret (Some err)
  | None =>
      _ <- call (Client d) (CallDelete cosPath) ;;
      ret None
  end.

(** The [DriverParameters] struct. *)
Module DriverParameters.
Record t : Type := mk {
  SecretID : string;
  SecretKey : string;
  Region : string;
  Bucket : string;
  AppID : string;
  Secure : bool;
  SkipVerify : bool;
  ChunkSize : Z;
  RootDirectory : string
}.
End DriverParameters.

(** The bucket URL that [New] builds. *)
Definition bucketURL (params : DriverParameters.t) (bucketName : string)
    : string :=
  ((if negb (DriverParameters.Secure params) then "http" else "https")
   ++ "://" ++ bucketName ++ ".cos." ++ DriverParameters.Region params
   ++ ".myqcloud.com")%string.

(** [New].  The SDK client that [cos.NewClient] returns is [cl];
    [url_Parse] tells whether [url.Parse] accepts the bucket URL, and
    carries its error otherwise. *)
Definition New {B} (cl : client B) (url_Parse : string -> option string)
    (params : DriverParameters.t) : result (driver B) :=
  let bucketName := DriverParameters.Bucket params in
  let bucketName :=
    if negb (is_empty (DriverParameters.AppID params))
       && negb (HasSuffix bucketName
                  ("-" ++ DriverParameters.AppID params)%string)
    then (bucketName ++ "-" ++ DriverParameters.AppID params)%string
    else bucketName in
  match url_Parse (bucketURL params bucketName) with
  | Some err => Err (Errorf ("invalid bucket URL: " ++ err)%string)
  | None =>
      Ok (mkDriver cl bucketName (DriverParameters.ChunkSize params)
            (TrimRight (DriverParameters.RootDirectory params) "/"))
  end.

(** [driver.PutContent]; the deferred [Close] runs on a writer that
    nothing reads afterwards. *)
Definition PutContent {B} (d : driver B) (path : string) (contents : list byte)
    : M B (option error) :=
  r <- Writer d path false ;;
  match r with
  | Err err => ret (Some err)
  | Ok writer =>
      let (writer, res) := Write writer contents in
      match snd res with
      | Some err =>
          _ <- Cancel writer ;;
          ret (Some err)
      | None =>
          ' (_, err) <- Commit writer ;;
          ret err
      end
  end.

(** What [driver.List] appends to [files] for one page. *)
Definition pageEntries (prefix : string) (result : BucketGetResult)
    : list string :=
  filter (fun name => negb (is_empty name))
    (map (fun obj =>
            if negb (is_empty prefix) then TrimPrefix (Key obj) prefix
            else Key obj)
       (Contents result))
  ++ filter (fun name => negb (is_empty name))
       (map (fun commonPrefix => TrimSuffix (TrimPrefix commonPrefix prefix) "/")
          (CommonPrefixes result)).

(** The listing loop of [driver.List]; [opt.Marker] only changes when
    [marker] is not empty. *)
Fixpoint List_loop {B} (fuel : nat) (d : driver B) (opath prefix : string)
    (opt : BucketGetOptions) (marker : string) (files : list string)
    : M B (result (list string)) :=
  match fuel with
  | O => out_of_fuel
  | S fuel' =>
      let opt :=
        if negb (is_empty marker) then
          mkBucketGetOptions (Prefix opt) (Delimiter opt) marker (MaxKeys opt)
        else opt in
      r <- call (Client d) (CallBucketGet opt) ;;
      match r with
      | Err err => ret (Err (parseError opath err))
      | Ok result =>
          let files := files ++ pageEntries prefix result in
          if negb (IsTruncated result) then ret (Ok files)
          else List_loop fuel' d opath prefix opt (NextMarker result) files
      end
  end.

(** [driver.List]. *)
Definition List {B} (fuel : nat) (d : driver B) (opath : string)
    : M B (result (list string)) :=
  let prefix :=
    if negb (opath =? "/")%string then (cosPath d opath ++ "/")%string
    else "" in
  List_loop fuel d opath prefix
    (mkBucketGetOptions prefix "/" "" listMax) "" [].

End CosB.

(** ** Backends for running the driver on concrete inputs *)

Module Backends.
Import Sdk.

(** A backend without state of its own: each kind of request has a fixed
    answer, which may depend on the key or on the options. *)
Record answers : Type := mkAnswers {
  onHead : string -> result Header;
  onPut : option error;
  onGet : BucketGetOptions -> result BucketGetResult;
  onCopy : option error;
  onDelete : string -> option error;
  onDeleteMulti : option error;
  onInitiate : result string;
  onUploadPart : result Header;
  onComplete : option error;
  onAbort : option error
}.

Definition scripted (a : answers) : client unit :=
  fun c b =>
    match c as c0 return resp c0 * unit with
    | CallHead k => (onHead a k, b)
    | CallPut _ _ => (onPut a, b)
    | CallBucketGet opt => (onGet a opt, b)
    | CallCopy _ _ => (onCopy a, b)
    | CallDelete k => (onDelete a k, b)
    | CallDeleteMulti _ _ => (onDeleteMulti a, b)
    | CallInitiateMultipartUpload _ => (onInitiate a, b)
    | CallUploadPart _ _ _ _ => (onUploadPart a, b)
    | CallCompleteMultipartUpload _ _ _ => (onComplete a, b)
    | CallAbortMultipartUpload _ _ => (onAbort a, b)
    end.

Definition NoSuchKey : error := ErrorResponse "NoSuchKey" "The specified key does not exist.".

Definition emptyPage : BucketGetResult := mkBucketGetResult [] [] false "".

(** A bucket that holds nothing and accepts every request. *)
Definition emptyBucket : answers :=
  mkAnswers (fun _ => Err NoSuchKey) None (fun _ => Ok emptyPage) None
            (fun _ => None) None (Ok "upload-1") (Ok [("ETag", "etag")])
            None None.


(** The empty bucket with a failing single-object delete. *)
Definition deleteFails : answers :=
  mkAnswers (fun _ => Err NoSuchKey) None (fun _ => Ok emptyPage) None
            (fun _ => Some (TransportError "connection reset")) None
            (Ok "upload-1") (Ok [("ETag", "etag")]) None None.

(** The empty bucket with a failing whole-object put. *)
Definition putFails : answers :=
  mkAnswers (fun _ => Err NoSuchKey) (Some (TransportError "connection reset"))
            (fun _ => Ok emptyPage) None
            (fun _ => None) None (Ok "upload-1") (Ok [("ETag", "etag")])
            None None.

(** A bucket whose listings show one object under any prefix, but only
    when they are asked with the delimiter ["/"]. *)
Definition listedWithDelimiter : answers :=
  mkAnswers (fun _ => Err NoSuchKey) None
            (fun opt =>
               if String.eqb (Delimiter opt) "/" then
                 Ok (mkBucketGetResult [mkObject (Prefix opt ++ "x")%string 0 ""]
                       [] false "")
               else Ok emptyPage)
            None (fun _ => None) None (Ok "upload-1") (Ok [("ETag", "etag")])
            None None.

Definition start : World unit := mkWorld tt [].

(** The two drivers over a scripted backend, with the default
    configuration of each and a given chunk size. *)
Definition driverA (a : answers) (chunkSize : Z) : CosA.driver unit :=
  CosA.mkDriver (scripted a) "ap-guangzhou" "bucket" "" chunkSize 10.
Definition driverB (a : answers) (chunkSize : Z) : CosB.driver unit :=
  CosB.mkDriver (scripted a) "bucket" chunkSize "".

(** Writers for concrete runs: a fresh writer of each driver on the
    empty bucket, and the same writers after a [Commit] that the backend
    accepted. *)
Definition freshA : CosA.writer unit :=
  CosA.newWriter (driverA emptyBucket 16777216) "blob" "upload-1" [].
Definition committedA : CosA.writer unit :=
  CosA.mkWriter (driverA emptyBucket 16777216) "blob" "upload-1" [] 0 None
    true true false.
Definition freshB : CosB.writer unit :=
  CosB.newWriter (driverB emptyBucket 5242880) "blob" "".
Definition committedB : CosB.writer unit :=
  CosB.set_committed freshB true.

(** A fresh writer of the second driver that holds one byte, over a
    backend whose whole-object put fails. *)
Definition unluckyB : CosB.writer unit :=
  fst (CosB.Write (CosB.newWriter (driverB putFails 5242880) "blob" "")
         ["x"%byte]).




(** A bucket whose listing comes in two pages: the first page, for a
    request without marker, is truncated. *)
Definition firstPage : BucketGetResult :=
  mkBucketGetResult [mkObject "a/b" 0 ""] [] true "a/b".
Definition secondPage : BucketGetResult :=
  mkBucketGetResult [mkObject "a/c" 0 ""] ["a/d/"] false "".
Definition twoPages : answers :=
  mkAnswers (fun _ => Err NoSuchKey) None
            (fun opt => if String.eqb (Marker opt) "" then Ok firstPage
                        else Ok secondPage)
            None (fun _ => Some NoSuchKey) None (Ok "upload-1")
            (Ok [("ETag", "etag")]) None None.

(** A parameter map with the four required parameters, an integer chunk
    size and an integer concurrency. *)
Definition configured : Go.parameters :=
  fun name =>
    if (name =? "secretid")%string then Some (Go.VString "id")
    else if (name =? "secretkey")%string then Some (Go.VString "key")
    else if (name =? "region")%string then Some (Go.VString "ap-guangzhou")
    else if (name =? "bucket")%string then Some (Go.VString "bucket")
    else if (name =? "chunksize")%string then Some (Go.VInt 5242880)
    else if (name =? "maxconcurrency")%string then Some (Go.VInt 4)
    else None.

(** The empty bucket with a failing part upload. *)
Definition partFails : answers :=
  mkAnswers (fun _ => Err NoSuchKey) None (fun _ => Ok emptyPage) None
            (fun _ => None) None (Ok "upload-1")
            (Err (TransportError "connection reset")) None None.

(** Whether [k] is among the keys [b]. *)
Definition holds (b : list string) (k : string) : bool :=
  existsb (String.eqb k) b.

(** A backend with a state of its own, the keys it holds.  A put, a copy
    and a completed upload store their key; a single delete removes the
    key and reports a key that is not there; a batch delete removes its
    keys; a listing shows, in one page, the keys under the prefix asked
    for. *)
Definition store : client (list string) :=
  fun c b =>
    match c as c0 return resp c0 * list string with
    | CallHead k => (if holds b k then Ok [] else Err NoSuchKey, b)
    | CallPut k _ => (None, k :: b)
    | CallBucketGet opt =>
        (Ok (mkBucketGetResult
               (map (fun k => mkObject k 0 "")
                  (filter (fun k => Go.HasPrefix k (Prefix opt)) b))
               [] false ""),
         b)
    | CallCopy k _ => (None, k :: b)
    | CallDelete k =>
        (if holds b k then None else Some NoSuchKey,
         filter (fun k' => negb (String.eqb k k')) b)
    | CallDeleteMulti keys _ =>
        (None, filter (fun k' => negb (holds keys k')) b)
    | CallInitiateMultipartUpload _ => (Ok "upload-1", b)
    | CallUploadPart _ _ _ _ => (Ok [("ETag", "etag")], b)
    | CallCompleteMultipartUpload k _ _ => (None, k :: b)
    | CallAbortMultipartUpload _ _ => (None, b)
    end.

(** The two drivers over that backend. *)
Definition storeA : CosA.driver (list string) :=
  CosA.mkDriver store "ap-guangzhou" "bucket" "" 16777216 10.
Definition storeB : CosB.driver (list string) :=
  CosB.mkDriver store "bucket" 5242880 "".


End Backends.

(** ** The statements of the specification *)

Module Spec.
Import Go Sdk.
Local Open Scope go_scope.





(** Part numbers strictly increasing from 1. *)
Definition ascending (parts : list Object) : Prop :=
  map PartNumber parts = map Z.of_nat (seq 1 (length parts)).





(** *** The writers a caller can hold

    A writer only leaves the package through [driver.Writer], which
    returns [newWriter] with no parts, and only changes through its
    methods. *)

Inductive stepA {B} : CosA.writer B -> CosA.writer B -> Prop :=
| stepA_Write fuel w p world w' r world' :
    CosA.Write fuel w p world = Done (w', r) world' -> stepA w w'
| stepA_Close w :
    stepA w (fst (CosA.Close w))
| stepA_Cancel w world w' r world' :
    CosA.Cancel w world = Done (w', r) world' -> stepA w w'
| stepA_Commit w world w' r world' :
    CosA.Commit w world = Done (w', r) world' -> stepA w w'.

Inductive reachedA {B} : CosA.writer B -> Prop :=
| reachedA_new d key uploadID :
    reachedA (CosA.newWriter d key uploadID [])
| reachedA_step w w' :
    reachedA w -> stepA w w' -> reachedA w'.

Inductive stepB {B} : CosB.writer B -> CosB.writer B -> Prop :=
| stepB_Write w p :
    stepB w (fst (CosB.Write w p))
| stepB_Close w :
    stepB w (fst (CosB.Close w))
| stepB_Cancel w world w' r world' :
    CosB.Cancel w world = Done (w', r) world' -> stepB w w'
| stepB_Commit w world w' r world' :
    CosB.Commit w world = Done (w', r) world' -> stepB w w'.

Inductive reachedB {B} : CosB.writer B -> Prop :=
| reachedB_new d key :
    reachedB (CosB.newWriter d key "")
| reachedB_step w w' :
    reachedB w -> stepB w w' -> reachedB w'.

(** *** The claims, stated once for any driver

    Each takes the methods of a driver as arguments, so that the same
    statement can be checked on both. *)


(** Move: a failed copy is returned without any delete; a failed delete
    of the source is returned after one delete of the destination. *)
Definition MoveClaim {B D : Type} (Client : D -> client B)
    (cosPath : D -> string -> string) (sourceURL : D -> string -> string)
    (parseError : string -> error -> error)
    (Move : D -> string -> string -> M B (option error)) : Prop :=
  forall (d : D) (source dest : string) (w : World B),
    let sourceKey := cosPath d source in
    let destKey := cosPath d dest in
    let copy := CallCopy destKey (sourceURL d sourceKey) in
    match Client d copy (backend w) with
    | (Some err, b1) =>
        Move d source dest w
        = Done (Some (parseError source err)) (mkWorld b1 (calls w ++ [copy]))
    | (None, b1) =>
        match Client d (CallDelete sourceKey) b1 with
        | (Some err, b2) =>
            Move d source dest w
            = Done (Some (parseError source err))
                (mkWorld (snd (Client d (CallDelete destKey) b2))
                   (calls w ++ [copy; CallDelete sourceKey; CallDelete destKey]))
        | (None, b2) =>
            Move d source dest w
            = Done None (mkWorld b2 (calls w ++ [copy; CallDelete sourceKey]))
        end
    end.

(** The backend says that the key holds no object. *)
Definition IsNoSuchKey (err : error) : Prop :=
  exists msg, err = ErrorResponse "NoSuchKey" msg.

(** Stat: the object if the lookup finds one; when the lookup finds
    none, one listing with prefix [key + "/"], delimiter ["/"] and
    max-keys 1, a directory if it shows a content or a common prefix and
    NotFound if it shows neither. *)
Definition StatClaim {B D : Type} (Client : D -> client B)
    (cosPath : D -> string -> string) (modTime : string -> Time)
    (Stat : D -> string -> M B (result FileInfo)) : Prop :=
  forall (d : D) (path : string) (w : World B),
    let key := cosPath d path in
    match Client d (CallHead key) (backend w) with
    | (Ok head, b1) =>
        Stat d path w
        = Done (Ok (mkFileInfo path
                      (ParseInt (Header_Get head "Content-Length"))
                      (modTime (Header_Get head "Last-Modified")) false))
            (mkWorld b1 (calls w ++ [CallHead key]))
    | (Err err, b1) =>
        IsNoSuchKey err ->
        let opt := mkBucketGetOptions (key ++ "/")%string "/" "" 1 in
        match Client d (CallBucketGet opt) b1 with
        | (Ok page, b2) =>
            exists r,
              Stat d path w
              = Done r (mkWorld b2 (calls w ++ [CallHead key; CallBucketGet opt]))
              /\ match Contents page, CommonPrefixes page with
                 | [], [] => exists dn, r = Err (PathNotFoundError path dn)
                 | _, _ => exists fi,
                     r = Ok fi /\ IsDir fi = true /\ Path fi = path
                 end
        | (Err _, b2) =>
            exists r,
              Stat d path w
              = Done r (mkWorld b2 (calls w ++ [CallHead key; CallBucketGet opt]))
        end
    end.

(** A writer that is committed or cancelled takes no more bytes: Write
    returns 0 and the "closed" error, and nothing else changes. *)
Definition RejectsWrites {B W : Type} (reached : W -> Prop)
    (committed cancelled : W -> bool)
    (Write : W -> list byte -> M B (W * (Z * option error)))
    (closedErr : error) : Prop :=
  forall w : W,
    reached w -> committed w = true \/ cancelled w = true ->
    forall (p : list byte) (world : World B),
      Write w p world = Done (w, (0, Some closedErr)) world.

(** A method result that carries an error. *)
Definition fails {B W : Type} (o : outcome B (W * option error)) : Prop :=
  exists w e world, o = Done (w, Some e) world.

(** Commit on a committed or cancelled writer fails; in particular after
    a Commit that returned without error. *)
Definition CommitNotRepeatable {B W : Type} (reached : W -> Prop)
    (committed cancelled : W -> bool)
    (Commit : W -> M B (W * option error)) : Prop :=
  (forall w : W,
     reached w -> committed w = true \/ cancelled w = true ->
     forall world : World B, fails (Commit w world))
  /\ (forall (w w' : W) (world world' : World B),
        reached w -> Commit w world = Done (w', None) world' ->
        forall world2 : World B, fails (Commit w' world2)).


(** The source reference each [Move] hands to the copy request. *)
Definition sourceURLA {B} (d : CosA.driver B) (sourceKey : string) : string :=
  (CosA.Bucket d ++ ".cos." ++ CosA.Host d ++ ".myqcloud.com/" ++ sourceKey)%string.
Definition sourceURLB {B} (d : CosB.driver B) (sourceKey : string) : string :=
  (CosB.Bucket d ++ "/" ++ sourceKey)%string.

(** How each [Stat] reads the Last-Modified header. *)
Definition modTimeA (lastModified : string) : Time :=
  if negb (is_empty lastModified) then Parse http_TimeFormat lastModified
  else zeroTime.
Definition modTimeB (lastModified : string) : Time :=
  Parse time_RFC1123 lastModified.

(** No object matches in the backend states [Inv]: in each of them the
    listing under [opt] comes back empty and complete, and neither that
    listing nor the single-object delete of [key] leads out of them. *)
Definition NothingMatches {B} (cl : client B) (key : string)
    (opt : BucketGetOptions) (Inv : B -> Prop) : Prop :=
  (forall b : B,
     Inv b ->
     exists page,
       fst (cl (CallBucketGet opt) b) = Ok page
       /\ Contents page = [] /\ IsTruncated page = false
       /\ Inv (snd (cl (CallBucketGet opt) b)))
  /\ (forall b : B, Inv b -> Inv (snd (cl (CallDelete key) b))).

(** A request that removes nothing except, possibly, the object at [key]. *)
Definition spares_all_but (key : string) (c : Call) : Prop :=
  match c with
  | CallDelete k => k = key
  | CallBucketGet _ => True
  | _ => False
  end.

(** What every writer of [cos.go] that a caller can hold satisfies: an
    open writer has a buffer, a committed or cancelled writer is closed,
    and the parts are numbered from 1. *)
Definition wfA {B} (w : CosA.writer B) : Prop :=
  (CosA.closed w = false -> exists b, CosA.buf w = Some b)
  /\ (CosA.committed w = true -> CosA.closed w = true)
  /\ (CosA.cancelled w = true -> CosA.closed w = true)
  /\ ascending (CosA.parts w).

(** A writer that is neither closed, committed nor cancelled. *)
Definition openA {B} (w : CosA.writer B) : Prop :=
  CosA.closed w = false /\ CosA.committed w = false /\ CosA.cancelled w = false.

(** The last step of [Commit] in [cos.go]: the completion request, and
    on success the committed flag and [Close]. *)
Definition completeA {B} (w : CosA.writer B)
    : M B (CosA.writer B * option error) :=
  fun world =>
    let c := CallCompleteMultipartUpload (CosA.key w) (CosA.uploadID w)
               (CosA.parts w) in
    match CosA.Client (CosA.driver_ w) c (backend world) with
    | (Some e, b') => Done (w, Some e) (mkWorld b' (calls world ++ [c]))
    | (None, b') =>
        Done (CosA.Close (CosA.set_committed w true))
          (mkWorld b' (calls world ++ [c]))
    end.

(** The writer of [cos.go] after its buffer went out as a part that the
    backend answered with [header]. *)
Definition flushedA {B} (w : CosA.writer B) (header : Header) : CosA.writer B :=
  CosA.set_parts (CosA.set_buf w (Some []))
    (CosA.parts w ++
     [mkObject "" (Z.of_nat (length (CosA.parts w)) + 1)
        (Header_Get header "ETag")]).

(** The upload request for the buffer [b] of a writer of [cos.go]. *)
Definition uploadA {B} (w : CosA.writer B) (b : list byte) : Call :=
  CallUploadPart (CosA.key w) (CosA.uploadID w)
    (Z.of_nat (length (CosA.parts w)) + 1) b.






(** What [Write] of [cos.go] does with the bytes [p] on an open writer
    whose buffer holds [b]: the bytes join the buffer; if the buffer has
    then reached the chunk size, all of it goes out as one part, and the
    buffer is empty afterwards. *)
Definition WriteOutcomeA {B} (w : CosA.writer B) (b p : list byte)
    (world : World B) : outcome B (CosA.writer B * (Z * option error)) :=
  let n := Z.of_nat (length p) in
  let w1 := CosA.set_size (CosA.set_buf w (Some (b ++ p)))
              (wrap64 (CosA.size w + n)) in
  if CosA.ChunkSize (CosA.driver_ w) <=? Z.of_nat (length (b ++ p)) then
    match CosA.Client (CosA.driver_ w) (uploadA w (b ++ p)) (backend world) with
    | (Err e, b') =>
        Done (CosA.set_buf w1 (Some []), (n, Some e))
          (mkWorld b' (calls world ++ [uploadA w (b ++ p)]))
    | (Ok header, b') =>
        Done (flushedA w1 header, (n, None))
          (mkWorld b' (calls world ++ [uploadA w (b ++ p)]))
    end
  else Done (w1, (n, None)) world.

(** *** A backend that serves a listing page by page

    [Paged cl req next stop batch s b pages r cs b'] describes one run of
    a listing loop against the client [cl], from the loop state [s] and
    the backend state [b]: the loop asks for [req s]; a page on which
    [stop] holds ends the loop; otherwise the keys [batch] picks from
    the page are deleted in one request; a page that is not truncated
    ends the loop, a truncated one sends it on from [next s page].
    [pages] are the pages received, [r] the error that ended the run, if
    any, [cs] the requests in order and [b'] the backend afterwards. *)

Definition batched {B} (cl : client B)
    (batch : BucketGetResult -> option (list string * bool))
    (page : BucketGetResult) (b : B) : option error * list Call * B :=
  match batch page with
  | None => (None, [], b)
  | Some (keys, quiet) =>
      let (r, b') := cl (CallDeleteMulti keys quiet) b in
      (r, [CallDeleteMulti keys quiet], b')
  end.

Inductive Paged {B S : Type} (cl : client B) (req : S -> BucketGetOptions)
    (next : S -> BucketGetResult -> S) (stop : BucketGetResult -> bool)
    (batch : BucketGetResult -> option (list string * bool))
    : S -> B -> list BucketGetResult -> option error -> list Call -> B -> Prop :=
| Paged_refused s b e b' :
    cl (CallBucketGet (req s)) b = (Err e, b') ->
    Paged cl req next stop batch s b [] (Some e) [CallBucketGet (req s)] b'
| Paged_stop s b page b' :
    cl (CallBucketGet (req s)) b = (Ok page, b') ->
    stop page = true ->
    Paged cl req next stop batch s b [page] None [CallBucketGet (req s)] b'
| Paged_batch_refused s b page b1 e csb b2 :
    cl (CallBucketGet (req s)) b = (Ok page, b1) ->
    stop page = false ->
    batched cl batch page b1 = (Some e, csb, b2) ->
    Paged cl req next stop batch s b [page] (Some e)
      (CallBucketGet (req s) :: csb) b2
| Paged_last s b page b1 csb b2 :
    cl (CallBucketGet (req s)) b = (Ok page, b1) ->
    stop page = false ->
    batched cl batch page b1 = (None, csb, b2) ->
    IsTruncated page = false ->
    Paged cl req next stop batch s b [page] None
      (CallBucketGet (req s) :: csb) b2
| Paged_more s b page b1 csb b2 pages r cs b' :
    cl (CallBucketGet (req s)) b = (Ok page, b1) ->
    stop page = false ->
    batched cl batch page b1 = (None, csb, b2) ->
    IsTruncated page = true ->
    Paged cl req next stop batch (next s page) b2 pages r cs b' ->
    Paged cl req next stop batch s b (page :: pages) r
      (CallBucketGet (req s) :: csb ++ cs) b'.

(** The loop state of the listing loops of [cos.go] is the options; the
    next request carries the marker of the page. *)
Definition withMarker (opt : BucketGetOptions) (page : BucketGetResult)
    : BucketGetOptions :=
  mkBucketGetOptions (Prefix opt) (Delimiter opt) (NextMarker page) (MaxKeys opt).

(** The loop state of [List] in the second driver is the options and the
    variable [marker]; a marker that is empty leaves the options as they
    are. *)
Definition reqB (s : BucketGetOptions * string) : BucketGetOptions :=
  if negb (is_empty (snd s)) then
    mkBucketGetOptions (Prefix (fst s)) (Delimiter (fst s)) (snd s)
      (MaxKeys (fst s))
  else fst s.
Definition nextB (s : BucketGetOptions * string) (page : BucketGetResult)
    : BucketGetOptions * string :=
  (reqB s, NextMarker page).

(** No early stop, no batch: the loops of [List]. *)
Definition never (page : BucketGetResult) : bool := false.
Definition noBatch (page : BucketGetResult) : option (list string * bool) :=
  None.

(** The batches of the two [Delete] loops. *)
Definition keysOf (page : BucketGetResult) : list string :=
  map Key (Contents page).
Definition batchA (page : BucketGetResult) : option (list string * bool) :=
  match Contents page with
  | [] => None
  | _ :: _ => Some (keysOf page, true)
  end.
Definition batchB (page : BucketGetResult) : option (list string * bool) :=
  Some (keysOf page, false).
Definition noContents (page : BucketGetResult) : bool :=
  match Contents page with [] => true | _ :: _ => false end.

(** The keys named in the batch deletes of a sequence of requests. *)
Fixpoint deleted (cs : list Call) : list string :=
  match cs with
  | [] => []
  | CallDeleteMulti keys _ :: cs' => keys ++ deleted cs'
  | _ :: cs' => deleted cs'
  end.

(** The listing requests in a sequence of requests. *)
Fixpoint listings (cs : list Call) : list BucketGetOptions :=
  match cs with
  | [] => []
  | CallBucketGet opt :: cs' => opt :: listings cs'
  | _ :: cs' => listings cs'
  end.

(** A string that does not start with a slash. *)
Definition unslashed (s : string) : Prop := HasPrefix s "/" = false.

(** A virtual path as the registry hands it to a driver: rooted at "/"
    and not starting with two slashes. *)
Definition wellRooted (p : string) : Prop :=
  HasPrefix p "/" = true /\ HasPrefix p "//" = false.

(** A page that shows the objects of the paths [files] and the common
    prefixes of the directories [dirs], under the keys [key] gives
    them. *)
Definition shows (key : string -> string) (files dirs : list string)
    (page : BucketGetResult) : Prop :=
  map Key (Contents page) = map key files
  /\ CommonPrefixes page = map (fun c => (key c ++ "/")%string) dirs.

(** *** Sequences of calls on one writer *)

(** The methods of a [FileWriter] that change it. *)
Inductive op : Type :=
| OpWrite (p : list byte)
| OpClose
| OpCancel
| OpCommit.

(** One method call on a writer of [cos.go], with the error it returns. *)
Definition applyA {B} (fuel : nat) (w : CosA.writer B) (o : op)
    : M B (CosA.writer B * option error) :=
  match o with
  | OpWrite p => ' (w', r) <- CosA.Write fuel w p ;; ret (w', snd r)
  | OpClose => ret (CosA.Close w)
  | OpCancel => CosA.Cancel w
  | OpCommit => CosA.Commit w
  end.

(** A sequence of method calls, with the errors they return. *)
Fixpoint runA {B} (fuel : nat) (w : CosA.writer B) (ops : list op)
    : M B (CosA.writer B * list (option error)) :=
  match ops with
  | [] => ret (w, [])
  | o :: ops' =>
      ' (w', err) <- applyA fuel w o ;;
      ' (w'', errs) <- runA fuel w' ops' ;;
      ret (w'', err :: errs)
  end.

(** The same for the writer of the second driver. *)
Definition applyB {B} (w : CosB.writer B) (o : op)
    : M B (CosB.writer B * option error) :=
  match o with
  | OpWrite p => let (w', r) := CosB.Write w p in ret (w', snd r)
  | OpClose => ret (CosB.Close w)
  | OpCancel => CosB.Cancel w
  | OpCommit => CosB.Commit w
  end.

Fixpoint runB {B} (w : CosB.writer B) (ops : list op)
    : M B (CosB.writer B * list (option error)) :=
  match ops with
  | [] => ret (w, [])
  | o :: ops' =>
      ' (w', err) <- applyB w o ;;
      ' (w'', errs) <- runB w' ops' ;;
      ret (w'', err :: errs)
  end.

(** A request on the multipart upload [uploadID] of [key]: a part, the
    completion or the abort. *)
Definition own (key uploadID : string) (c : Call) : bool :=
  match c with
  | CallUploadPart k i _ _ | CallCompleteMultipartUpload k i _
  | CallAbortMultipartUpload k i => (k =? key)%string && (i =? uploadID)%string
  | _ => false
  end.

Definition is_abort (c : Call) : bool :=
  match c with
  | CallAbortMultipartUpload _ _ => true
  | _ => false
  end.

Definition is_commit (o : op) : bool :=
  match o with OpCommit => true | _ => false end.

(** The bytes handed to the [Write] calls of a sequence. *)
Fixpoint written (ops : list op) : list byte :=
  match ops with
  | [] => []
  | OpWrite p :: ops' => p ++ written ops'
  | _ :: ops' => written ops'
  end.

(** A list of requests on the upload of a writer of [cos.go], none of
    them an abort. *)
Definition quiet {B} (w : CosA.writer B) (cs : list Call) : Prop :=
  forallb (own (CosA.key w) (CosA.uploadID w)) cs = true
  /\ forallb (fun c => negb (is_abort c)) cs = true.

(** A writer on the key, the upload and the driver of [w]. *)
Definition same_upload {B} (w w1 : CosA.writer B) : Prop :=
  CosA.key w1 = CosA.key w /\ CosA.uploadID w1 = CosA.uploadID w
  /\ CosA.driver_ w1 = CosA.driver_ w.


End Spec.

(** * Theorems *)

Import Go Sdk Spec.

(** Normal form of a log of requests. *)
Ltac log_norm := repeat rewrite <- app_assoc; cbn [app].

(** The routine cases of the writer invariant. *)
Ltac wf_solve :=
  unfold wfA; cbn; repeat split; intros; try discriminate; eauto.

(** ** Path mapping *)

Lemma HasPrefix_slash (p : string) :
  HasPrefix p "/" = true -> exists q, p = String "/" q.
Proof.
  destruct p as [|c q]; simpl; [discriminate|].
  rewrite andb_true_r. intros H.
  apply Ascii.eqb_eq in H. subst c. now exists q.
Qed.


(** In the second driver a key never starts with a slash. *)
Lemma TrimLeft_slash_no_prefix (s : string) :
  HasPrefix (TrimLeft s "/") "/" = false.
Proof.
  induction s as [|c s IH]; simpl; [reflexivity|].
  rewrite orb_false_r.
  destruct (Ascii.eqb c "/") eqn:E; [exact IH|].
  simpl. rewrite E. reflexivity.
Qed.



(** ** Append mode *)



(** ** Move *)

(** C4, refuted on the second driver: when the delete of the source
    fails, no delete of the destination follows. *)
Lemma C4_move_without_rollback :
  ~ MoveClaim CosB.Client CosB.cosPath sourceURLB CosB.parseError
      (@CosB.Move unit).
Proof.
  intros H.
  specialize (H (CosB.mkDriver (Backends.scripted Backends.deleteFails)
                   "bucket" 5242880 "")
                "/from" "/to" Backends.start).
  vm_compute in H. discriminate H.
Qed.

(** C4, amended. In [cos.go], a failed copy is returned (translated)
    without any delete request, and a failed delete of the source is
    returned (translated) after one delete request for the destination,
    whose own answer is dropped.  In the second driver a failed copy is
    returned without any delete request as well, and a failed delete of
    the source is returned at once: no request follows it. *)
Theorem C4_move_failures :
  forall B : Type,
    MoveClaim CosA.Client CosA.cosPath sourceURLA CosA.parseError
      (@CosA.Move B)
    /\ (forall (d : CosB.driver B) (source dest : string) (w : World B),
          let sourceKey := CosB.cosPath d source in
          let copy := CallCopy (CosB.cosPath d dest) (sourceURLB d sourceKey) in
          match CosB.Client d copy (backend w) with
          | (Some err, b1) =>
              CosB.Move d source dest w
              = Done (Some (CosB.parseError source err))
                  (mkWorld b1 (calls w ++ [copy]))
          | (None, b1) =>
              match CosB.Client d (CallDelete sourceKey) b1 with
              | (Some err, b2) =>
                  CosB.Move d source dest w
                  = Done (Some (CosB.parseError source err))
                      (mkWorld b2 (calls w ++ [copy; CallDelete sourceKey]))
              | (None, b2) =>
                  CosB.Move d source dest w
                  = Done None
                      (mkWorld b2 (calls w ++ [copy; CallDelete sourceKey]))
              end
          end).
Proof.
  intros B. split.
  - intros d source dest w sourceKey destKey copy. subst sourceKey destKey copy.
    unfold CosA.Move, sourceURLA, bind, call; cbn beta iota.
    destruct (CosA.Client d _ (backend w)) as [[err|] b1]; cbn;
      [reflexivity|].
    destruct (CosA.Client d (CallDelete _) b1) as [[err|] b2]; cbn.
    + destruct (CosA.Client d (CallDelete _) b2) as [r3 b3]; cbn.
      log_norm. reflexivity.
    + log_norm. reflexivity.
  - intros d source dest w sourceKey copy. subst sourceKey copy.
    unfold CosB.Move, sourceURLB, bind, call; cbn beta iota.
    destruct (CosB.Client d _ (backend w)) as [[err|] b1]; cbn;
      [reflexivity|].
    destruct (CosB.Client d (CallDelete _) b1) as [[err|] b2]; cbn;
      log_norm; reflexivity.
Qed.

(** ** Stat *)

Lemma ParseInt_guard (contentLength : string) :
  (if negb (is_empty contentLength) then ParseInt contentLength else 0)
  = ParseInt contentLength.
Proof. destruct contentLength; reflexivity. Qed.

(** C6, refuted on the second driver: its listing carries no delimiter. *)
Lemma C6_stat_lists_without_delimiter :
  ~ StatClaim CosB.Client CosB.cosPath modTimeB (@CosB.Stat unit).
Proof.
  intros H.
  specialize (H (CosB.mkDriver (Backends.scripted Backends.listedWithDelimiter)
                   "bucket" 5242880 "")
                "/dir" Backends.start).
  cbn in H.
  destruct (H (ex_intro _ _ eq_refl)) as [r [Hr _]].
  vm_compute in Hr. discriminate Hr.
Qed.

(** C6, amended. [Stat] first looks the object up at the key of the path
    and, if the lookup succeeds, returns a FileInfo with IsDir=false, the
    size read from Content-Length and the time read from Last-Modified.
    In [cos.go], when the lookup fails it issues exactly one listing
    with prefix [key + "/"], delimiter ["/"] and max-keys 1, returns a
    directory when the listing shows a content or a common prefix, and
    otherwise returns the translated lookup error, which is NotFound
    when the backend said NoSuchKey.  In the second driver the one
    listing has prefix [key + "/"] and max-keys 1 but no delimiter, a
    directory is returned when the listing shows a content, NotFound
    when it shows none, and a failed listing is returned translated. *)
Theorem C6_stat :
  forall B : Type,
    StatClaim CosA.Client CosA.cosPath modTimeA (@CosA.Stat B)
    /\ (forall (d : CosA.driver B) (path : string) (w : World B),
          let key := CosA.cosPath d path in
          let opt := mkBucketGetOptions (key ++ "/")%string "/" "" 1 in
          match CosA.Client d (CallHead key) (backend w) with
          | (Ok _, _) => True
          | (Err err, b1) =>
              CosA.Stat d path w
              = Done
                  match CosA.Client d (CallBucketGet opt) b1 with
                  | (Ok page, _) =>
                      match Contents page, CommonPrefixes page with
                      | [], [] => Err (CosA.parseError path err)
                      | _, _ => Ok (mkFileInfo path 0 zeroTime true)
                      end
                  | (Err _, _) => Err (CosA.parseError path err)
                  end
                  (mkWorld (snd (CosA.Client d (CallBucketGet opt) b1))
                     (calls w ++ [CallHead key; CallBucketGet opt]))
          end)
    /\ (forall (d : CosB.driver B) (path : string) (w : World B),
          let key := CosB.cosPath d path in
          let opt := mkBucketGetOptions (key ++ "/")%string "" "" 1 in
          match CosB.Client d (CallHead key) (backend w) with
          | (Ok head, b1) =>
              CosB.Stat d path w
              = Done (Ok (mkFileInfo path
                            (ParseInt (Header_Get head "Content-Length"))
                            (modTimeB (Header_Get head "Last-Modified")) false))
                  (mkWorld b1 (calls w ++ [CallHead key]))
          | (Err _, b1) =>
              CosB.Stat d path w
              = Done
                  match CosB.Client d (CallBucketGet opt) b1 with
                  | (Ok page, _) =>
                      match Contents page with
                      | [] => Err (PathNotFoundError path CosB.driverName)
                      | _ :: _ => Ok (mkFileInfo path 0 Now true)
                      end
                  | (Err err, _) => Err (CosB.parseError path err)
                  end
                  (mkWorld (snd (CosB.Client d (CallBucketGet opt) b1))
                     (calls w ++ [CallHead key; CallBucketGet opt]))
          end).
Proof.
  intros B. split; [|split].
  - intros d path w key. subst key.
    unfold CosA.Stat, bind, call; cbn beta iota.
    destruct (CosA.Client d (CallHead _) (backend w)) as [[head|err] b1]; cbn.
    + rewrite ParseInt_guard. reflexivity.
    + intros [msg ->].
      destruct (CosA.Client d (CallBucketGet _) b1) as [[page|lerr] b2]; cbn.
      * destruct (Contents page) as [|o os], (CommonPrefixes page) as [|c cs];
          cbn; log_norm; eexists; (split; [reflexivity|]); eauto.
      * log_norm. eexists. reflexivity.
  - intros d path w key opt. subst key opt.
    unfold CosA.Stat, bind, call; cbn beta iota.
    destruct (CosA.Client d (CallHead _) (backend w)) as [[head|err] b1]; cbn;
      [exact I|].
    destruct (CosA.Client d (CallBucketGet _) b1) as [[page|lerr] b2]; cbn.
    + destruct (Contents page) as [|o os], (CommonPrefixes page) as [|c cs];
        cbn; log_norm; reflexivity.
    + log_norm. reflexivity.
  - intros d path w key opt. subst key opt.
    unfold CosB.Stat, bind, call; cbn beta iota.
    destruct (CosB.Client d (CallHead _) (backend w)) as [[head|err] b1]; cbn;
      [reflexivity|].
    destruct (CosB.Client d (CallBucketGet _) b1) as [[page|lerr] b2]; cbn.
    + destruct (Contents page) as [|o os]; cbn; log_norm; reflexivity.
    + log_norm. reflexivity.
Qed.

Lemma C6_stat_witness :
  exists r,
    CosA.Stat (Backends.driverA Backends.emptyBucket 16777216) "/nothing"
      Backends.start
    = Done r (mkWorld tt
                [CallHead "nothing";
                 CallBucketGet (mkBucketGetOptions "nothing/" "/" "" 1)])
    /\ exists dn, r = Err (PathNotFoundError "/nothing" dn).
Proof.
  apply (proj1 (C6_stat unit)
           (Backends.driverA Backends.emptyBucket 16777216) "/nothing"
           Backends.start).
  eexists. reflexivity.
Defined.

(** ** Delete *)

Lemma DeleteA_nothing {B : Type} (d : CosA.driver B) (path : string)
    (fuel : nat) (w : World B) (Inv : B -> Prop) :
  (0 < fuel)%nat ->
  Inv (backend w) ->
  NothingMatches (CosA.Client d) (CosA.cosPath d path)
    (mkBucketGetOptions (CosA.cosPath d path) "" "" 1000) Inv ->
  exists w1 cs,
    CosA.Delete fuel d path w = Done None w1
    /\ calls w1 = calls w ++ cs
    /\ Forall (spares_all_but (CosA.cosPath d path)) cs
    /\ Inv (backend w1).
Proof.
  intros Hfuel Hinv [Hlist Hdel].
  unfold CosA.Delete, bind, call; cbn beta iota.
  pose proof (Hdel (backend w) Hinv) as Hinv1.
  destruct (CosA.Client d (CallDelete _) (backend w)) as [[err|] b1];
    cbn in Hinv1 |- *.
  - destruct fuel as [|fuel']; [lia|].
    cbn [CosA.Delete_loop]. unfold bind, call; cbn [backend calls].
    destruct (Hlist b1 Hinv1) as [page [Hpage [Hcontents [Htrunc Hinv2]]]].
    destruct (CosA.Client d (CallBucketGet _) b1) as [r b2].
    cbn in Hpage, Hinv2. subst r. rewrite Hcontents, Htrunc. cbn.
    eexists. eexists. split; [reflexivity|]. cbn. split; [|split].
    + log_norm. reflexivity.
    + repeat constructor.
    + exact Hinv2.
  - eexists. eexists. split; [reflexivity|]. cbn. split; [reflexivity|].
    split; [repeat constructor|exact Hinv1].
Qed.

Lemma DeleteB_nothing {B : Type} (d : CosB.driver B) (path : string)
    (fuel : nat) (w : World B) (Inv : B -> Prop) :
  (0 < fuel)%nat ->
  Inv (backend w) ->
  NothingMatches (CosB.Client d) (CosB.cosPath d path)
    (mkBucketGetOptions (CosB.cosPath d path ++ "/")%string "" "" CosB.listMax)
    Inv ->
  exists w1 cs,
    CosB.Delete fuel d path w = Done None w1
    /\ calls w1 = calls w ++ cs
    /\ Forall (spares_all_but (CosB.cosPath d path)) cs
    /\ Inv (backend w1).
Proof.
  intros Hfuel Hinv [Hlist Hdel].
  destruct fuel as [|fuel']; [lia|].
  unfold CosB.Delete, bind; cbn [CosB.Delete_loop].
  unfold bind, call; cbn beta iota.
  destruct (Hlist (backend w) Hinv) as [page [Hpage [Hcontents [_ Hinv1]]]].
  destruct (CosB.Client d (CallBucketGet _) (backend w)) as [r b1].
  cbn in Hpage, Hinv1. subst r. rewrite Hcontents. cbn.
  pose proof (Hdel b1 Hinv1) as Hinv2.
  destruct (CosB.Client d (CallDelete _) b1) as [r2 b2]. cbn in Hinv2 |- *.
  eexists. eexists. split; [reflexivity|]. cbn. split; [|split].
  - log_norm. reflexivity.
  - repeat constructor.
  - exact Hinv2.
Qed.

(** C7. When no object matches the path, [Delete] returns without error
    in both drivers, however the backend answers the single-object
    delete of the key itself, and so does a second [Delete] right after
    it; the requests issued are listings and single deletes of that key
    only, so nothing is removed.  That no object matches is a condition
    on the states the backend passes through, starting from the state in
    which [Delete] is called: in each of them the listing under the key
    comes back empty and complete, and the listing and the delete of the
    key lead to such a state again. *)
Theorem C7_delete_of_nothing_succeeds :
  forall (B : Type) (dA : CosA.driver B) (dB : CosB.driver B) (path : string)
         (fuel : nat) (w : World B) (InvA InvB : B -> Prop),
    (0 < fuel)%nat ->
    InvA (backend w) ->
    NothingMatches (CosA.Client dA) (CosA.cosPath dA path)
      (mkBucketGetOptions (CosA.cosPath dA path) "" "" 1000) InvA ->
    InvB (backend w) ->
    NothingMatches (CosB.Client dB) (CosB.cosPath dB path)
      (mkBucketGetOptions (CosB.cosPath dB path ++ "/")%string "" "" 1000)
      InvB ->
    (exists w1 w2 cs,
        CosA.Delete fuel dA path w = Done None w1
        /\ CosA.Delete fuel dA path w1 = Done None w2
        /\ calls w2 = calls w ++ cs
        /\ Forall (spares_all_but (CosA.cosPath dA path)) cs)
    /\ (exists w1 w2 cs,
        CosB.Delete fuel dB path w = Done None w1
        /\ CosB.Delete fuel dB path w1 = Done None w2
        /\ calls w2 = calls w ++ cs
        /\ Forall (spares_all_but (CosB.cosPath dB path)) cs).
Proof.
  intros B dA dB path fuel w InvA InvB Hfuel HiA HA HiB HB. split.
  - destruct (DeleteA_nothing dA path fuel w InvA Hfuel HiA HA)
      as [w1 [cs1 [H1 [L1 [F1 I1]]]]].
    destruct (DeleteA_nothing dA path fuel w1 InvA Hfuel I1 HA)
      as [w2 [cs2 [H2 [L2 [F2 _]]]]].
    exists w1, w2, (cs1 ++ cs2). repeat split; try assumption.
    + rewrite L2, L1, app_assoc. reflexivity.
    + apply Forall_app. split; assumption.
  - destruct (DeleteB_nothing dB path fuel w InvB Hfuel HiB HB)
      as [w1 [cs1 [H1 [L1 [F1 I1]]]]].
    destruct (DeleteB_nothing dB path fuel w1 InvB Hfuel I1 HB)
      as [w2 [cs2 [H2 [L2 [F2 _]]]]].
    exists w1, w2, (cs1 ++ cs2). repeat split; try assumption.
    + rewrite L2, L1, app_assoc. reflexivity.
    + apply Forall_app. split; assumption.
Qed.

Lemma C7_delete_of_nothing_succeeds_witness :
  (exists w1 w2 cs,
      CosA.Delete 1 Backends.storeA "/gone" (mkWorld ["other/x"] [])
      = Done None w1
      /\ CosA.Delete 1 Backends.storeA "/gone" w1 = Done None w2
      /\ calls w2 = [] ++ cs
      /\ Forall (spares_all_but "gone") cs)
  /\ (exists w1 w2 cs,
      CosB.Delete 1 Backends.storeB "/gone" (mkWorld ["other/x"] [])
      = Done None w1
      /\ CosB.Delete 1 Backends.storeB "/gone" w1 = Done None w2
      /\ calls w2 = [] ++ cs
      /\ Forall (spares_all_but "gone") cs).
Proof.
  apply (C7_delete_of_nothing_succeeds (list string)
           Backends.storeA Backends.storeB "/gone" 1%nat
           (mkWorld ["other/x"] [])
           (fun b => b = ["other/x"]) (fun b => b = ["other/x"])).
  - lia.
  - reflexivity.
  - split; intros b ->;
      [exists Backends.emptyPage; repeat split; reflexivity | reflexivity].
  - reflexivity.
  - split; intros b ->;
      [exists Backends.emptyPage; repeat split; reflexivity | reflexivity].
Defined.

(** ** The writer of [cos.go]: what its methods preserve *)

Lemma ascending_snoc (parts : list Object) (key etag : string) :
  ascending parts ->
  ascending (parts ++ [mkObject key (Z.of_nat (length parts) + 1) etag]).
Proof.
  unfold ascending. intros H.
  rewrite map_app, length_app, H. cbn [map length PartNumber].
  rewrite Nat.add_1_r, seq_S, map_app. cbn [map].
  do 2 f_equal. lia.
Qed.

Lemma uploadPart_wfA {B} (w w' : CosA.writer B) r world world' :
  CosA.uploadPart w world = Done (w', r) world' ->
  wfA w ->
  wfA w'
  /\ CosA.closed w' = CosA.closed w
  /\ CosA.committed w' = CosA.committed w
  /\ CosA.cancelled w' = CosA.cancelled w
  /\ CosA.driver_ w' = CosA.driver_ w
  /\ exists b, CosA.buf w' = Some b.
Proof.
  unfold CosA.uploadPart. intros H [Hbuf [Hcom [Hcan Hasc]]].
  destruct (CosA.buf w) as [b|] eqn:Eb; [|discriminate H].
  destruct (Z.of_nat (length b) =? 0).
  - inversion H; subst. unfold wfA. rewrite Eb. eauto 10.
  - unfold bind, call in H. cbn in H.
    destruct (CosA.Client (CosA.driver_ w) _ (backend world)) as [[h|e] b1];
      inversion H; subst; unfold wfA; cbn; repeat split; eauto.
    apply ascending_snoc. exact Hasc.
Qed.

Lemma Write_loop_wfA {B} (fuel : nat) :
  forall (w w' : CosA.writer B) r world world',
    CosA.Write_loop fuel w world = Done (w', r) world' ->
    wfA w ->
    wfA w'
    /\ CosA.closed w' = CosA.closed w
    /\ CosA.committed w' = CosA.committed w
    /\ CosA.cancelled w' = CosA.cancelled w
    /\ CosA.driver_ w' = CosA.driver_ w.
Proof.
  induction fuel as [|fuel IH]; intros w w' r world world' H Hwf;
    [discriminate H|].
  cbn [CosA.Write_loop] in H.
  destruct (CosA.buf w) as [b|]; [|discriminate H].
  destruct (CosA.ChunkSize (CosA.driver_ w) <=? Z.of_nat (length b)).
  - unfold bind in H.
    destruct (CosA.uploadPart w world) as [[w1 [e|]] world1| |] eqn:Eu;
      try discriminate H.
    + inversion H; subst.
      destruct (uploadPart_wfA _ _ _ _ _ Eu Hwf) as [? [? [? [? [? ?]]]]].
      auto.
    + destruct (uploadPart_wfA _ _ _ _ _ Eu Hwf) as [Hwf1 [E1 [E2 [E3 [E4 _]]]]].
      destruct (IH _ _ _ _ _ H Hwf1) as [? [F1 [F2 [F3 F4]]]].
      rewrite F1, F2, F3, F4. auto.
  - inversion H; subst. auto.
Qed.

Lemma Write_wfA {B} (fuel : nat) (w w' : CosA.writer B) p r world world' :
  CosA.Write fuel w p world = Done (w', r) world' -> wfA w -> wfA w'.
Proof.
  unfold CosA.Write. intros H Hwf.
  destruct (CosA.closed w) eqn:Ecl; [inversion H; subst; exact Hwf|].
  destruct (CosA.cancelled w) eqn:Eca; [inversion H; subst; exact Hwf|].
  destruct (CosA.committed w) eqn:Eco; [inversion H; subst; exact Hwf|].
  destruct (CosA.buf w) as [b|] eqn:Eb; [|discriminate H].
  unfold bind in H.
  destruct (CosA.Write_loop fuel _ world) as [[w1 e] world1| |] eqn:El;
    try discriminate H.
  inversion H; subst.
  apply Write_loop_wfA in El; [tauto|].
  destruct Hwf as [_ [_ [_ Hasc]]].
  unfold wfA; cbn. rewrite Ecl, Eca, Eco.
  repeat split; intros; try discriminate; eauto.
Qed.

Lemma Close_wfA {B} (w : CosA.writer B) :
  wfA w -> wfA (fst (CosA.Close w)).
Proof.
  unfold CosA.Close. intros Hwf.
  destruct (CosA.closed w) eqn:Ecl; [exact Hwf|].
  destruct Hwf as [_ [_ [_ Hasc]]].
  cbn. destruct (CosA.buf w); wf_solve.
Qed.

Lemma Cancel_wfA {B} (w w' : CosA.writer B) r world world' :
  CosA.Cancel w world = Done (w', r) world' -> wfA w -> wfA w'.
Proof.
  unfold CosA.Cancel. intros H Hwf.
  destruct (CosA.closed w) eqn:Ecl; [inversion H; subst; exact Hwf|].
  unfold bind, call in H. cbn in H.
  destruct (CosA.Client _ _ (backend world)) as [e b1].
  inversion H; subst.
  destruct Hwf as [_ [_ [_ Hasc]]].
  unfold CosA.Close; cbn. rewrite Ecl.
  cbn. destruct (CosA.buf w); wf_solve.
Qed.

Lemma Close_committed_wfA {B} (w : CosA.writer B) :
  wfA w -> wfA (fst (CosA.Close (CosA.set_committed w true))).
Proof.
  intros [Hb [Hc1 [Hc2 Hasc]]].
  unfold CosA.Close; cbn.
  destruct (CosA.closed w) eqn:E; [wf_solve|].
  cbn. destruct (CosA.buf w); wf_solve.
Qed.

Lemma Commit_wfA {B} (w w' : CosA.writer B) r world world' :
  CosA.Commit w world = Done (w', r) world' -> wfA w -> wfA w'.
Proof.
  unfold CosA.Commit. intros H Hwf.
  destruct (CosA.closed w && negb (CosA.committed w) && negb (CosA.cancelled w));
    [inversion H; subst; exact Hwf|].
  destruct (CosA.committed w) eqn:Eco; [inversion H; subst; exact Hwf|].
  destruct (CosA.cancelled w) eqn:Eca; [inversion H; subst; exact Hwf|].
  unfold bind in H.
  destruct (CosA.uploadPart w world) as [[w1 [e|]] world1| |] eqn:Eu;
    try discriminate H.
  - inversion H; subst. eapply uploadPart_wfA; eauto.
  - destruct (uploadPart_wfA _ _ _ _ _ Eu Hwf) as [Hwf1 _].
    unfold call, ret in H.
    destruct (CosA.Client _ _ (backend world1)) as [[e|] b1];
      inversion H; subst; [exact Hwf1|].
    change w' with (fst (w', r)). rewrite <- H1.
    apply Close_committed_wfA. exact Hwf1.
Qed.

(** Every writer a caller can hold is well formed. *)
Lemma reachedA_wfA {B} (w : CosA.writer B) : reachedA w -> wfA w.
Proof.
  induction 1 as [d key uploadID | w w' _ IH Hstep].
  - wf_solve.
  - destruct Hstep.
    + eapply Write_wfA; eauto.
    + apply Close_wfA; assumption.
    + eapply Cancel_wfA; eauto.
    + eapply Commit_wfA; eauto.
Qed.

(** ** Write and Commit on a finished writer *)

Lemma committedA_reached : reachedA Backends.committedA.
Proof.
  apply (reachedA_step Backends.freshA); [constructor|].
  apply (stepA_Commit Backends.freshA Backends.start Backends.committedA None
           (mkWorld tt [CallCompleteMultipartUpload "blob" "upload-1" []])).
  reflexivity.
Qed.

Lemma committedB_reached : reachedB Backends.committedB.
Proof.
  apply (reachedB_step Backends.freshB); [constructor|].
  apply (stepB_Commit Backends.freshB Backends.start Backends.committedB None
           (mkWorld tt [CallPut "blob" []])).
  reflexivity.
Qed.

(** C8, refuted on the second driver: after a [Commit] and before any
    [Close], [Write] still takes the bytes. *)
Lemma C8_write_accepted_after_commit :
  ~ RejectsWrites (B:=unit) reachedB CosB.committed CosB.cancelled
      (fun (w : CosB.writer unit) p => ret (CosB.Write w p))
      (Errorf "writer closed").
Proof.
  intros H.
  specialize (H Backends.committedB committedB_reached (or_introl eq_refl)
                ["x"%byte] Backends.start).
  vm_compute in H. discriminate H.
Qed.

(** C8, amended. In [cos.go], on every writer that has been committed or
    cancelled, [Write] returns 0 and the error "already closed", leaves
    the writer as it is and issues no request.  In the second driver
    [Write] never issues a request; it returns 0 and the error "writer
    closed" exactly when the writer has been closed by [Close], and
    otherwise appends the bytes to the buffer, also on a writer that is
    committed or cancelled. *)
Theorem C8_write_on_finished_writer :
  forall B : Type,
    (forall fuel : nat,
        RejectsWrites reachedA CosA.committed CosA.cancelled
          (@CosA.Write B fuel) (Errorf "already closed"))
    /\ (forall (w : CosB.writer B) (p : list byte),
          (CosB.closed w = true ->
           CosB.Write w p = (w, (0, Some (Errorf "writer closed"))))
          /\ (CosB.closed w = false ->
              CosB.Write w p
              = (CosB.set_buf w (CosB.buf w ++ p),
                 (Z.of_nat (length p), None)))).
Proof.
  intros B. split.
  - intros fuel w Hreach Hdone p world.
    destruct (reachedA_wfA w Hreach) as [_ [Hcom [Hcan _]]].
    assert (Hcl : CosA.closed w = true) by (destruct Hdone; auto).
    unfold CosA.Write. rewrite Hcl. reflexivity.
  - intros w p. unfold CosB.Write.
    split; intros ->; reflexivity.
Qed.

Lemma C8_write_on_finished_writer_witness :
  CosA.Write 2 Backends.committedA ["x"%byte] Backends.start
  = Done (Backends.committedA, (0, Some (Errorf "already closed")))
      Backends.start.
Proof.
  apply (proj1 (C8_write_on_finished_writer unit) 2%nat Backends.committedA
           committedA_reached (or_introl eq_refl)).
Defined.

(** C9, refuted on the second driver: the second [Commit] returns
    without error. *)
Lemma C9_second_commit_succeeds :
  ~ CommitNotRepeatable reachedB CosB.committed CosB.cancelled
      (@CosB.Commit unit).
Proof.
  intros [_ H].
  destruct (H Backends.freshB Backends.committedB Backends.start
              (mkWorld tt [CallPut "blob" []])
              (reachedB_new _ _) eq_refl Backends.start)
    as [w [e [world Hf]]].
  vm_compute in Hf. discriminate Hf.
Qed.

Lemma CommitA_finished {B} (w : CosA.writer B) (world : World B) :
  CosA.committed w = true \/ CosA.cancelled w = true ->
  exists e, CosA.Commit w world = Done (w, Some e) world.
Proof.
  intros H. unfold CosA.Commit.
  destruct (CosA.closed w && negb (CosA.committed w) && negb (CosA.cancelled w));
    [eexists; reflexivity|].
  destruct (CosA.committed w); [eexists; reflexivity|].
  destruct (CosA.cancelled w); [eexists; reflexivity|].
  destruct H; discriminate.
Qed.

Lemma CommitA_success_committed {B} (w w' : CosA.writer B) world world' :
  CosA.Commit w world = Done (w', None) world' -> CosA.committed w' = true.
Proof.
  unfold CosA.Commit. intros H.
  destruct (CosA.closed w && negb (CosA.committed w) && negb (CosA.cancelled w));
    [discriminate H|].
  destruct (CosA.committed w); [discriminate H|].
  destruct (CosA.cancelled w); [discriminate H|].
  unfold bind in H.
  destruct (CosA.uploadPart w world) as [[w1 [e|]] world1| |];
    try discriminate H.
  unfold call, ret in H.
  destruct (CosA.Client _ _ (backend world1)) as [[e|] b1];
    [discriminate H|].
  unfold CosA.Close in H. cbn in H.
  destruct (CosA.closed w1); [inversion H; reflexivity|].
  cbn in H. destruct (CosA.buf w1); inversion H; reflexivity.
Qed.

(** C9, amended. In [cos.go], [Commit] on a writer that is committed or
    cancelled returns an error without any request and leaves the writer
    as it is: "already committed" on a committed writer, "already
    cancelled" on a cancelled one that is not committed; so a second
    [Commit] after one that returned without error fails with "already
    committed" and sends nothing.  In the second driver [Commit] on a
    cancelled writer that was never committed returns the error "writer
    cancelled", and [Commit] on a writer already marked committed
    returns without error and without any request. *)
Theorem C9_commit_on_finished_writer :
  forall B : Type,
    CommitNotRepeatable reachedA CosA.committed CosA.cancelled (@CosA.Commit B)
    /\ (forall (w : CosA.writer B) (world : World B),
          (CosA.committed w = true ->
           CosA.Commit w world
           = Done (w, Some (Errorf "already committed")) world)
          /\ (CosA.committed w = false -> CosA.cancelled w = true ->
              CosA.Commit w world
              = Done (w, Some (Errorf "already cancelled")) world))
    /\ (forall (w w' : CosA.writer B) (world world' : World B),
          CosA.Commit w world = Done (w', None) world' ->
          forall world2 : World B,
            CosA.Commit w' world2
            = Done (w', Some (Errorf "already committed")) world2)
    /\ (forall (w : CosB.writer B) (world : World B),
          (CosB.committed w = true ->
           CosB.Commit w world = Done (w, None) world)
          /\ (CosB.committed w = false -> CosB.cancelled w = true ->
              CosB.Commit w world
              = Done (w, Some (Errorf "writer cancelled")) world)).
Proof.
  intros B.
  assert (HA : forall (w : CosA.writer B) (world : World B),
             (CosA.committed w = true ->
              CosA.Commit w world
              = Done (w, Some (Errorf "already committed")) world)
             /\ (CosA.committed w = false -> CosA.cancelled w = true ->
                 CosA.Commit w world
                 = Done (w, Some (Errorf "already cancelled")) world)).
  { intros w world. unfold CosA.Commit. split.
    - intros ->. cbn [negb andb]. rewrite andb_false_r. reflexivity.
    - intros -> ->. cbn [negb andb]. rewrite andb_false_r. reflexivity. }
  split; [split|split; [exact HA|split]].
  - intros w _ Hdone world.
    destruct (CommitA_finished w world Hdone) as [e He].
    exists w, e, world. exact He.
  - intros w w' world world' _ Hc world2.
    apply CommitA_success_committed in Hc.
    destruct (CommitA_finished w' world2 (or_introl Hc)) as [e He].
    exists w', e, world2. exact He.
  - intros w w' world world' Hc world2.
    apply CommitA_success_committed in Hc.
    exact (proj1 (HA w' world2) Hc).
  - intros w world. unfold CosB.Commit. split.
    + intros ->. reflexivity.
    + intros -> ->. reflexivity.
Qed.

Lemma C9_commit_on_finished_writer_witness :
  CosA.Commit Backends.committedA Backends.start
  = Done (Backends.committedA, Some (Errorf "already committed"))
      Backends.start.
Proof.
  apply (proj1 (proj2 (proj2 (C9_commit_on_finished_writer unit)))
           Backends.freshA Backends.committedA Backends.start
           (mkWorld tt [CallCompleteMultipartUpload "blob" "upload-1" []])
           eq_refl).
Defined.

(** ** A Commit that the backend refuses *)

Lemma reachedA_open {B} (w : CosA.writer B) :
  reachedA w -> CosA.closed w = false ->
  openA w /\ (exists b, CosA.buf w = Some b) /\ ascending (CosA.parts w).
Proof.
  intros Hr Hcl. destruct (reachedA_wfA w Hr) as [Hb [Hco [Hca Hasc]]].
  repeat split; auto.
  - destruct (CosA.committed w); [rewrite Hco in Hcl by reflexivity|];
      congruence.
  - destruct (CosA.cancelled w); [rewrite Hca in Hcl by reflexivity|];
      congruence.
Qed.

(** [uploadPart] on a writer that has a buffer. *)
Lemma uploadPart_cases {B} (w : CosA.writer B) (b : list byte) (world : World B) :
  CosA.buf w = Some b ->
  CosA.uploadPart w world
  = match b with
    | [] => Done (w, None) world
    | _ :: _ =>
        match CosA.Client (CosA.driver_ w) (uploadA w b) (backend world) with
        | (Err e, b') =>
            Done (CosA.set_buf w (Some []), Some e)
              (mkWorld b' (calls world ++ [uploadA w b]))
        | (Ok header, b') =>
            Done (flushedA w header, None)
              (mkWorld b' (calls world ++ [uploadA w b]))
        end
    end.
Proof.
  intros Hb. unfold CosA.uploadPart. rewrite Hb.
  destruct b as [|x b]; [reflexivity|].
  cbn [length]. rewrite Nat2Z.inj_succ.
  destruct (Z.eqb_spec (Z.succ (Z.of_nat (length b))) 0) as [E|E]; [lia|].
  unfold bind, call, uploadA; cbn.
  destruct (CosA.Client (CosA.driver_ w) _ (backend world)) as [[h|e] b'];
    reflexivity.
Qed.

(** [Commit] on an open writer. *)
Lemma CommitA_cases {B} (w : CosA.writer B) (b : list byte) (world : World B) :
  openA w -> CosA.buf w = Some b ->
  CosA.Commit w world
  = match b with
    | [] => completeA w world
    | _ :: _ =>
        match CosA.Client (CosA.driver_ w) (uploadA w b) (backend world) with
        | (Err e, b') =>
            Done (CosA.set_buf w (Some []), Some e)
              (mkWorld b' (calls world ++ [uploadA w b]))
        | (Ok header, b') =>
            completeA (flushedA w header)
              (mkWorld b' (calls world ++ [uploadA w b]))
        end
    end.
Proof.
  intros [Hcl [Hco Hca]] Hb. unfold CosA.Commit.
  rewrite Hcl, Hco, Hca. cbn [andb negb]. unfold bind.
  rewrite (uploadPart_cases w b world Hb).
  assert (Hc : forall (v : CosA.writer B) (wd : World B),
             (err <- call (CosA.Client (CosA.driver_ v))
                      (CallCompleteMultipartUpload (CosA.key v) (CosA.uploadID v)
                         (CosA.parts v)) ;;
              match err with
              | Some e => ret (v, Some e)
              | None => ret (CosA.Close (CosA.set_committed v true))
              end)%go wd = completeA v wd).
  { intros v wd. unfold bind, call, completeA, ret.
    destruct (CosA.Client (CosA.driver_ v) _ (backend wd)) as [[e|] b'];
      reflexivity. }
  destruct b as [|x b]; [apply Hc|].
  destruct (CosA.Client (CosA.driver_ w) _ (backend world)) as [[h|e] b'];
    [apply Hc | reflexivity].
Qed.

(** In [cos.go] a [Commit] that returns an error of the backend leaves
    the writer open, with an empty buffer and at most one part more, and
    the next [Commit] goes on to the completion request. *)
Lemma CommitA_failure_keeps_writer_open {B} (w w' : CosA.writer B) e world world' :
  reachedA w -> CosA.closed w = false ->
  CosA.Commit w world = Done (w', Some e) world' ->
  openA w'
  /\ CosA.buf w' = Some []
  /\ (CosA.parts w' = CosA.parts w
      \/ exists part, CosA.parts w' = CosA.parts w ++ [part])
  /\ forall world2, CosA.Commit w' world2 = completeA w' world2.
Proof.
  intros Hr Hcl H.
  destruct (reachedA_open w Hr Hcl) as [Hopen [[b Hb] _]].
  rewrite (CommitA_cases w b world Hopen Hb) in H.
  destruct Hopen as [_ [Hco Hca]].
  assert (Hfin : forall v : CosA.writer B,
             openA v -> CosA.buf v = Some [] ->
             (CosA.parts v = CosA.parts w
              \/ exists part, CosA.parts v = CosA.parts w ++ [part]) ->
             forall wd, completeA v wd = Done (w', Some e) world' ->
             openA w' /\ CosA.buf w' = Some []
             /\ (CosA.parts w' = CosA.parts w
                 \/ exists part, CosA.parts w' = CosA.parts w ++ [part])
             /\ forall world2, CosA.Commit w' world2 = completeA w' world2).
  { intros v Hv Hvb Hvp wd Hc. unfold completeA in Hc.
    destruct (CosA.Client (CosA.driver_ v) _ (backend wd)) as [[e'|] b'].
    - inversion Hc; subst. repeat split; try apply Hv; auto.
      intros world2. apply (CommitA_cases w' [] world2 Hv Hvb).
    - unfold CosA.Close in Hc. cbn in Hc.
      destruct (CosA.closed v); cbn in Hc; discriminate Hc. }
  destruct b as [|x b].
  - apply (Hfin w (conj Hcl (conj Hco Hca)) Hb (or_introl eq_refl) world H).
  - destruct (CosA.Client (CosA.driver_ w) _ (backend world)) as [[h|e'] b'].
    + apply (Hfin (flushedA w h)) with (wd := mkWorld b' (calls world ++ [uploadA w (x :: b)]));
        [repeat split; assumption | reflexivity | right; eexists; reflexivity
        | exact H].
    + inversion H; subst. repeat split; auto.
      intros world2.
      apply (CommitA_cases (CosA.set_buf w (Some [])) [] world2);
        [repeat split; assumption | reflexivity].
Qed.

(** In the second driver [Commit] marks the writer committed before it
    asks the backend for anything. *)
Lemma CommitB_marks_committed {B} (w w' : CosB.writer B) r world world' :
  CosB.committed w = false -> CosB.cancelled w = false ->
  CosB.Commit w world = Done (w', r) world' ->
  CosB.committed w' = true.
Proof.
  unfold CosB.Commit. intros -> -> H.
  unfold bind, call, ret in H. cbn in H.
  repeat match type of H with
         | context [if ?c then _ else _] => destruct c
         | context [let (_, _) := ?x in _] => destruct x
         | context [match ?x with Ok _ => _ | Err _ => _ end] => destruct x
         | context [match ?x with Some _ => _ | None => _ end] => destruct x
         end;
    cbn in H; inversion H; reflexivity.
Qed.

(** C10, on the second driver. One byte is written and the backend
    refuses the put: [Commit] returns the error of the backend, yet the
    writer is marked committed, and the next [Commit] returns without
    error and without any request. *)
Theorem C10_failed_commit_is_final :
  exists w' world',
    CosB.Commit Backends.unluckyB Backends.start
    = Done (w', Some (TransportError "connection reset")) world'
    /\ calls world' = [CallPut "blob" ["x"%byte]]
    /\ CosB.committed w' = true
    /\ CosB.Commit w' world' = Done (w', None) world'.
Proof.
  exists (CosB.set_committed Backends.unluckyB true),
         (mkWorld tt [CallPut "blob" ["x"%byte]]).
  repeat split.
Qed.

(** ** Commit *)















(** ** Write and the parts it uploads *)

Lemma Write_loop_cases {B} (fuel : nat) (w : CosA.writer B) (b : list byte)
    (world : World B) :
  (2 <= fuel)%nat -> CosA.buf w = Some b ->
  0 < CosA.ChunkSize (CosA.driver_ w) ->
  CosA.Write_loop fuel w world
  = if CosA.ChunkSize (CosA.driver_ w) <=? Z.of_nat (length b) then
      match CosA.Client (CosA.driver_ w) (uploadA w b) (backend world) with
      | (Err e, b') =>
          Done (CosA.set_buf w (Some []), Some e)
            (mkWorld b' (calls world ++ [uploadA w b]))
      | (Ok header, b') =>
          Done (flushedA w header, None)
            (mkWorld b' (calls world ++ [uploadA w b]))
      end
    else Done (w, None) world.
Proof.
  intros Hfuel Hb HC.
  destruct fuel as [|[|fuel]]; try lia.
  cbn [CosA.Write_loop]. rewrite Hb.
  destruct (Z.leb_spec (CosA.ChunkSize (CosA.driver_ w)) (Z.of_nat (length b)))
    as [Hle|Hlt]; [|reflexivity].
  unfold bind. rewrite (uploadPart_cases w b world Hb).
  destruct b as [|x b]; [cbn in Hle; lia|].
  destruct (CosA.Client (CosA.driver_ w) _ (backend world)) as [[h|e] b'];
    [|reflexivity].
  cbn.
  destruct (Z.leb_spec (CosA.ChunkSize (CosA.driver_ w)) 0); [lia|reflexivity].
Qed.

(** One [Write] on an open writer. *)
Lemma Write_cases {B} (fuel : nat) (w : CosA.writer B) (b p : list byte)
    (world : World B) :
  (2 <= fuel)%nat -> openA w -> CosA.buf w = Some b ->
  0 < CosA.ChunkSize (CosA.driver_ w) ->
  CosA.Write fuel w p world = WriteOutcomeA w b p world.
Proof.
  intros Hfuel [Hcl [Hco Hca]] Hb HC.
  unfold CosA.Write, WriteOutcomeA. rewrite Hcl, Hco, Hca, Hb.
  unfold bind. cbv zeta.
  change (CosA.size (CosA.set_buf w (Some (b ++ p)))) with (CosA.size w).
  rewrite (Write_loop_cases fuel
             (CosA.set_size (CosA.set_buf w (Some (b ++ p)))
                (wrap64 (CosA.size w + Z.of_nat (length p))))
             (b ++ p) world Hfuel eq_refl HC).
  cbn [CosA.driver_ CosA.set_size CosA.set_buf].
  destruct (CosA.ChunkSize (CosA.driver_ w) <=? Z.of_nat (length (b ++ p)));
    [|reflexivity].
  change (uploadA (CosA.set_size (CosA.set_buf w (Some (b ++ p)))
                     (wrap64 (CosA.size w + Z.of_nat (length p)))) (b ++ p))
    with (uploadA w (b ++ p)).
  destruct (CosA.Client (CosA.driver_ w) _ (backend world)) as [[h|e] b'];
    reflexivity.
Qed.













(** * Further properties of the two drivers *)

(** ** Strings *)

Lemma append_nil_r (s : string) : (s ++ "")%string = s.
Proof. induction s as [|c s IH]; cbn; [reflexivity | now rewrite IH]. Qed.

Lemma append_assoc (a b c : string) :
  ((a ++ b) ++ c)%string = (a ++ b ++ c)%string.
Proof. induction a as [|x a IH]; cbn; [reflexivity | now rewrite IH]. Qed.

Lemma append_inv_head (a x y : string) :
  (a ++ x)%string = (a ++ y)%string -> x = y.
Proof.
  induction a as [|c a IH]; cbn; intros H; [exact H|].
  injection H as H. exact (IH H).
Qed.

Lemma length_append (a b : string) :
  String.length (a ++ b) = (String.length a + String.length b)%nat.
Proof. induction a as [|c a IH]; cbn; [reflexivity | now rewrite IH]. Qed.

Lemma drop_append (a b : string) : drop (String.length a) (a ++ b) = b.
Proof. induction a as [|c a IH]; cbn; [reflexivity | exact IH]. Qed.

Lemma take_append (a b : string) : take (String.length a) (a ++ b) = a.
Proof.
  induction a as [|c a IH]; cbn; [destruct b; reflexivity | now rewrite IH].
Qed.

Lemma HasPrefix_append (a b : string) : HasPrefix (a ++ b) a = true.
Proof.
  induction a as [|c a IH]; cbn; [reflexivity|].
  rewrite Ascii.eqb_refl. exact IH.
Qed.

Lemma TrimPrefix_append (a b : string) : TrimPrefix (a ++ b) a = b.
Proof. unfold TrimPrefix. rewrite HasPrefix_append. apply drop_append. Qed.

Lemma TrimSuffix_append (a b : string) : TrimSuffix (a ++ b) b = a.
Proof.
  unfold TrimSuffix, HasSuffix. rewrite length_append.
  replace (String.length a + String.length b - String.length b)%nat
    with (String.length a) by lia.
  rewrite drop_append, String.eqb_refl, take_append.
  destruct (Nat.leb_spec (String.length b) (String.length a + String.length b));
    [reflexivity | lia].
Qed.

Lemma TrimPrefix_unslashed (s : string) : unslashed s -> TrimPrefix s "/" = s.
Proof. unfold unslashed, TrimPrefix. now intros ->. Qed.

Lemma TrimLeft_unslashed (s : string) : unslashed s -> TrimLeft s "/" = s.
Proof.
  unfold unslashed. destruct s as [|c s]; cbn; [reflexivity|].
  rewrite andb_true_r, orb_false_r. now intros ->.
Qed.

Lemma TrimLeft_append (r s : string) :
  TrimLeft (r ++ s) "/"
  = if is_empty (TrimLeft r "/") then TrimLeft s "/"
    else (TrimLeft r "/" ++ s)%string.
Proof.
  induction r as [|c r IH]; [reflexivity|].
  cbn [append TrimLeft contains]. rewrite orb_false_r.
  destruct (Ascii.eqb c "/"); [exact IH | reflexivity].
Qed.

(** A path rooted at "/", and one that moreover does not start with two
    slashes. *)
Lemma rooted_inv (p : string) :
  HasPrefix p "/" = true -> HasPrefix p "//" = false ->
  exists q, p = String "/" q /\ unslashed q.
Proof.
  intros H1 H2. destruct (HasPrefix_slash p H1) as [q ->].
  exists q. split; [reflexivity|].
  unfold unslashed. cbn in H2. destruct q as [|c q]; [reflexivity|].
  cbn in *. rewrite andb_true_r in *. exact H2.
Qed.

(** ** Keys *)

Lemma cosPathA_rooted {B} (d : CosA.driver B) (q : string) :
  CosA.cosPath d (String "/" q)
  = match CosA.RootDirectory d with
    | EmptyString => q
    | String c r =>
        if Ascii.eqb c "/" then (r ++ String "/" q)%string
        else (String c r ++ String "/" q)%string
    end.
Proof.
  unfold CosA.cosPath.
  destruct (CosA.RootDirectory d) as [|c r]; cbn; [reflexivity|].
  unfold TrimPrefix. cbn. rewrite andb_true_r.
  destruct (Ascii.eqb c "/"); reflexivity.
Qed.

Lemma cosPathB_rooted {B} (d : CosB.driver B) (q : string) :
  unslashed q ->
  CosB.cosPath d (String "/" q)
  = if is_empty (TrimLeft (CosB.RootDirectory d) "/") then q
    else (TrimLeft (CosB.RootDirectory d) "/" ++ String "/" q)%string.
Proof.
  intros Hq. unfold CosB.cosPath.
  change (TrimLeft (String "/" q) "/") with (TrimLeft q "/").
  rewrite (TrimLeft_unslashed q Hq).
  destruct (CosB.RootDirectory d) as [|c r] eqn:Er; [reflexivity|].
  cbn [is_empty]. rewrite TrimLeft_append.
  destruct (is_empty (TrimLeft (String c r) "/")); [|reflexivity].
  change (TrimLeft ("/" ++ q) "/") with (TrimLeft q "/").
  apply TrimLeft_unslashed. exact Hq.
Qed.

(** X1. Under a fixed root directory two different virtual paths never
    share a key: in [cos.go] for all paths rooted at "/", in the second
    driver for all rooted paths that do not start with two slashes. *)
Theorem X1_cosPath_injective :
  forall (B : Type) (dA : CosA.driver B) (dB : CosB.driver B)
         (p1 p2 : string),
    HasPrefix p1 "/" = true -> HasPrefix p2 "/" = true ->
    (CosA.cosPath dA p1 = CosA.cosPath dA p2 -> p1 = p2)
    /\ (HasPrefix p1 "//" = false -> HasPrefix p2 "//" = false ->
        CosB.cosPath dB p1 = CosB.cosPath dB p2 -> p1 = p2).
Proof.
  intros B dA dB p1 p2 H1 H2. split.
  - destruct (HasPrefix_slash p1 H1) as [q1 ->].
    destruct (HasPrefix_slash p2 H2) as [q2 ->].
    rewrite !cosPathA_rooted.
    destruct (CosA.RootDirectory dA) as [|c r]; [congruence|].
    destruct (Ascii.eqb c "/"); intros H; apply append_inv_head in H;
      exact H.
  - intros N1 N2.
    destruct (rooted_inv p1 H1 N1) as [q1 [-> U1]].
    destruct (rooted_inv p2 H2 N2) as [q2 [-> U2]].
    rewrite (cosPathB_rooted dB q1 U1), (cosPathB_rooted dB q2 U2).
    destruct (is_empty (TrimLeft (CosB.RootDirectory dB) "/"));
      [congruence|].
    intros H. apply append_inv_head in H. exact H.
Qed.

Lemma X1_cosPath_injective_witness :
  (CosA.cosPath (Backends.driverA Backends.emptyBucket 16777216) "/a/b"
   = CosA.cosPath (Backends.driverA Backends.emptyBucket 16777216) "/a/c" ->
   "/a/b" = "/a/c")
  /\ (HasPrefix "/a/b" "//" = false -> HasPrefix "/a/c" "//" = false ->
      CosB.cosPath (Backends.driverB Backends.emptyBucket 5242880) "/a/b"
      = CosB.cosPath (Backends.driverB Backends.emptyBucket 5242880) "/a/c" ->
      "/a/b" = "/a/c").
Proof.
  apply (X1_cosPath_injective unit
           (Backends.driverA Backends.emptyBucket 16777216)
           (Backends.driverB Backends.emptyBucket 5242880) "/a/b" "/a/c");
    reflexivity.
Defined.

(** ** [List] of [cos.go] and the root directory *)

Lemma unslashed_cons (s : string) :
  unslashed s -> s <> EmptyString ->
  exists c s', s = String c s' /\ Ascii.eqb c "/" = false.
Proof.
  unfold unslashed. destruct s as [|c s']; [congruence|].
  cbn. rewrite andb_true_r. eauto.
Qed.

Lemma cosPathA_unslashed_root {B} (d : CosA.driver B) (q : string) :
  unslashed (CosA.RootDirectory d) ->
  CosA.cosPath d (String "/" q)
  = if is_empty (CosA.RootDirectory d) then q
    else (CosA.RootDirectory d ++ String "/" q)%string.
Proof.
  intros Hr. rewrite cosPathA_rooted.
  destruct (CosA.RootDirectory d) as [|c r]; [reflexivity|].
  unfold unslashed in Hr. cbn in Hr. rewrite andb_true_r in Hr.
  rewrite Hr. reflexivity.
Qed.

(** The name [List] makes of the key of a path is the path. *)
Lemma entryNameA_cosPath {B} (d : CosA.driver B) (p : string) :
  unslashed (CosA.RootDirectory d) -> wellRooted p ->
  CosA.entryName d (CosA.cosPath d p) = p.
Proof.
  intros Hr [H1 H2]. destruct (rooted_inv p H1 H2) as [q [-> Hq]].
  rewrite (cosPathA_unslashed_root d q Hr). unfold CosA.entryName.
  destruct (CosA.RootDirectory d) as [|c r]; cbn [is_empty].
  - unfold TrimPrefix. cbn [HasPrefix String.length drop].
    unfold unslashed in Hq. destruct q as [|x q']; [reflexivity|].
    cbn in Hq |- *. rewrite Hq. reflexivity.
  - rewrite TrimPrefix_append. reflexivity.
Qed.

(** The name [List] makes of the common prefix of a directory, with the
    trailing slash trimmed, is the directory. *)
Lemma dirNameA_cosPath {B} (d : CosA.driver B) (p : string) :
  unslashed (CosA.RootDirectory d) -> wellRooted p -> p <> "/" ->
  TrimSuffix (CosA.entryName d (CosA.cosPath d p ++ "/")) "/" = p.
Proof.
  intros Hr [H1 H2] Hp. destruct (rooted_inv p H1 H2) as [q [-> Hq]].
  rewrite (cosPathA_unslashed_root d q Hr). unfold CosA.entryName.
  destruct (CosA.RootDirectory d) as [|c r]; cbn [is_empty].
  - unfold TrimPrefix at 1. cbn [HasPrefix String.length drop].
    destruct (unslashed_cons q Hq) as [x [q' [-> Hx]]]; [congruence|].
    cbn [append HasPrefix]. rewrite Hx. cbn [andb negb].
    apply (TrimSuffix_append (String "/" (String x q')) "/").
  - rewrite append_assoc, TrimPrefix_append. cbn [append HasPrefix].
    rewrite Ascii.eqb_refl. cbn [andb negb].
    apply (TrimSuffix_append (String "/" q) "/").
Qed.

(** X2. In [cos.go] with a root directory that is empty or does not
    start with a slash, [List] turns a page back into paths: for a page
    that shows the objects of the paths [files] and the common prefixes
    of the directories [dirs], it appends exactly these paths, objects
    first, leaving out only the listed path itself. *)
Theorem X2_list_page_recovers_paths :
  forall (B : Type) (d : CosA.driver B) (path : string)
         (files dirs : list string) (page : BucketGetResult),
    unslashed (CosA.RootDirectory d) ->
    Forall wellRooted files ->
    Forall (fun c => wellRooted c /\ c <> "/") dirs ->
    shows (CosA.cosPath d) files dirs page ->
    CosA.pageEntries d path page
    = filter (fun name => negb (name =? path)%string) (files ++ dirs).
Proof.
  intros B d path files dirs page Hr Hf Hd [Hc Hp].
  unfold CosA.pageEntries. rewrite filter_app. f_equal.
  - rewrite <- (map_map Key (CosA.entryName d)), Hc, map_map. f_equal.
    rewrite <- (map_id files) at 2. apply map_ext_in.
    intros f Hin. apply entryNameA_cosPath; [exact Hr|].
    rewrite Forall_forall in Hf. auto.
  - rewrite Hp, map_map.
    replace (map (fun c => TrimSuffix (CosA.entryName d (CosA.cosPath d c ++ "/")) "/") dirs)
      with dirs.
    + apply filter_ext_in. intros c Hin.
      rewrite Forall_forall in Hd. destruct (Hd c Hin) as [[H1 _] _].
      destruct (HasPrefix_slash c H1) as [q ->]. reflexivity.
    + rewrite <- (map_id dirs) at 1. apply map_ext_in.
      intros c Hin. rewrite Forall_forall in Hd.
      destruct (Hd c Hin) as [Hw Hne].
      symmetry. apply dirNameA_cosPath; assumption.
Qed.

Lemma X2_list_page_recovers_paths_witness :
  CosA.pageEntries
    (CosA.mkDriver (Backends.scripted Backends.emptyBucket) "ap-guangzhou"
       "bucket" "registry" 16777216 10)
    "/a/"
    (mkBucketGetResult [mkObject "registry/a/b" 0 ""] ["registry/a/c/"] false "")
  = ["/a/b"; "/a/c"].
Proof.
  apply (X2_list_page_recovers_paths unit
           (CosA.mkDriver (Backends.scripted Backends.emptyBucket)
              "ap-guangzhou" "bucket" "registry" 16777216 10)
           "/a/" ["/a/b"] ["/a/c"]).
  - reflexivity.
  - repeat constructor.
  - repeat constructor. discriminate.
  - split; reflexivity.
Defined.

(** X3. In [cos.go] with a root directory that is a slash followed by a
    name, as in [rootdirectory: /registry], objects are stored under
    keys without the leading slash while [List] asks for a prefix with
    it: no key of a rooted path lies under the prefix that [List] of any
    path asks for, and the name [List] makes of such a key is the path
    with the root directory still in front. *)
Theorem X3_list_misses_slash_root :
  forall (B : Type) (d : CosA.driver B) (r p path : string),
    CosA.RootDirectory d = String "/" r ->
    unslashed r -> r <> EmptyString ->
    HasPrefix p "/" = true ->
    CosA.cosPath d p = (r ++ p)%string
    /\ HasPrefix (CosA.cosPath d p) (CosA.listPrefix d path) = false
    /\ CosA.entryName d (CosA.cosPath d p) = (CosA.RootDirectory d ++ p)%string.
Proof.
  intros B d r p path Hroot Hr Hne Hp.
  destruct (HasPrefix_slash p Hp) as [q ->].
  destruct (unslashed_cons r Hr Hne) as [x [r' [-> Hx]]].
  assert (Hkey : CosA.cosPath d (String "/" q)
                 = (String x r' ++ String "/" q)%string).
  { rewrite cosPathA_rooted, Hroot, Ascii.eqb_refl. reflexivity. }
  rewrite Hkey. split; [reflexivity|]. split.
  - unfold CosA.listPrefix. rewrite Hroot. cbn [is_empty negb append].
    destruct (negb (path =? "/")%string); cbn [append HasPrefix];
      rewrite Hx; reflexivity.
  - unfold CosA.entryName, TrimPrefix. rewrite Hroot.
    cbn [append HasPrefix]. rewrite Hx. cbn [andb negb append HasPrefix].
    rewrite Hx. reflexivity.
Qed.

Lemma X3_list_misses_slash_root_witness :
  CosA.cosPath
    (CosA.mkDriver (Backends.scripted Backends.emptyBucket) "ap-guangzhou"
       "bucket" "/registry" 16777216 10) "/a/b"
  = "registry/a/b"
  /\ HasPrefix
       (CosA.cosPath
          (CosA.mkDriver (Backends.scripted Backends.emptyBucket)
             "ap-guangzhou" "bucket" "/registry" 16777216 10) "/a/b")
       (CosA.listPrefix
          (CosA.mkDriver (Backends.scripted Backends.emptyBucket)
             "ap-guangzhou" "bucket" "/registry" 16777216 10) "/a/")
     = false
  /\ CosA.entryName
       (CosA.mkDriver (Backends.scripted Backends.emptyBucket) "ap-guangzhou"
          "bucket" "/registry" 16777216 10)
       (CosA.cosPath
          (CosA.mkDriver (Backends.scripted Backends.emptyBucket)
             "ap-guangzhou" "bucket" "/registry" 16777216 10) "/a/b")
     = "/registry/a/b".
Proof.
  apply (X3_list_misses_slash_root unit
           (CosA.mkDriver (Backends.scripted Backends.emptyBucket)
              "ap-guangzhou" "bucket" "/registry" 16777216 10)
           "registry" "/a/b" "/a/").
  - reflexivity.
  - reflexivity.
  - discriminate.
  - reflexivity.
Defined.

(** ** Listings that come in pages *)

Lemma List_loopA_paged {B} (d : CosA.driver B) (path : string) :
  forall opt b pages r cs b',
    Paged (CosA.Client d) (fun opt => opt) withMarker never noBatch
      opt b pages r cs b' ->
    forall (fuel : nat) (files : list string) (w : World B),
      backend w = b -> (length pages < fuel)%nat ->
      CosA.List_loop fuel d path opt files w
      = Done match r with
             | None =>
                 Ok (files ++ concat (map (CosA.pageEntries d path) pages))
             | Some e => Err (CosA.parseError path e)
             end
          (mkWorld b' (calls w ++ cs)).
Proof.
  induction 1 as [s b e b' Hget
                 | s b page b' Hget Hstop
                 | s b page b1 e csb b2 Hget Hstop Hbatch
                 | s b page b1 csb b2 Hget Hstop Hbatch Htr
                 | s b page b1 csb b2 pages r cs b' Hget Hstop Hbatch Htr _ IH];
    intros fuel files w Hw Hfuel;
    try discriminate Hstop; try discriminate Hbatch;
    (destruct fuel as [|fuel]; [cbn in Hfuel; lia|]);
    cbn [CosA.List_loop]; unfold bind, call; rewrite Hw, Hget; cbn.
  - reflexivity.
  - injection Hbatch as <- <-. rewrite Htr. cbn.
    rewrite app_nil_r. reflexivity.
  - injection Hbatch as <- <-. rewrite Htr. cbn [negb].
    rewrite (IH fuel _ (mkWorld b1 (calls w ++ [CallBucketGet s])) eq_refl)
      by (cbn in Hfuel; lia).
    cbn [calls app]. rewrite <- !app_assoc.
    destruct r; reflexivity.
Qed.

Lemma List_loopB_paged {B} (d : CosB.driver B) (opath prefix : string) :
  forall s b pages r cs b',
    Paged (CosB.Client d) reqB nextB never noBatch s b pages r cs b' ->
    forall (fuel : nat) (files : list string) (w : World B),
      backend w = b -> (length pages < fuel)%nat ->
      CosB.List_loop fuel d opath prefix (fst s) (snd s) files w
      = Done match r with
             | None =>
                 Ok (files ++ concat (map (CosB.pageEntries prefix) pages))
             | Some e => Err (CosB.parseError opath e)
             end
          (mkWorld b' (calls w ++ cs)).
Proof.
  induction 1 as [s b e b' Hget
                 | s b page b' Hget Hstop
                 | s b page b1 e csb b2 Hget Hstop Hbatch
                 | s b page b1 csb b2 Hget Hstop Hbatch Htr
                 | s b page b1 csb b2 pages r cs b' Hget Hstop Hbatch Htr _ IH];
    intros fuel files w Hw Hfuel;
    try discriminate Hstop; try discriminate Hbatch;
    (destruct fuel as [|fuel]; [cbn in Hfuel; lia|]);
    cbn [CosB.List_loop]; unfold bind, call; fold (reqB s);
    change (if negb (is_empty (snd s))
            then mkBucketGetOptions (Prefix (fst s)) (Delimiter (fst s))
                   (snd s) (MaxKeys (fst s))
            else fst s) with (reqB s);
    rewrite Hw, Hget; cbn.
  - reflexivity.
  - injection Hbatch as <- <-. rewrite Htr. cbn.
    rewrite app_nil_r. reflexivity.
  - injection Hbatch as <- <-. rewrite Htr. cbn [negb].
    rewrite (IH fuel _ (mkWorld b1 (calls w ++ [CallBucketGet (reqB s)]))
               eq_refl)
      by (cbn in Hfuel; lia).
    cbn [calls app]. rewrite <- !app_assoc.
    destruct r; reflexivity.
Qed.

(** X4. [List] of [cos.go] follows the markers to the last page: when
    the backend serves the listing of the path in the pages [pages],
    each but the last truncated, [List] returns the entries of all pages
    in the order received; when a request of the chain fails, it returns
    the translated error and no entry at all. *)
Theorem X4_list_reads_all_pages :
  forall (B : Type) (d : CosA.driver B) (opath path : string)
         (pages : list BucketGetResult) (r : option error) (cs : list Call)
         (b' : B) (fuel : nat) (w : World B),
    CosA.listPath opath = Some path ->
    Paged (CosA.Client d) (fun opt => opt) withMarker never noBatch
      (mkBucketGetOptions (CosA.listPrefix d path) "/" "" 1000)
      (backend w) pages r cs b' ->
    (length pages < fuel)%nat ->
    CosA.List fuel d opath w
    = Done match r with
           | None => Ok (concat (map (CosA.pageEntries d path) pages))
           | Some e => Err (CosA.parseError path e)
           end
        (mkWorld b' (calls w ++ cs)).
Proof.
  intros B d opath path pages r cs b' fuel w Hpath Hpaged Hfuel.
  unfold CosA.List. rewrite Hpath.
  apply (List_loopA_paged d path _ _ _ _ _ _ Hpaged fuel [] w eq_refl Hfuel).
Qed.

Lemma X4_list_reads_all_pages_witness :
  CosA.List 3 (Backends.driverA Backends.twoPages 16777216) "/a"
    Backends.start
  = Done (Ok ["/a/b"; "/a/c"; "/a/d"])
      (mkWorld tt
         [CallBucketGet (mkBucketGetOptions "a/" "/" "" 1000);
          CallBucketGet (mkBucketGetOptions "a/" "/" "a/b" 1000)]).
Proof.
  apply (X4_list_reads_all_pages unit
           (Backends.driverA Backends.twoPages 16777216) "/a" "/a/"
           [Backends.firstPage; Backends.secondPage] None
           [CallBucketGet (mkBucketGetOptions "a/" "/" "" 1000);
            CallBucketGet (mkBucketGetOptions "a/" "/" "a/b" 1000)]
           tt 3%nat Backends.start).
  - reflexivity.
  - apply (Paged_more
             (CosA.Client (Backends.driverA Backends.twoPages 16777216))
             (fun opt => opt) withMarker never noBatch
             (mkBucketGetOptions "a/" "/" "" 1000) tt
             Backends.firstPage tt [] tt [Backends.secondPage] None
             [CallBucketGet (mkBucketGetOptions "a/" "/" "a/b" 1000)] tt);
      try reflexivity.
    apply (Paged_last
             (CosA.Client (Backends.driverA Backends.twoPages 16777216))
             (fun opt => opt) withMarker never noBatch
             (mkBucketGetOptions "a/" "/" "a/b" 1000) tt
             Backends.secondPage tt [] tt);
      reflexivity.
  - cbn. lia.
Defined.

(** X5. [List] of the second driver follows the markers to the last
    page in the same way, changing the marker of its request only to a
    marker that is not empty: it returns the entries of all pages in the
    order received, or the translated error of the request that failed
    and no entry. *)
Theorem X5_list_reads_all_pages :
  forall (B : Type) (d : CosB.driver B) (opath : string)
         (pages : list BucketGetResult) (r : option error) (cs : list Call)
         (b' : B) (fuel : nat) (w : World B),
    let prefix :=
      if negb (opath =? "/")%string then (CosB.cosPath d opath ++ "/")%string
      else "" in
    Paged (CosB.Client d) reqB nextB never noBatch
      (mkBucketGetOptions prefix "/" "" CosB.listMax, "")
      (backend w) pages r cs b' ->
    (length pages < fuel)%nat ->
    CosB.List fuel d opath w
    = Done match r with
           | None => Ok (concat (map (CosB.pageEntries prefix) pages))
           | Some e => Err (CosB.parseError opath e)
           end
        (mkWorld b' (calls w ++ cs)).
Proof.
  intros B d opath pages r cs b' fuel w prefix Hpaged Hfuel.
  unfold CosB.List. fold prefix.
  apply (List_loopB_paged d opath prefix _ _ _ _ _ _ Hpaged fuel [] w eq_refl
           Hfuel).
Qed.

Lemma X5_list_reads_all_pages_witness :
  CosB.List 3 (Backends.driverB Backends.twoPages 5242880) "/a"
    Backends.start
  = Done (Ok ["b"; "c"; "d"])
      (mkWorld tt
         [CallBucketGet (mkBucketGetOptions "a/" "/" "" 1000);
          CallBucketGet (mkBucketGetOptions "a/" "/" "a/b" 1000)]).
Proof.
  apply (X5_list_reads_all_pages unit
           (Backends.driverB Backends.twoPages 5242880) "/a"
           [Backends.firstPage; Backends.secondPage] None
           [CallBucketGet (mkBucketGetOptions "a/" "/" "" 1000);
            CallBucketGet (mkBucketGetOptions "a/" "/" "a/b" 1000)]
           tt 3%nat Backends.start).
  - apply (Paged_more
             (CosB.Client (Backends.driverB Backends.twoPages 5242880))
             reqB nextB never noBatch
             (mkBucketGetOptions "a/" "/" "" 1000, "") tt
             Backends.firstPage tt [] tt [Backends.secondPage] None
             [CallBucketGet (mkBucketGetOptions "a/" "/" "a/b" 1000)] tt);
      try reflexivity.
    apply (Paged_last
             (CosB.Client (Backends.driverB Backends.twoPages 5242880))
             reqB nextB never noBatch
             (mkBucketGetOptions "a/" "/" "" 1000, "a/b") tt
             Backends.secondPage tt [] tt);
      reflexivity.
  - cbn. lia.
Defined.

(** ** [List] of the second driver returns relative names *)

Lemma cosPathB_append {B} (d : CosB.driver B) (dir s : string) :
  wellRooted dir -> dir <> "/" ->
  CosB.cosPath d (dir ++ s) = (CosB.cosPath d dir ++ s)%string.
Proof.
  intros [H1 H2] Hne. destruct (rooted_inv dir H1 H2) as [q [-> Hq]].
  destruct (unslashed_cons q Hq) as [x [q' [-> Hx]]]; [congruence|].
  assert (Ht1 : TrimLeft (String "/" (String x q')) "/" = String x q')
    by (cbn; rewrite Hx; reflexivity).
  assert (Ht2 : TrimLeft (String "/" (String x q') ++ s) "/"
                = (String x q' ++ s)%string)
    by (cbn; rewrite Hx; reflexivity).
  unfold CosB.cosPath. rewrite Ht1, Ht2.
  destruct (is_empty (CosB.RootDirectory d)); [reflexivity|].
  rewrite !TrimLeft_append.
  destruct (is_empty (TrimLeft (CosB.RootDirectory d) "/")).
  - cbn. rewrite Hx. reflexivity.
  - rewrite append_assoc. reflexivity.
Qed.

(** X6. [List] of the second driver names the children of a directory
    relative to it: for a page that shows the objects [dir/n] for the
    names [n] in [names] and the common prefixes of [dir/m] for [m] in
    [subdirs], it appends the names and then the subdirectory names
    themselves, not their paths, leaving out empty names. *)
Theorem X6_list_names_are_relative :
  forall (B : Type) (d : CosB.driver B) (dir : string)
         (names subdirs : list string) (page : BucketGetResult),
    wellRooted dir -> dir <> "/" ->
    shows (fun n => CosB.cosPath d (dir ++ "/" ++ n)) names subdirs page ->
    CosB.pageEntries (CosB.cosPath d dir ++ "/") page
    = filter (fun name => negb (is_empty name)) (names ++ subdirs).
Proof.
  intros B d dir names subdirs page Hw Hne [Hc Hp].
  set (prefix := (CosB.cosPath d dir ++ "/")%string).
  assert (Hkey : forall n, CosB.cosPath d (dir ++ "/" ++ n)
                           = (prefix ++ n)%string).
  { intros n. rewrite (cosPathB_append d dir _ Hw Hne).
    unfold prefix. rewrite append_assoc. reflexivity. }
  assert (Hprefix : is_empty prefix = false).
  { unfold prefix. destruct (CosB.cosPath d dir); reflexivity. }
  unfold CosB.pageEntries. rewrite filter_app, Hprefix. cbn [negb]. f_equal.
  - rewrite <- (map_map Key (fun k => TrimPrefix k prefix)), Hc, map_map.
    f_equal. rewrite <- (map_id names) at 2. apply map_ext.
    intros n. rewrite Hkey. apply TrimPrefix_append.
  - rewrite Hp, map_map. f_equal.
    rewrite <- (map_id subdirs) at 2. apply map_ext.
    intros m. rewrite Hkey, append_assoc, TrimPrefix_append.
    apply TrimSuffix_append.
Qed.

Lemma X6_list_names_are_relative_witness :
  CosB.pageEntries "a/"
    (mkBucketGetResult [mkObject "a/c" 0 ""] ["a/d/"] false "")
  = ["c"; "d"].
Proof.
  apply (X6_list_names_are_relative unit
           (Backends.driverB Backends.emptyBucket 5242880) "/a" ["c"] ["d"]).
  - split; reflexivity.
  - discriminate.
  - split; reflexivity.
Defined.

(** ** Recursive delete *)

Lemma Paged_deleted {B S : Type} (cl : client B) (req : S -> BucketGetOptions)
    (next : S -> BucketGetResult -> S) (stop : BucketGetResult -> bool)
    (batch : BucketGetResult -> option (list string * bool)) :
  (forall page, stop page = true -> keysOf page = []) ->
  (forall page, stop page = false ->
     match batch page with
     | None => keysOf page = []
     | Some (keys, _) => keys = keysOf page
     end) ->
  forall s b pages r cs b',
    Paged cl req next stop batch s b pages r cs b' ->
    r = None ->
    deleted cs = concat (map keysOf pages).
Proof.
  intros Hstop Hbatch.
  assert (Hb : forall page b1 csb b2,
             stop page = false ->
             batched cl batch page b1 = (None, csb, b2) ->
             deleted csb = keysOf page).
  { intros page b1 csb b2 Hs H. specialize (Hbatch page Hs).
    unfold batched in H. destruct (batch page) as [[keys quiet]|].
    - destruct (cl (CallDeleteMulti keys quiet) b1) as [r0 b0].
      injection H as _ <- _. cbn. rewrite app_nil_r. exact Hbatch.
    - injection H as <- _. symmetry. exact Hbatch. }
  induction 1 as [s b e b' Hget
                 | s b page b' Hget Hs
                 | s b page b1 e csb b2 Hget Hs Hba
                 | s b page b1 csb b2 Hget Hs Hba Htr
                 | s b page b1 csb b2 pages r cs b' Hget Hs Hba Htr _ IH];
    intros Hr; try discriminate Hr; cbn [deleted map concat].
  - rewrite (Hstop page Hs). reflexivity.
  - rewrite (Hb _ _ _ _ Hs Hba), app_nil_r. reflexivity.
  - assert (Hd : forall l1 l2, deleted (l1 ++ l2) = deleted l1 ++ deleted l2).
    { induction l1 as [|c l1 IHl]; intros l2; [reflexivity|].
      destruct c; cbn; rewrite ?IHl, ?app_assoc; reflexivity. }
    rewrite Hd, (Hb _ _ _ _ Hs Hba), (IH Hr). reflexivity.
Qed.

(** One pass of the body of the delete loop of [cos.go] after a page. *)
Lemma batchA_step {B} (d : CosA.driver B) (page : BucketGetResult)
    (w : World B) :
  (if 0 <? Z.of_nat (length (Contents page))
   then call (CosA.Client d) (CallDeleteMulti (map Key (Contents page)) true)
   else ret None) w
  = let '(r, csb, b2) := batched (CosA.Client d) batchA page (backend w) in
    Done r (mkWorld b2 (calls w ++ csb)).
Proof.
  unfold batched, batchA, keysOf, call, ret.
  destruct (Contents page) as [|o os].
  - cbn. rewrite app_nil_r. destruct w; reflexivity.
  - cbn [length]. rewrite Nat2Z.inj_succ.
    destruct (Z.ltb_spec 0 (Z.succ (Z.of_nat (length os)))); [|lia].
    destruct (CosA.Client d _ (backend w)); reflexivity.
Qed.

Lemma Delete_loopA_paged {B} (d : CosA.driver B) (path : string) :
  forall opt b pages r cs b',
    Paged (CosA.Client d) (fun opt => opt) withMarker never batchA
      opt b pages r cs b' ->
    forall (fuel : nat) (w : World B),
      backend w = b -> (length pages < fuel)%nat ->
      CosA.Delete_loop fuel d path opt w
      = Done (option_map (CosA.parseError path) r) (mkWorld b' (calls w ++ cs)).
Proof.
  induction 1 as [s b e b' Hget
                 | s b page b' Hget Hs
                 | s b page b1 e csb b2 Hget Hs Hba
                 | s b page b1 csb b2 Hget Hs Hba Htr
                 | s b page b1 csb b2 pages r cs b' Hget Hs Hba Htr _ IH];
    intros fuel w Hw Hfuel; try discriminate Hs;
    (destruct fuel as [|fuel]; [cbn in Hfuel; lia|]);
    cbn [CosA.Delete_loop]; unfold bind at 1; unfold call at 1;
    rewrite Hw, Hget; cbn [fst snd].
  - reflexivity.
  - unfold bind. rewrite batchA_step. cbn [backend]. rewrite Hba.
    cbn [calls]. rewrite <- app_assoc. reflexivity.
  - unfold bind. rewrite batchA_step. cbn [backend]. rewrite Hba, Htr.
    cbn [calls negb]. rewrite <- app_assoc. reflexivity.
  - unfold bind. rewrite batchA_step. cbn [backend]. rewrite Hba, Htr.
    cbn [calls negb]. fold (withMarker s page).
    rewrite (IH fuel (mkWorld b2 ((calls w ++ [CallBucketGet s]) ++ csb))
               eq_refl)
      by (cbn in Hfuel; lia).
    cbn [calls]. rewrite <- !app_assoc. reflexivity.
Qed.

Lemma Delete_loopB_paged {B} (d : CosB.driver B) (path : string) :
  forall opt b pages r cs b',
    Paged (CosB.Client d) (fun opt => opt) withMarker noContents batchB
      opt b pages r cs b' ->
    forall (fuel : nat) (w : World B),
      backend w = b -> (length pages < fuel)%nat ->
      CosB.Delete_loop fuel d path opt w
      = Done (option_map (CosB.parseError path) r) (mkWorld b' (calls w ++ cs)).
Proof.
  assert (Hbatch : forall page b1 r csb b2,
             batched (CosB.Client d) batchB page b1 = (r, csb, b2) ->
             CosB.Client d (CallDeleteMulti (map Key (Contents page)) false) b1
             = (r, b2)
             /\ csb = [CallDeleteMulti (map Key (Contents page)) false]).
  { intros page b1 r csb b2. unfold batched, batchB, keysOf.
    destruct (CosB.Client d _ b1) as [r0 b0]. intros H.
    injection H as <- <- <-. split; reflexivity. }
  induction 1 as [s b e b' Hget
                 | s b page b' Hget Hs
                 | s b page b1 e csb b2 Hget Hs Hba
                 | s b page b1 csb b2 Hget Hs Hba Htr
                 | s b page b1 csb b2 pages r cs b' Hget Hs Hba Htr _ IH];
    intros fuel w Hw Hfuel;
    (destruct fuel as [|fuel]; [cbn in Hfuel; lia|]);
    cbn [CosB.Delete_loop]; unfold bind at 1; unfold call at 1;
    rewrite Hw, Hget; cbn [fst snd];
    try (destruct (Hbatch _ _ _ _ _ Hba) as [Hdel ->]);
    try (unfold noContents in Hs;
         destruct (Contents page) as [|o os] eqn:Ec; try discriminate Hs);
    cbn -[CosB.Delete_loop].
  - reflexivity.
  - reflexivity.
  - unfold bind, call. cbn. cbn in Hdel. rewrite Hdel. cbn.
    rewrite <- app_assoc. reflexivity.
  - unfold bind, call. cbn. cbn in Hdel. rewrite Hdel, Htr. cbn.
    rewrite <- app_assoc. reflexivity.
  - unfold bind, call. cbn -[CosB.Delete_loop]. cbn in Hdel. rewrite Hdel, Htr.
    cbn -[CosB.Delete_loop]. fold (withMarker s page).
    erewrite IH; [| reflexivity | cbn in Hfuel; lia].
    cbn [calls]. rewrite <- !app_assoc. reflexivity.
Qed.

Lemma never_stops (page : BucketGetResult) :
  never page = true -> keysOf page = [].
Proof.
  unfold never. discriminate.
Qed.

Lemma batchA_keys (page : BucketGetResult) :
  never page = false ->
  match batchA page with
  | None => keysOf page = []
  | Some (keys, _) => keys = keysOf page
  end.
Proof.
  intros _. unfold batchA, keysOf. destruct (Contents page); reflexivity.
Qed.

(** X7. Recursive delete in [cos.go]. When the single delete of the key
    fails and the backend serves the listing under the key in the pages
    [pages], [Delete] deletes the keys of every page in one batch per
    page (none for an empty page), in the order of the pages, and
    returns nil; when a listing or a batch fails, it returns the
    translated error at once and issues no further request. *)
Theorem X7_delete_sweeps_all_pages :
  forall (B : Type) (d : CosA.driver B) (path : string) (e0 : error) (b0 : B)
         (pages : list BucketGetResult) (r : option error) (cs : list Call)
         (b' : B) (fuel : nat) (w : World B),
    let key := CosA.cosPath d path in
    CosA.Client d (CallDelete key) (backend w) = (Some e0, b0) ->
    Paged (CosA.Client d) (fun opt => opt) withMarker never batchA
      (mkBucketGetOptions key "" "" 1000) b0 pages r cs b' ->
    (length pages < fuel)%nat ->
    CosA.Delete fuel d path w
    = Done (option_map (CosA.parseError path) r)
        (mkWorld b' (calls w ++ CallDelete key :: cs))
    /\ (r = None -> deleted cs = concat (map keysOf pages)).
Proof.
  intros B d path e0 b0 pages r cs b' fuel w key Hdel Hpaged Hfuel. split.
  - unfold CosA.Delete, bind, call. fold key. rewrite Hdel. cbn [fst snd].
    erewrite (Delete_loopA_paged d path _ _ _ _ _ _ Hpaged fuel);
      [| reflexivity | exact Hfuel].
    cbn [calls]. rewrite <- app_assoc. reflexivity.
  - apply (Paged_deleted (CosA.Client d) (fun opt => opt) withMarker never
             batchA) with (1 := never_stops) (2 := batchA_keys) (3 := Hpaged).
Qed.

Lemma X7_delete_sweeps_all_pages_witness :
  CosA.Delete 3 (Backends.driverA Backends.twoPages 16777216) "/a"
    Backends.start
  = Done None
      (mkWorld tt
         [CallDelete "a";
          CallBucketGet (mkBucketGetOptions "a" "" "" 1000);
          CallDeleteMulti ["a/b"] true;
          CallBucketGet (mkBucketGetOptions "a" "" "a/b" 1000);
          CallDeleteMulti ["a/c"] true])
  /\ (@None error = None ->
      deleted [CallBucketGet (mkBucketGetOptions "a" "" "" 1000);
               CallDeleteMulti ["a/b"] true;
               CallBucketGet (mkBucketGetOptions "a" "" "a/b" 1000);
               CallDeleteMulti ["a/c"] true]
      = concat (map keysOf [Backends.firstPage; Backends.secondPage])).
Proof.
  apply (X7_delete_sweeps_all_pages unit
           (Backends.driverA Backends.twoPages 16777216) "/a"
           Backends.NoSuchKey tt [Backends.firstPage; Backends.secondPage]
           None
           [CallBucketGet (mkBucketGetOptions "a" "" "" 1000);
            CallDeleteMulti ["a/b"] true;
            CallBucketGet (mkBucketGetOptions "a" "" "a/b" 1000);
            CallDeleteMulti ["a/c"] true]
           tt 3%nat Backends.start).
  - reflexivity.
  - apply (Paged_more
             (CosA.Client (Backends.driverA Backends.twoPages 16777216))
             (fun opt => opt) withMarker never batchA
             (mkBucketGetOptions "a" "" "" 1000) tt
             Backends.firstPage tt [CallDeleteMulti ["a/b"] true] tt
             [Backends.secondPage] None
             [CallBucketGet (mkBucketGetOptions "a" "" "a/b" 1000);
              CallDeleteMulti ["a/c"] true] tt);
      try reflexivity.
    apply (Paged_last
             (CosA.Client (Backends.driverA Backends.twoPages 16777216))
             (fun opt => opt) withMarker never batchA
             (mkBucketGetOptions "a" "" "a/b" 1000) tt
             Backends.secondPage tt [CallDeleteMulti ["a/c"] true] tt);
      reflexivity.
  - cbn. lia.
Defined.

Lemma noContents_stops (page : BucketGetResult) :
  noContents page = true -> keysOf page = [].
Proof.
  unfold noContents, keysOf. destruct (Contents page); [reflexivity|discriminate].
Qed.

Lemma batchB_keys (page : BucketGetResult) :
  noContents page = false ->
  match batchB page with
  | None => keysOf page = []
  | Some (keys, _) => keys = keysOf page
  end.
Proof.
  intros _. reflexivity.
Qed.

(** X8. Delete in the second driver. When the backend serves the listing
    under [key/] in the pages [pages], [Delete] deletes the keys of every
    page in one batch per page, in the order of the pages, stopping at
    the first page without contents; it then issues one single delete of
    the key itself and returns nil whatever the backend answers to that
    request. When a listing or a batch fails, it returns the translated
    error and the single delete is not issued. *)
Theorem X8_delete_ignores_single_delete :
  forall (B : Type) (d : CosB.driver B) (path : string)
         (pages : list BucketGetResult) (r : option error) (cs : list Call)
         (b' : B) (fuel : nat) (w : World B),
    let key := CosB.cosPath d path in
    Paged (CosB.Client d) (fun opt => opt) withMarker noContents batchB
      (mkBucketGetOptions (key ++ "/")%string "" "" CosB.listMax)
      (backend w) pages r cs b' ->
    (length pages < fuel)%nat ->
    CosB.Delete fuel d path w
    = match r with
      | Some e => Done (Some (CosB.parseError path e))
                    (mkWorld b' (calls w ++ cs))
      | None => Done None
                  (mkWorld (snd (CosB.Client d (CallDelete key) b'))
                     (calls w ++ cs ++ [CallDelete key]))
      end
    /\ (r = None -> deleted cs = concat (map keysOf pages)).
Proof.
  intros B d path pages r cs b' fuel w key Hpaged Hfuel. split.
  - unfold CosB.Delete. fold key. unfold bind at 1.
    erewrite (Delete_loopB_paged d path _ _ _ _ _ _ Hpaged fuel);
      [| reflexivity | exact Hfuel].
    destruct r as [e|]; cbn [option_map].
    + reflexivity.
    + unfold bind, call, ret. cbn [backend calls].
      destruct (CosB.Client d (CallDelete key) b') as [e b'']. cbn [fst snd].
      rewrite <- app_assoc. reflexivity.
  - apply (Paged_deleted (CosB.Client d) (fun opt => opt) withMarker
             noContents batchB)
      with (1 := noContents_stops) (2 := batchB_keys) (3 := Hpaged).
Qed.

Lemma X8_delete_ignores_single_delete_witness :
  CosB.Delete 3 (Backends.driverB Backends.twoPages 5242880) "/a"
    Backends.start
  = Done None
      (mkWorld tt
         [CallBucketGet (mkBucketGetOptions "a/" "" "" 1000);
          CallDeleteMulti ["a/b"] false;
          CallBucketGet (mkBucketGetOptions "a/" "" "a/b" 1000);
          CallDeleteMulti ["a/c"] false;
          CallDelete "a"])
  /\ (@None error = None ->
      deleted [CallBucketGet (mkBucketGetOptions "a/" "" "" 1000);
               CallDeleteMulti ["a/b"] false;
               CallBucketGet (mkBucketGetOptions "a/" "" "a/b" 1000);
               CallDeleteMulti ["a/c"] false]
      = concat (map keysOf [Backends.firstPage; Backends.secondPage])).
Proof.
  apply (X8_delete_ignores_single_delete unit
           (Backends.driverB Backends.twoPages 5242880) "/a"
           [Backends.firstPage; Backends.secondPage] None
           [CallBucketGet (mkBucketGetOptions "a/" "" "" 1000);
            CallDeleteMulti ["a/b"] false;
            CallBucketGet (mkBucketGetOptions "a/" "" "a/b" 1000);
            CallDeleteMulti ["a/c"] false]
           tt 3%nat Backends.start).
  - apply (Paged_more
             (CosB.Client (Backends.driverB Backends.twoPages 5242880))
             (fun opt => opt) withMarker noContents batchB
             (mkBucketGetOptions "a/" "" "" 1000) tt
             Backends.firstPage tt [CallDeleteMulti ["a/b"] false] tt
             [Backends.secondPage] None
             [CallBucketGet (mkBucketGetOptions "a/" "" "a/b" 1000);
              CallDeleteMulti ["a/c"] false] tt);
      try reflexivity.
    apply (Paged_last
             (CosB.Client (Backends.driverB Backends.twoPages 5242880))
             (fun opt => opt) withMarker noContents batchB
             (mkBucketGetOptions "a/" "" "a/b" 1000) tt
             Backends.secondPage tt [CallDeleteMulti ["a/c"] false] tt);
      reflexivity.
  - cbn. lia.
Defined.

Lemma digit_digit_char (d : Z) :
  0 <= d <= 9 ->
  digit (digit_char d) = Some d
  /\ Ascii.eqb (digit_char d) "-" = false
  /\ Ascii.eqb (digit_char d) "+" = false.
Proof.
  intros H.
  assert (E : d = 0 \/ d = 1 \/ d = 2 \/ d = 3 \/ d = 4 \/ d = 5 \/ d = 6
              \/ d = 7 \/ d = 8 \/ d = 9) by lia.
  repeat (destruct E as [-> | E]; [repeat split; reflexivity|]).
  subst d. repeat split; reflexivity.
Qed.

Lemma digits_append (a b : string) :
  forall acc,
    digits acc (a ++ b)
    = match digits acc a with
      | Some v => digits v b
      | None => None
      end.
Proof.
  induction a as [|c a IH]; intros acc; cbn; [reflexivity|].
  destruct (digit c); [apply IH|reflexivity].
Qed.

Lemma format_digits_acc (fuel : nat) :
  forall n acc, format_digits fuel n acc = (format_digits fuel n "" ++ acc)%string.
Proof.
  induction fuel as [|fuel IH]; intros n acc; cbn [format_digits]; [reflexivity|].
  destruct (n <? 10); [reflexivity|].
  rewrite (IH (n / 10) (String _ acc)), (IH (n / 10) (String _ "")).
  rewrite append_assoc. reflexivity.
Qed.

Lemma digits_format_digits (fuel : nat) :
  forall n, 0 <= n < 10 ^ Z.of_nat fuel ->
    digits 0 (format_digits fuel n "") = Some n.
Proof.
  induction fuel as [|fuel IH]; intros n Hn.
  - cbn in Hn. assert (n = 0) by lia. subst. reflexivity.
  - cbn [format_digits].
    assert (Hmod : 0 <= n mod 10 <= 9) by (pose proof (Z.mod_pos_bound n 10); lia).
    destruct (digit_digit_char _ Hmod) as [Hd _].
    destruct (Z.ltb_spec n 10) as [Hlt|Hge].
    + cbn [digits]. rewrite Hd. cbn [digits]. rewrite Z.mod_small by lia. f_equal; lia.
    + rewrite format_digits_acc, digits_append.
      rewrite IH.
      * cbn [digits]. rewrite Hd. cbn [digits]. f_equal.
        pose proof (Z.div_mod n 10). lia.
      * rewrite Nat2Z.inj_succ, Z.pow_succ_r in Hn by lia.
        split; [apply Z.div_pos; lia|].
        apply Z.div_lt_upper_bound; lia.
Qed.

Lemma format_digits_head (fuel : nat) :
  forall n acc, 0 <= n ->
    exists d s, 0 <= d <= 9 /\ format_digits (S fuel) n acc = String (digit_char d) s.
Proof.
  induction fuel as [|fuel IH]; intros n acc Hn.
  - exists (n mod 10). pose proof (Z.mod_pos_bound n 10).
    cbn [format_digits]. destruct (n <? 10); eexists; (split; [lia|reflexivity]).
  - change (format_digits (S (S fuel)) n acc)
      with (let acc' := String (digit_char (n mod 10)) acc in
            if n <? 10 then acc' else format_digits (S fuel) (n / 10) acc').
    cbv zeta. destruct (n <? 10).
    + exists (n mod 10). pose proof (Z.mod_pos_bound n 10).
      eexists; (split; [lia|reflexivity]).
    + apply IH. apply Z.div_pos; lia.
Qed.

Lemma Atoi_digits (d : Z) (s : string) (n : Z) :
  0 <= d <= 9 -> digits 0 (String (digit_char d) s) = Some n -> n < 2 ^ 63 ->
  Atoi (String (digit_char d) s) = Some n.
Proof.
  intros Hd Hs Hn. unfold Atoi.
  destruct (digit_digit_char d Hd) as [_ [-> ->]]. cbn [orb].
  rewrite Hs.
  destruct (Z.leb_spec (2 ^ 63) n); [lia|reflexivity].
Qed.

Lemma Atoi_FormatInt (z : Z) :
  - 2 ^ 63 <= z < 2 ^ 63 -> Atoi (FormatInt z) = Some z.
Proof.
  intros Hz. unfold FormatInt.
  assert (Hpow : 2 ^ 63 < 10 ^ Z.of_nat 20) by (vm_compute; reflexivity).
  destruct (Z.ltb_spec z 0) as [Hneg|Hpos].
  - destruct (format_digits_head 19 (- z) "" ltac:(lia)) as [d [s [Hd E]]].
    pose proof (digits_format_digits 20 (- z) ltac:(lia)) as Hdig.
    rewrite E in *. unfold Atoi.
    change (Ascii.eqb "-" "-") with true. cbn [orb]. rewrite Hdig.
    destruct (Z.ltb_spec (2 ^ 63) (- z)); [lia|]. f_equal. lia.
  - destruct (format_digits_head 19 z "" ltac:(lia)) as [d [s [Hd E]]].
    pose proof (digits_format_digits 20 z ltac:(lia)) as Hdig.
    rewrite E in *. apply Atoi_digits; [exact Hd|exact Hdig|lia].
Qed.

(** X9. Every configuration that [parseParameters] accepts has a chunk
    size between 5 MiB and 100 MiB, a concurrency of at least 1, and
    non-empty credentials, region and bucket. *)
Theorem X9_accepted_parameters_in_range :
  forall (params : parameters) (dp : CosA.DriverParameters.t),
    CosA.parseParameters params = Ok dp ->
    CosA.minChunkSize <= CosA.DriverParameters.ChunkSize dp
                      <= CosA.maxChunkSize
    /\ CosA.minConcurrency <= CosA.DriverParameters.MaxConcurrency dp
    /\ CosA.DriverParameters.SecretID dp <> ""%string
    /\ CosA.DriverParameters.SecretKey dp <> ""%string
    /\ CosA.DriverParameters.Region dp <> ""%string
    /\ CosA.DriverParameters.Bucket dp <> ""%string.
Proof.
  intros params dp. unfold CosA.parseParameters. cbv zeta.
  destruct (CosA.missing (params "secretid"%string)) eqn:E1; [discriminate|].
  destruct (CosA.missing (params "secretkey"%string)) eqn:E2; [discriminate|].
  destruct (CosA.missing (params "region"%string)) eqn:E3; [discriminate|].
  destruct (CosA.missing (params "bucket"%string)) eqn:E4; [discriminate|].
  destruct (CosA.parseChunkSize _) as [cs|e] eqn:Ec; [|discriminate].
  destruct (CosA.parseMaxConcurrency _) as [mc|e] eqn:Em; [|discriminate].
  destruct (CosA.parseSecure _) as [sec|e]; [|discriminate].
  intros H. injection H as <-. cbn.
  assert (Hreq : forall v, CosA.missing v = false ->
                 match v with Some v => Sprint v | None => ""%string end
                 <> ""%string).
  { intros [v|]; cbn; [|discriminate].
    destruct (Sprint v); cbn; [discriminate|]. intros _ H. discriminate H. }
  repeat split; try (apply Hreq; assumption).
  - unfold CosA.parseChunkSize in Ec.
    destruct (params "chunksize"%string) as [p|].
    + destruct (Atoi (Sprint p)) as [n|]; [|discriminate].
      destruct (Z.ltb_spec n CosA.minChunkSize); [discriminate|].
      destruct (Z.ltb_spec CosA.maxChunkSize n); [discriminate|].
      injection Ec as <-. assumption.
    + injection Ec as <-. vm_compute. discriminate.
  - unfold CosA.parseChunkSize in Ec.
    destruct (params "chunksize"%string) as [p|].
    + destruct (Atoi (Sprint p)) as [n|]; [|discriminate].
      destruct (Z.ltb_spec n CosA.minChunkSize); [discriminate|].
      destruct (Z.ltb_spec CosA.maxChunkSize n); [discriminate|].
      injection Ec as <-. assumption.
    + injection Ec as <-. vm_compute. discriminate.
  - unfold CosA.parseMaxConcurrency in Em.
    destruct (params "maxconcurrency"%string) as [p|].
    + destruct (Atoi (Sprint p)) as [n|]; [|discriminate].
      destruct (Z.ltb_spec n CosA.minConcurrency); [discriminate|].
      injection Em as <-. assumption.
    + injection Em as <-. vm_compute. discriminate.
Qed.

Lemma X9_accepted_parameters_in_range_witness :
  CosA.minChunkSize <= 5242880 <= CosA.maxChunkSize
  /\ CosA.minConcurrency <= 4
  /\ "id"%string <> ""%string /\ "key"%string <> ""%string
  /\ "ap-guangzhou"%string <> ""%string /\ "bucket"%string <> ""%string.
Proof.
  apply (X9_accepted_parameters_in_range Backends.configured
           (CosA.DriverParameters.mk "id" "key" "ap-guangzhou" "bucket" ""
              5242880 4 true)).
  reflexivity.
Defined.

(** X10. An integer chunk size or concurrency passes through
    [parseParameters] unchanged: it is printed with [fmt.Sprint] and read
    back with [strconv.Atoi], and the accepted configuration holds the
    same number. A parameter that is absent gives the default, 16 MiB
    and 10. *)
Theorem X10_integer_parameters_round_trip :
  forall (params : parameters) (dp : CosA.DriverParameters.t),
    CosA.parseParameters params = Ok dp ->
    (forall n, params "chunksize"%string = Some (VInt n) ->
               - 2 ^ 63 <= n < 2 ^ 63 ->
               CosA.DriverParameters.ChunkSize dp = n)
    /\ (forall n, params "maxconcurrency"%string = Some (VInt n) ->
                  - 2 ^ 63 <= n < 2 ^ 63 ->
                  CosA.DriverParameters.MaxConcurrency dp = n)
    /\ (params "chunksize"%string = None ->
        CosA.DriverParameters.ChunkSize dp = 16777216)
    /\ (params "maxconcurrency"%string = None ->
        CosA.DriverParameters.MaxConcurrency dp = 10).
Proof.
  intros params dp. unfold CosA.parseParameters. cbv zeta.
  destruct (CosA.missing (params "secretid"%string)); [discriminate|].
  destruct (CosA.missing (params "secretkey"%string)); [discriminate|].
  destruct (CosA.missing (params "region"%string)); [discriminate|].
  destruct (CosA.missing (params "bucket"%string)); [discriminate|].
  destruct (CosA.parseChunkSize _) as [cs|e] eqn:Ec; [|discriminate].
  destruct (CosA.parseMaxConcurrency _) as [mc|e] eqn:Em; [|discriminate].
  destruct (CosA.parseSecure _) as [sec|e]; [|discriminate].
  intros H. injection H as <-. cbn.
  unfold CosA.parseChunkSize in Ec. unfold CosA.parseMaxConcurrency in Em.
  repeat split.
  - intros n Hp Hn. rewrite Hp in Ec. cbn [Sprint] in Ec.
    rewrite (Atoi_FormatInt n Hn) in Ec.
    destruct (n <? CosA.minChunkSize); [discriminate|].
    destruct (CosA.maxChunkSize <? n); [discriminate|].
    injection Ec as <-. reflexivity.
  - intros n Hp Hn. rewrite Hp in Em. cbn [Sprint] in Em.
    rewrite (Atoi_FormatInt n Hn) in Em.
    destruct (n <? CosA.minConcurrency); [discriminate|].
    injection Em as <-. reflexivity.
  - intros Hp. rewrite Hp in Ec. injection Ec as <-. reflexivity.
  - intros Hp. rewrite Hp in Em. injection Em as <-. reflexivity.
Qed.

Lemma X10_integer_parameters_round_trip_witness :
  (forall n, Backends.configured "chunksize"%string = Some (VInt n) ->
             - 2 ^ 63 <= n < 2 ^ 63 -> 5242880 = n)
  /\ (forall n, Backends.configured "maxconcurrency"%string = Some (VInt n) ->
                - 2 ^ 63 <= n < 2 ^ 63 -> 4 = n)
  /\ (Backends.configured "chunksize"%string = None -> 5242880 = 16777216)
  /\ (Backends.configured "maxconcurrency"%string = None -> 4 = 10).
Proof.
  apply (X10_integer_parameters_round_trip Backends.configured
           (CosA.DriverParameters.mk "id" "key" "ap-guangzhou" "bucket" ""
              5242880 4 true)).
  reflexivity.
Defined.

(** ** The writer of [cos.go] *)




(** X12. A part that the backend refuses during [Write] is lost:
    [uploadPart] resets the buffer before it sends the request, so after
    the failed [Write] the writer is still open, holds no byte and has
    the parts it had before, while [Size] counts the bytes of the call.
    A [Commit] that follows sends the completion request with the old
    parts only and, when the backend accepts it, returns nil. *)
Theorem X12_refused_part_is_dropped :
  forall (B : Type) (w : CosA.writer B) (b p : list byte) (world : World B)
         (e : error) (b1 : B) (fuel : nat),
    (2 <= fuel)%nat -> openA w -> CosA.buf w = Some b ->
    0 < CosA.ChunkSize (CosA.driver_ w) ->
    CosA.ChunkSize (CosA.driver_ w) <= Z.of_nat (length (b ++ p)) ->
    CosA.Client (CosA.driver_ w) (uploadA w (b ++ p)) (backend world)
    = (Err e, b1) ->
    exists w',
      CosA.Write fuel w p world
      = Done (w', (Z.of_nat (length p), Some e))
          (mkWorld b1 (calls world ++ [uploadA w (b ++ p)]))
      /\ openA w' /\ CosA.buf w' = Some [] /\ CosA.parts w' = CosA.parts w
      /\ CosA.Size w' = wrap64 (CosA.size w + Z.of_nat (length p))
      /\ forall (world' : World B) (b2 : B),
           let complete :=
             CallCompleteMultipartUpload (CosA.key w) (CosA.uploadID w)
               (CosA.parts w) in
           CosA.Client (CosA.driver_ w) complete (backend world') = (None, b2) ->
           exists w'',
             CosA.Commit w' world'
             = Done (w'', None) (mkWorld b2 (calls world' ++ [complete]))
             /\ CosA.committed w'' = true.
Proof.
  intros B w b p world e b1 fuel Hfuel Hopen Hb HC Hle Hup.
  rewrite (Write_cases fuel w b p world Hfuel Hopen Hb HC).
  unfold WriteOutcomeA. cbv zeta.
  destruct (Z.leb_spec (CosA.ChunkSize (CosA.driver_ w))
              (Z.of_nat (length (b ++ p)))) as [_|Hlt]; [|lia].
  rewrite Hup. eexists. split; [reflexivity|].
  destruct Hopen as [Hcl [Hco Hca]].
  split; [repeat split; assumption|].
  split; [reflexivity|]. split; [reflexivity|]. split; [reflexivity|].
  intros world' b2 Hcomplete.
  rewrite (CommitA_cases _ [] world'); [|repeat split; assumption|reflexivity].
  unfold completeA.
  cbn [CosA.key CosA.uploadID CosA.parts CosA.driver_ CosA.set_buf
       CosA.set_size].
  rewrite Hcomplete.
  unfold CosA.Close. cbn. rewrite ?Hcl. cbn.
  eexists. split; [reflexivity|]. reflexivity.
Qed.

Lemma X12_refused_part_is_dropped_witness :
  exists w',
    CosA.Write 2
      (CosA.newWriter (Backends.driverA Backends.partFails 3) "blob"
         "upload-1" [])
      ["a"; "b"; "c"]%byte Backends.start
    = Done (w', (3, Some (TransportError "connection reset")))
        (mkWorld tt [CallUploadPart "blob" "upload-1" 1 ["a"; "b"; "c"]%byte])
    /\ openA w' /\ CosA.buf w' = Some [] /\ CosA.parts w' = []
    /\ CosA.Size w' = wrap64 (0 + 3)
    /\ forall (world' : World unit) (b2 : unit),
         Backends.scripted Backends.partFails
           (CallCompleteMultipartUpload "blob" "upload-1" []) (backend world')
         = (None, b2) ->
         exists w'',
           CosA.Commit w' world'
           = Done (w'', None)
               (mkWorld b2
                  (calls world'
                   ++ [CallCompleteMultipartUpload "blob" "upload-1" []]))
           /\ CosA.committed w'' = true.
Proof.
  apply (X12_refused_part_is_dropped unit
           (CosA.newWriter (Backends.driverA Backends.partFails 3) "blob"
              "upload-1" [])
           [] ["a"; "b"; "c"]%byte Backends.start
           (TransportError "connection reset") tt 2%nat).
  - lia.
  - repeat split.
  - reflexivity.
  - reflexivity.
  - cbn. lia.
  - reflexivity.
Defined.

Lemma applyA_closed {B} (fuel : nat) (w : CosA.writer B) (o : op)
    (world : World B) :
  CosA.closed w = true ->
  exists err, applyA fuel w o world = Done (w, err) world.
Proof.
  intros Hcl. destruct o as [p| | |]; cbn [applyA].
  - unfold CosA.Write, bind. rewrite Hcl. cbn. eauto.
  - unfold CosA.Close. rewrite Hcl. cbn. eauto.
  - unfold CosA.Cancel. rewrite Hcl. cbn. eauto.
  - unfold CosA.Commit. rewrite Hcl.
    destruct (CosA.committed w), (CosA.cancelled w); cbn; eauto.
Qed.

Lemma runA_closed {B} (w : CosA.writer B) (ops : list op) (fuel : nat)
    (world : World B) :
  CosA.closed w = true ->
  exists errs,
    runA fuel w ops world = Done (w, errs) world
    /\ length errs = length ops.
Proof.
  intros Hcl.
  induction ops as [|o ops [errs [IH Hlen]]].
  - exists []. split; reflexivity.
  - destruct (applyA_closed fuel w o world Hcl) as [err Ho].
    exists (err :: errs). cbn [runA]. unfold bind at 1. rewrite Ho.
    unfold bind. rewrite IH. split; [reflexivity|]. cbn. now rewrite Hlen.
Qed.

(** X13. A closed writer of [cos.go] is inert: whatever sequence of
    [Write], [Close], [Cancel] and [Commit] follows, every call returns,
    no request reaches the backend and the writer stays as it is. A
    multipart upload whose writer was closed before [Commit] or [Cancel]
    is therefore never completed and never aborted. *)
Theorem X13_closed_writer_is_inert :
  forall (B : Type) (w : CosA.writer B) (ops : list op) (fuel : nat)
         (world : World B),
    CosA.closed w = true ->
    exists errs,
      runA fuel w ops world = Done (w, errs) world
      /\ length errs = length ops.
Proof.
  intros B w ops fuel world Hcl. apply runA_closed. exact Hcl.
Qed.

Lemma X13_closed_writer_is_inert_witness :
  exists errs,
    runA 2 (fst (CosA.Close Backends.freshA))
      [OpWrite ["x"%byte]; OpCancel; OpCommit] Backends.start
    = Done (fst (CosA.Close Backends.freshA), errs) Backends.start
    /\ length errs = 3%nat.
Proof.
  apply (X13_closed_writer_is_inert unit (fst (CosA.Close Backends.freshA))
           [OpWrite ["x"%byte]; OpCancel; OpCommit] 2%nat Backends.start).
  reflexivity.
Defined.

(** ** [PutContent] and [New] of the second driver *)

Lemma wrap64_small (z : Z) : 0 <= z < 2 ^ 63 -> wrap64 z = z.
Proof.
  intros H. unfold wrap64.
  assert (E : 2 ^ 64 = 2 * 2 ^ 63) by reflexivity.
  rewrite Z.mod_small; lia.
Qed.

(** X14. [PutContent] of the second driver, for contents that fit in one
    chunk: the only request is one put of the whole contents under the
    key of the path, and the method returns what the SDK returned for
    it, nil or the error as it is (not translated by [parseError]). *)
Theorem X14_put_content_in_one_put :
  forall (B : Type) (d : CosB.driver B) (path : string)
         (contents : list byte) (world : World B),
    Z.of_nat (length contents) < 2 ^ 63 ->
    Z.of_nat (length contents) <= CosB.ChunkSize d ->
    let put := CallPut (CosB.cosPath d path) contents in
    CosB.PutContent d path contents world
    = Done (fst (CosB.Client d put (backend world)))
        (mkWorld (snd (CosB.Client d put (backend world)))
           (calls world ++ [put])).
Proof.
  intros B d path contents world H63 Hle put.
  unfold CosB.PutContent, CosB.Writer, CosB.Write, CosB.Commit, CosB.Size.
  unfold bind, call, ret. cbn -[Z.of_nat length Z.leb Z.eqb].
  rewrite wrap64_small by lia.
  destruct (Z.leb_spec (Z.of_nat (length contents)) (CosB.ChunkSize d))
    as [_|Hlt]; [|lia].
  destruct (Z.eqb_spec (Z.of_nat (length contents)) 0) as [E|E].
  - destruct contents; [|cbn in E; lia].
    subst put. destruct (CosB.Client d _ (backend world)); reflexivity.
  - subst put. destruct (CosB.Client d _ (backend world)) as [[e|] b];
      reflexivity.
Qed.

Lemma X14_put_content_in_one_put_witness :
  CosB.PutContent (Backends.driverB Backends.emptyBucket 5242880) "/blob"
    ["x"%byte] Backends.start
  = Done None (mkWorld tt [CallPut "blob" ["x"%byte]]).
Proof.
  apply (X14_put_content_in_one_put unit
           (Backends.driverB Backends.emptyBucket 5242880) "/blob"
           ["x"%byte] Backends.start).
  - reflexivity.
  - cbn. lia.
Defined.

(** X15. [PutContent] of the second driver, for contents larger than the
    chunk size: the writer starts a multipart upload, sends the whole
    contents as the single part number 1, however many chunks they
    would fill, and completes the upload with that one part. *)
Theorem X15_put_content_in_one_part :
  forall (B : Type) (d : CosB.driver B) (path : string)
         (contents : list byte) (world : World B)
         (id : string) (h : Header) (err : option error) (b1 b2 b3 : B),
    Z.of_nat (length contents) < 2 ^ 63 ->
    0 <= CosB.ChunkSize d < Z.of_nat (length contents) ->
    let key := CosB.cosPath d path in
    let part := mkObject "" 1 (Header_Get h "ETag") in
    CosB.Client d (CallInitiateMultipartUpload key) (backend world)
    = (Ok id, b1) ->
    CosB.Client d (CallUploadPart key id 1 contents) b1 = (Ok h, b2) ->
    CosB.Client d (CallCompleteMultipartUpload key id [part]) b2 = (err, b3) ->
    CosB.PutContent d path contents world
    = Done err
        (mkWorld b3
           (calls world
            ++ [CallInitiateMultipartUpload key;
                CallUploadPart key id 1 contents;
                CallCompleteMultipartUpload key id [part]])).
Proof.
  intros B d path contents world id h err b1 b2 b3 H63 Hlt key part
         Hinit Hpart Hcomplete.
  unfold CosB.PutContent, CosB.Writer, CosB.Write, CosB.Commit, CosB.Size.
  unfold bind, call, ret. cbn -[Z.of_nat length Z.leb Z.eqb Z.ltb].
  rewrite wrap64_small by lia.
  destruct (Z.leb_spec (Z.of_nat (length contents)) (CosB.ChunkSize d))
    as [Hle|_]; [lia|].
  destruct (Z.eqb_spec (Z.of_nat (length contents)) 0) as [E|_]; [lia|].
  fold key. rewrite Hinit.
  cbn -[Z.of_nat length Z.leb Z.eqb Z.ltb].
  destruct (Z.ltb_spec 0 (Z.of_nat (length contents))) as [_|Hz]; [|lia].
  change (Z.of_nat (length (@nil Object)) + 1) with 1.
  cbn [backend calls]. rewrite Hpart. cbn. fold part. rewrite Hcomplete.
  rewrite <- !app_assoc. reflexivity.
Qed.

Lemma X15_put_content_in_one_part_witness :
  CosB.PutContent (Backends.driverB Backends.emptyBucket 2) "/blob"
    ["a"; "b"; "c"; "d"; "e"]%byte Backends.start
  = Done None
      (mkWorld tt
         [CallInitiateMultipartUpload "blob";
          CallUploadPart "blob" "upload-1" 1 ["a"; "b"; "c"; "d"; "e"]%byte;
          CallCompleteMultipartUpload "blob" "upload-1"
            [mkObject "" 1 "etag"]]).
Proof.
  apply (X15_put_content_in_one_part unit
           (Backends.driverB Backends.emptyBucket 2) "/blob"
           ["a"; "b"; "c"; "d"; "e"]%byte Backends.start
           "upload-1" [("ETag", "etag")] None tt tt tt).
  - reflexivity.
  - cbn. lia.
  - reflexivity.
  - reflexivity.
  - reflexivity.
Defined.

Lemma HasSuffix_append (a b : string) : HasSuffix (a ++ b) b = true.
Proof.
  unfold HasSuffix. rewrite length_append.
  replace (String.length a + String.length b - String.length b)%nat
    with (String.length a) by lia.
  rewrite drop_append, String.eqb_refl.
  destruct (Nat.leb_spec (String.length b) (String.length a + String.length b));
    [reflexivity|lia].
Qed.

Lemma TrimRight_last (s : string) :
  last_byte (TrimRight s "/") <> Some "/"%char.
Proof.
  induction s as [|c s IH]; cbn [TrimRight]; [discriminate|].
  destruct (TrimRight s "/") as [|c' rest] eqn:E; cbn [is_empty andb].
  - destruct (contains "/" c) eqn:Ec; [discriminate|].
    cbn. intros H. injection H as ->. discriminate Ec.
  - exact IH.
Qed.

(** X16. What [New] of the second driver makes of its parameters: the
    root directory of the driver never ends in a slash, and with an
    [appid] the bucket name of the driver always ends in [-appid],
    whether the configured bucket name had the suffix or not; without
    an [appid] the bucket name is the configured one. *)
Theorem X16_new_normalises_bucket_and_root :
  forall (B : Type) (cl : client B) (url_Parse : string -> option string)
         (params : CosB.DriverParameters.t) (d : CosB.driver B),
    CosB.New cl url_Parse params = Ok d ->
    last_byte (CosB.RootDirectory d) <> Some "/"%char
    /\ (CosB.DriverParameters.AppID params <> ""%string ->
        HasSuffix (CosB.Bucket d)
          ("-" ++ CosB.DriverParameters.AppID params)%string = true)
    /\ (CosB.DriverParameters.AppID params = ""%string ->
        CosB.Bucket d = CosB.DriverParameters.Bucket params).
Proof.
  intros B cl url_Parse params d. unfold CosB.New. cbv zeta.
  destruct (url_Parse _) as [err|]; [discriminate|].
  intros H. injection H as <-. cbn [CosB.RootDirectory CosB.Bucket].
  split; [apply TrimRight_last|]. split.
  - intros Happ.
    destruct (CosB.DriverParameters.AppID params) as [|c appid] eqn:Ea;
      [contradiction|]. cbn [is_empty negb andb].
    destruct (HasSuffix (CosB.DriverParameters.Bucket params) _) eqn:Es;
      cbn [negb].
    + exact Es.
    + apply HasSuffix_append.
  - intros ->. reflexivity.
Qed.

Lemma X16_new_normalises_bucket_and_root_witness :
  last_byte "/registry" <> Some "/"%char
  /\ ("1250000000"%string <> ""%string ->
      HasSuffix "registry-1250000000" "-1250000000" = true)
  /\ ("1250000000"%string = ""%string ->
      "registry-1250000000"%string = "registry"%string).
Proof.
  apply (X16_new_normalises_bucket_and_root unit
           (Backends.scripted Backends.emptyBucket) (fun _ => None)
           (CosB.DriverParameters.mk "id" "key" "ap-guangzhou" "registry"
              "1250000000" true false 5242880 "/registry//")
           (CosB.mkDriver (Backends.scripted Backends.emptyBucket)
              "registry-1250000000" 5242880 "/registry")).
  reflexivity.
Defined.

(** ** [List] of [cos.go] on the empty path *)




(** ** The writer of the second driver before [Commit] *)

Lemma runB_before_commit {B} (ops : list op) :
  forall (w : CosB.writer B) (world : World B),
    CosB.uploadID w = ""%string ->
    existsb is_commit ops = false ->
    exists w' errs,
      runB w ops world = Done (w', errs) world
      /\ CosB.uploadID w' = ""%string
      /\ (CosB.closed w = true -> CosB.closed w' = true)
      /\ (CosB.closed w' = false -> CosB.buf w' = CosB.buf w ++ written ops).
Proof.
  induction ops as [|o ops IH]; intros w world Hid Hops.
  - exists w, []. cbn. rewrite app_nil_r. repeat split; auto.
  - cbn [existsb] in Hops. apply orb_false_iff in Hops as [Ho Hops].
    assert (Hstep : exists w1 err,
               applyB w o world = Done (w1, err) world
               /\ CosB.uploadID w1 = ""%string
               /\ (CosB.closed w = true -> CosB.closed w1 = true)
               /\ (CosB.closed w1 = false ->
                   CosB.buf w1 = CosB.buf w ++ written [o])).
    { destruct o as [p| | |]; [| | |discriminate Ho]; cbn [applyB written].
      - unfold CosB.Write. destruct (CosB.closed w) eqn:Hcl.
        + exists w. eexists. split; [reflexivity|]. split; [exact Hid|].
          split; [intros _; exact Hcl|]. intros Hc. congruence.
        + eexists. eexists. split; [reflexivity|]. split; [exact Hid|].
          split; [discriminate|]. intros _. cbn. now rewrite app_nil_r.
      - unfold CosB.Close. destruct (CosB.closed w) eqn:Hcl.
        + exists w. eexists. split; [reflexivity|]. split; [exact Hid|].
          split; [intros _; exact Hcl|]. intros Hc. congruence.
        + eexists. eexists. split; [reflexivity|]. split; [exact Hid|].
          split; [discriminate|]. cbn. discriminate.
      - unfold CosB.Cancel. destruct (CosB.cancelled w) eqn:Hca.
        + exists w. eexists. split; [reflexivity|]. split; [exact Hid|].
          split; [auto|]. intros _. now rewrite app_nil_r.
        + cbn [CosB.uploadID CosB.set_cancelled]. rewrite Hid.
          cbn [is_empty negb].
          eexists. eexists. split; [reflexivity|]. split; [exact Hid|].
          split; [auto|]. intros _. cbn. now rewrite app_nil_r. }
    destruct Hstep as [w1 [err [Hone [Hid1 [Hmono Hbuf]]]]].
    destruct (IH w1 world Hid1 Hops) as [w' [errs [Hrun [H1 [H3 H4]]]]].
    exists w', (err :: errs). cbn [runB]. unfold bind at 1. rewrite Hone.
    unfold bind at 1. rewrite Hrun. split; [reflexivity|].
    split; [exact H1|]. split; [auto|].
    intros Hc. rewrite (H4 Hc).
    assert (Hc1 : CosB.closed w1 = false).
    { destruct (CosB.closed w1) eqn:E; [|reflexivity].
      rewrite (H3 eq_refl) in Hc. discriminate. }
    rewrite (Hbuf Hc1), <- app_assoc. f_equal.
    destruct o; cbn; rewrite ?app_nil_r; reflexivity.
Qed.

(** X18. Before [Commit], the writer of the second driver sends nothing:
    for every sequence of [Write], [Close] and [Cancel] on a writer that
    [Writer] returned, every call returns and no request reaches the
    backend (a [Cancel] has no upload to abort), and while the writer
    has not been closed its buffer holds all bytes written, in order. *)
Theorem X18_nothing_sent_before_commit :
  forall (B : Type) (d : CosB.driver B) (key : string) (ops : list op)
         (world : World B),
    existsb is_commit ops = false ->
    exists w' errs,
      runB (CosB.newWriter d key "") ops world = Done (w', errs) world
      /\ CosB.uploadID w' = ""%string
      /\ (CosB.closed w' = false -> CosB.buf w' = written ops).
Proof.
  intros B d key ops world Hops.
  destruct (runB_before_commit ops (CosB.newWriter d key "") world
              eq_refl Hops) as [w' [errs [Hrun [H1 [_ H4]]]]].
  exists w', errs. repeat split; auto.
Qed.

Lemma X18_nothing_sent_before_commit_witness :
  exists w' errs,
    runB (CosB.newWriter (Backends.driverB Backends.emptyBucket 5242880)
            "blob" "")
      [OpWrite ["a"%byte]; OpCancel; OpWrite ["b"%byte]] Backends.start
    = Done (w', errs) Backends.start
    /\ CosB.uploadID w' = ""%string
    /\ (CosB.closed w' = false
        -> CosB.buf w' = written [OpWrite ["a"%byte]; OpCancel;
                                  OpWrite ["b"%byte]]).
Proof.
  apply (X18_nothing_sent_before_commit unit
           (Backends.driverB Backends.emptyBucket 5242880) "blob"
           [OpWrite ["a"%byte]; OpCancel; OpWrite ["b"%byte]]
           Backends.start).
  reflexivity.
Defined.

(** ** The requests of a writer of [cos.go] *)

Lemma own_refl (key id : string) :
  ((key =? key)%string && (id =? id)%string) = true.
Proof. now rewrite !String.eqb_refl. Qed.

Lemma quiet_nil {B} (w : CosA.writer B) : quiet w [].
Proof. split; reflexivity. Qed.

Lemma quiet_app {B} (w : CosA.writer B) (cs1 cs2 : list Call) :
  quiet w cs1 -> quiet w cs2 -> quiet w (cs1 ++ cs2).
Proof.
  intros [H1 H2] [H3 H4]. split; rewrite forallb_app; now rewrite ?H1, ?H2, ?H3, ?H4.
Qed.

Lemma quiet_same {B} (w w1 : CosA.writer B) (cs : list Call) :
  same_upload w w1 -> quiet w1 cs -> quiet w cs.
Proof.
  intros [Hk [Hi _]] H. unfold quiet in *. now rewrite <- Hk, <- Hi.
Qed.

Lemma same_upload_refl {B} (w : CosA.writer B) : same_upload w w.
Proof. repeat split. Qed.

Lemma same_upload_trans {B} (w w1 w2 : CosA.writer B) :
  same_upload w w1 -> same_upload w1 w2 -> same_upload w w2.
Proof.
  intros [H1 [H2 H3]] [H4 [H5 H6]]. repeat split; congruence.
Qed.

Lemma uploadPart_log {B} (w : CosA.writer B) (world : World B) w1 err world1 :
  CosA.uploadPart w world = Done (w1, err) world1 ->
  exists cs,
    calls world1 = calls world ++ cs /\ quiet w cs /\ same_upload w w1
    /\ CosA.closed w1 = CosA.closed w
    /\ CosA.committed w1 = CosA.committed w
    /\ CosA.cancelled w1 = CosA.cancelled w.
Proof.
  destruct (CosA.buf w) as [b|] eqn:Hb.
  - rewrite (uploadPart_cases w b world Hb).
    destruct b as [|x b].
    + intros H. injection H as <- <- <-. exists [].
      rewrite app_nil_r. repeat split.
    + destruct (CosA.Client (CosA.driver_ w) _ (backend world)) as [[h|e] b'];
        intros H; injection H as <- <- <-;
        (eexists; split; [reflexivity|]);
        (split; [split; cbn; now rewrite ?own_refl|]); repeat split.
  - unfold CosA.uploadPart. rewrite Hb. discriminate.
Qed.

Lemma Write_loop_log {B} (fuel : nat) :
  forall (w : CosA.writer B) (world : World B) w1 err world1,
    CosA.Write_loop fuel w world = Done (w1, err) world1 ->
    exists cs,
      calls world1 = calls world ++ cs /\ quiet w cs /\ same_upload w w1
      /\ CosA.closed w1 = CosA.closed w.
Proof.
  induction fuel as [|fuel IH]; intros w world w1 err world1; [discriminate|].
  cbn [CosA.Write_loop].
  destruct (CosA.buf w) as [b|]; [|discriminate].
  destruct (CosA.ChunkSize (CosA.driver_ w) <=? Z.of_nat (length b)).
  - unfold bind at 1.
    destruct (CosA.uploadPart w world) as [[w2 e2] world2| |] eqn:Hup;
      [|discriminate|discriminate].
    destruct (uploadPart_log w world w2 e2 world2 Hup)
      as [cs1 [Hc1 [Hq1 [Hs1 [Hcl1 _]]]]].
    destruct e2 as [e|].
    + intros H. injection H as <- <- <-. exists cs1. auto.
    + intros H. destruct (IH w2 world2 w1 err world1 H)
        as [cs2 [Hc2 [Hq2 [Hs2 Hcl2]]]].
      exists (cs1 ++ cs2). rewrite Hc2, Hc1, app_assoc.
      split; [reflexivity|].
      split; [apply quiet_app; [exact Hq1|exact (quiet_same w w2 cs2 Hs1 Hq2)]|].
      split; [exact (same_upload_trans w w2 w1 Hs1 Hs2)|congruence].
  - intros H. injection H as <- <- <-. exists [].
    rewrite app_nil_r. repeat split.
Qed.

Lemma Close_same {B} (w : CosA.writer B) :
  same_upload w (fst (CosA.Close w)).
Proof.
  unfold CosA.Close. destruct (CosA.closed w); cbn; [repeat split|].
  destruct (CosA.buf w); repeat split.
Qed.

Lemma applyA_log {B} (fuel : nat) (w : CosA.writer B) (o : op)
    (world : World B) w1 err world1 :
  applyA fuel w o world = Done (w1, err) world1 ->
  exists cs,
    calls world1 = calls world ++ cs /\ same_upload w w1
    /\ (quiet w cs
        \/ (CosA.closed w1 = true
            /\ cs = [CallAbortMultipartUpload (CosA.key w) (CosA.uploadID w)])).
Proof.
  assert (Hnil : forall wd : World B, calls wd = calls wd ++ [])
    by (intros; now rewrite app_nil_r).
  destruct o as [p| | |]; cbn [applyA].
  - unfold CosA.Write.
    destruct (CosA.closed w);
      [intros H; injection H as <- <- <-; exists []; split; [apply Hnil|];
       split; [apply same_upload_refl|left; apply quiet_nil]|].
    destruct (CosA.cancelled w);
      [intros H; injection H as <- <- <-; exists []; split; [apply Hnil|];
       split; [apply same_upload_refl|left; apply quiet_nil]|].
    destruct (CosA.committed w);
      [intros H; injection H as <- <- <-; exists []; split; [apply Hnil|];
       split; [apply same_upload_refl|left; apply quiet_nil]|].
    destruct (CosA.buf w) as [b|]; [|discriminate].
    cbv zeta. unfold bind at 1. unfold bind at 1.
    match goal with
    | |- context [CosA.Write_loop fuel ?v world] =>
        destruct (CosA.Write_loop fuel v world) as [[w2 e2] world2| |] eqn:Hloop;
          [|discriminate|discriminate];
          destruct (Write_loop_log fuel v world w2 e2 world2 Hloop)
            as [cs [Hc [Hq [Hs _]]]]
    end.
    unfold ret. cbn. intros H. inversion H; subst.
    exists cs. split; [exact Hc|]. split; [exact Hs|]. left. exact Hq.
  - pose proof (Close_same w) as Hsame. unfold ret.
    destruct (CosA.Close w) as [wc ec]. cbn [fst] in Hsame.
    intros H; injection H as <- <- <-; exists [].
    split; [apply Hnil|]. split; [exact Hsame|left; apply quiet_nil].
  - unfold CosA.Cancel. destruct (CosA.closed w) eqn:Hcl.
    + intros H; injection H as <- <- <-; exists []; split; [apply Hnil|].
      split; [apply same_upload_refl|left; apply quiet_nil].
    + unfold CosA.Close. cbn [CosA.closed CosA.set_cancelled]. rewrite Hcl.
      cbn [fst]. cbn [CosA.buf CosA.set_closed CosA.set_cancelled].
      unfold bind, call, ret.
      destruct (CosA.buf w);
        cbn;
        destruct (CosA.Client (CosA.driver_ w)
                    (CallAbortMultipartUpload (CosA.key w) (CosA.uploadID w))
                    (backend world));
        intros H; injection H as <- <- <-;
        (eexists; split; [reflexivity|]);
        (split; [repeat split|right; split; reflexivity]).
  - unfold CosA.Commit.
    destruct (CosA.closed w && negb (CosA.committed w)
              && negb (CosA.cancelled w));
      [intros H; injection H as <- <- <-; exists []; split; [apply Hnil|];
       split; [apply same_upload_refl|left; apply quiet_nil]|].
    destruct (CosA.committed w);
      [intros H; injection H as <- <- <-; exists []; split; [apply Hnil|];
       split; [apply same_upload_refl|left; apply quiet_nil]|].
    destruct (CosA.cancelled w);
      [intros H; injection H as <- <- <-; exists []; split; [apply Hnil|];
       split; [apply same_upload_refl|left; apply quiet_nil]|].
    unfold bind at 1.
    destruct (CosA.uploadPart w world) as [[w2 e2] world2| |] eqn:Hup;
      [|discriminate|discriminate].
    destruct (uploadPart_log w world w2 e2 world2 Hup)
      as [cs1 [Hc1 [Hq1 [Hs1 _]]]].
    destruct e2 as [e|].
    + intros H. injection H as <- <- <-. exists cs1. auto.
    + unfold bind, call, ret.
      pose proof (Close_same (CosA.set_committed w2 true)) as Hsame.
      destruct (CosA.Close (CosA.set_committed w2 true)) as [wc ec].
      cbn [fst] in Hsame.
      destruct (CosA.Client (CosA.driver_ w2) _ (backend world2)) as [[e|] b'];
        cbn [fst snd]; intros H; injection H as <- <- <-;
        (eexists; cbn [calls]; rewrite Hc1, <- app_assoc;
         split; [reflexivity|]); (split; [|left]).
      * exact Hs1.
      * apply quiet_app; [exact Hq1|]. apply (quiet_same w w2 _ Hs1).
        split; cbn; now rewrite ?own_refl.
      * apply (same_upload_trans w w2 _ Hs1).
        apply (same_upload_trans w2 (CosA.set_committed w2 true));
          [repeat split|exact Hsame].
      * apply quiet_app; [exact Hq1|]. apply (quiet_same w w2 _ Hs1).
        split; cbn; now rewrite ?own_refl.
Qed.

Lemma runA_app {B} (fuel : nat) (ops1 ops2 : list op) :
  forall (w : CosA.writer B) (world : World B) w1 errs1 world1,
    runA fuel w ops1 world = Done (w1, errs1) world1 ->
    runA fuel w (ops1 ++ ops2) world
    = match runA fuel w1 ops2 world1 with
      | Done (w2, errs2) world2 => Done (w2, errs1 ++ errs2) world2
      | Panic => Panic
      | OutOfFuel => OutOfFuel
      end.
Proof.
  induction ops1 as [|o ops1 IH]; intros w world w1 errs1 world1.
  - intros H. injection H as <- <- <-. cbn [app].
    destruct (runA fuel w ops2 world) as [[w2 errs2] world2| |]; reflexivity.
  - cbn [runA app]. unfold bind at 1 3.
    destruct (applyA fuel w o world) as [[wa ea] worlda| |];
      [|discriminate|discriminate].
    unfold bind at 1 2.
    destruct (runA fuel wa ops1 worlda) as [[wb eb] worldb| |] eqn:Hrun;
      [|discriminate|discriminate].
    unfold ret. intros H. injection H as <- <- <-.
    rewrite (IH wa worlda wb eb worldb Hrun).
    destruct (runA fuel wb ops2 worldb) as [[w2 errs2] world2| |]; reflexivity.
Qed.

Lemma runA_open_log {B} (fuel : nat) (ops : list op) :
  forall (w : CosA.writer B) (world : World B) w1 errs world1,
    runA fuel w ops world = Done (w1, errs) world1 ->
    CosA.closed w1 = false ->
    exists cs,
      calls world1 = calls world ++ cs /\ quiet w cs /\ same_upload w w1.
Proof.
  induction ops as [|o ops IH]; intros w world w1 errs world1.
  - intros H _. injection H as <- <- <-. exists [].
    rewrite app_nil_r. split; [reflexivity|].
    split; [apply quiet_nil|apply same_upload_refl].
  - cbn [runA]. unfold bind at 1.
    destruct (applyA fuel w o world) as [[wa ea] worlda| |] eqn:Hone;
      [|discriminate|discriminate].
    destruct (applyA_log fuel w o world wa ea worlda Hone)
      as [cs1 [Hc1 [Hs1 Hcase]]].
    unfold bind at 1.
    destruct (runA fuel wa ops worlda) as [[wb eb] worldb| |] eqn:Hrun;
      [|discriminate|discriminate].
    unfold ret. intros H Hcl. injection H as <- <- <-.
    destruct Hcase as [Hq1|[Hcla _]].
    + destruct (IH wa worlda wb eb worldb Hrun Hcl) as [cs2 [Hc2 [Hq2 Hs2]]].
      exists (cs1 ++ cs2). rewrite Hc2, Hc1, app_assoc.
      split; [reflexivity|].
      split; [apply quiet_app; [exact Hq1|exact (quiet_same w wa cs2 Hs1 Hq2)]|].
      exact (same_upload_trans w wa wb Hs1 Hs2).
    + destruct (runA_closed wa ops fuel worlda Hcla) as [errs1 [Hrun1 _]].
      rewrite Hrun1 in Hrun. injection Hrun as <- <- <-. congruence.
Qed.

Lemma CancelA_not_closed {B} (w : CosA.writer B) (world : World B) :
  CosA.closed w = false ->
  let abort := CallAbortMultipartUpload (CosA.key w) (CosA.uploadID w) in
  exists w2,
    CosA.Cancel w world
    = Done (w2, fst (CosA.Client (CosA.driver_ w) abort (backend world)))
        (mkWorld (snd (CosA.Client (CosA.driver_ w) abort (backend world)))
           (calls world ++ [abort]))
    /\ CosA.closed w2 = true /\ CosA.cancelled w2 = true.
Proof.
  intros Hcl abort. unfold CosA.Cancel. rewrite Hcl.
  unfold CosA.Close. cbn [CosA.closed CosA.set_cancelled]. rewrite Hcl.
  cbn [fst]. cbn [CosA.buf CosA.set_closed CosA.set_cancelled].
  unfold bind, call, ret.
  destruct (CosA.buf w); cbn; fold abort;
    destruct (CosA.Client (CosA.driver_ w) abort (backend world));
    eexists; (split; [reflexivity|split; reflexivity]).
Qed.

(** X19. The requests of a writer of [cos.go]. In a run of [Write],
    [Close], [Cancel] and [Commit] calls on a writer that [Writer]
    returned, as long as the writer has not been closed every request
    is a part or the completion of the writer's own multipart upload and
    none is an abort. A [Cancel] on such a writer sends the abort of
    that upload as its one request, returns what the backend answers,
    and leaves the writer closed and cancelled; whatever calls follow,
    all return and the abort stays the last request: after [Cancel] no
    part is uploaded and nothing is completed. *)
Theorem X19_abort_is_last_request :
  forall (B : Type) (d : CosA.driver B) (key uploadID : string)
         (ops1 ops2 : list op) (fuel : nat) (world : World B)
         (w1 : CosA.writer B) (errs1 : list (option error))
         (world1 : World B),
    runA fuel (CosA.newWriter d key uploadID []) ops1 world
    = Done (w1, errs1) world1 ->
    CosA.closed w1 = false ->
    exists cs1 w2 errs2,
      calls world1 = calls world ++ cs1
      /\ forallb (own key uploadID) cs1 = true
      /\ forallb (fun c => negb (is_abort c)) cs1 = true
      /\ runA fuel (CosA.newWriter d key uploadID [])
           (ops1 ++ OpCancel :: ops2) world
         = Done (w2,
                 errs1
                 ++ fst (CosA.Client d
                           (CallAbortMultipartUpload key uploadID)
                           (backend world1))
                    :: errs2)
             (mkWorld
                (snd (CosA.Client d (CallAbortMultipartUpload key uploadID)
                        (backend world1)))
                (calls world ++ cs1
                 ++ [CallAbortMultipartUpload key uploadID]))
      /\ length errs2 = length ops2
      /\ CosA.closed w2 = true /\ CosA.cancelled w2 = true.
Proof.
  intros B d key uploadID ops1 ops2 fuel world w1 errs1 world1 Hrun Hcl.
  destruct (runA_open_log fuel ops1 _ world w1 errs1 world1 Hrun Hcl)
    as [cs1 [Hc1 [[Hown Hquiet] [Hk [Hi Hd]]]]].
  cbn [CosA.key CosA.uploadID CosA.driver_ CosA.newWriter] in Hown, Hk, Hi, Hd.
  destruct (CancelA_not_closed w1 world1 Hcl) as [w2 [Hcancel [Hcl2 Hca2]]].
  rewrite Hk, Hi, Hd in Hcancel.
  destruct (runA_closed w2 ops2 fuel
              (mkWorld
                 (snd (CosA.Client d (CallAbortMultipartUpload key uploadID)
                         (backend world1)))
                 (calls world1 ++ [CallAbortMultipartUpload key uploadID]))
              Hcl2) as [errs2 [Hrest Hlen]].
  exists cs1, w2, errs2.
  split; [exact Hc1|]. split; [exact Hown|]. split; [exact Hquiet|].
  split; [|auto].
  rewrite (runA_app fuel ops1 (OpCancel :: ops2) _ world w1 errs1 world1 Hrun).
  cbn [runA applyA]. unfold bind at 1. rewrite Hcancel.
  unfold bind at 1. rewrite Hrest. unfold ret.
  rewrite Hc1, <- app_assoc. reflexivity.
Qed.

Lemma X19_abort_is_last_request_witness :
  exists cs1 w2 errs2,
    [CallUploadPart "blob" "upload-1" 1 ["x"; "y"]%byte] = [] ++ cs1
    /\ forallb (own "blob" "upload-1") cs1 = true
    /\ forallb (fun c => negb (is_abort c)) cs1 = true
    /\ runA 2
         (CosA.newWriter (Backends.driverA Backends.emptyBucket 2) "blob"
            "upload-1" [])
         ([OpWrite ["x"; "y"]%byte]
          ++ OpCancel :: [OpCommit; OpWrite ["z"%byte]])
         Backends.start
       = Done (w2, [None] ++ None :: errs2)
           (mkWorld tt
              ([] ++ cs1 ++ [CallAbortMultipartUpload "blob" "upload-1"]))
    /\ length errs2 = 2%nat
    /\ CosA.closed w2 = true /\ CosA.cancelled w2 = true.
Proof.
  apply (X19_abort_is_last_request unit
           (Backends.driverA Backends.emptyBucket 2) "blob" "upload-1"
           [OpWrite ["x"; "y"]%byte] [OpCommit; OpWrite ["z"%byte]]
           2%nat Backends.start
           (CosA.mkWriter (Backends.driverA Backends.emptyBucket 2) "blob"
              "upload-1" [mkObject "" 1 "etag"] 2 (Some []) false false false)
           [None]
           (mkWorld tt [CallUploadPart "blob" "upload-1" 1 ["x"; "y"]%byte])).
  - reflexivity.
  - reflexivity.
Defined.

(** ** The prefix that [Delete] sweeps *)








